(** * VoiceInsight: conversation manager and metrics batcher

    A shallow embedding of [frontend/src/services/api.ts]: the
    [ConversationManager] class (local persistence, message ledger,
    emotional summaries, daily insights, history and export), the
    queueing and formatting parts of [CloudWatchService] and the query
    strings of the requests to the backend, followed by the properties
    the specification states about them and by further properties of
    the code.

    Conventions of the embedding.
    - A JavaScript [number] is a rational ([Q]) that stands for the
      double nearest to it, as a numeral of a program or of a JSON text
      does; the arithmetic of the code rounds every result to a double
      ([Nadd], [Nmul], [Ndiv]).  There is no NaN and no infinity: a
      result beyond the largest double is outside the model.  A
      truthiness test on a number is a test against zero.  Counters are
      natural numbers.
    - A [Date] is its time value in milliseconds since the epoch, or the
      invalid date.
    - A string is the sequence of its code units, each below 256.
    - An optional field is an [option]; [None] stands both for an absent
      property and for one holding [undefined].
    - A JavaScript object used as a dictionary is an association list
      that holds its own properties in enumeration order (array-index
      keys in ascending order first, then the other keys in insertion
      order), which is the order [Object.entries], [Object.values] and
      [JSON.stringify] visit them in.  A lookup under a key that the
      data supply (an emotion label, the name of a metric) goes on to
      [Object.prototype] when the object has no such property of its
      own ([inherited]).  The string of a calendar day, under which the
      insights are kept, names no member of [Object.prototype].
    - Objects mutated in place are threaded through explicitly: every
      operation of the manager takes the state of the manager and returns
      the new one.  Readings of the clock ([new Date()]) and fresh
      identifiers ([generateId()]) are arguments of the operation that
      asks for them. *)

From Stdlib Require Import ZArith QArith Qround Qabs String Ascii List Bool Lia Permutation Sorted.
From stdpp Require Import base option list strings pretty gmap.
Import ListNotations.

Local Open Scope Z_scope.

(** ** Numbers and dates *)

Abbreviation number := Q (only parsing).

(** *** Doubles

    [double q] is the double nearest to [q]: [q] rounded to 53
    significant bits, or to a multiple of 2^-1074 where that is coarser
    (the subnormal range), a tie going to the even neighbour. *)

(** The integer part of the binary logarithm of a positive rational. *)
Definition ilog2 (q : Q) : Z :=
  let e := Z.log2 (Qnum q) - Z.log2 (Zpos (Qden q)) in
  if Qle_bool (Qpower 2 e) q then e else e - 1.

Definition round_half_even (q : Q) : Z :=
  let f := Qfloor q in
  match Qcompare (q - inject_Z f) (1 # 2) with
  | Lt => f
  | Gt => f + 1
  | Eq => if Z.even f then f else f + 1
  end.

(** The double nearest to a positive rational. *)
Definition nearest (q : Q) : Q :=
  let ulp := Qpower 2 (Z.max (ilog2 q - 52) (-1074)) in
  (inject_Z (round_half_even (q / ulp)) * ulp)%Q.

Definition double (q : Q) : Q :=
  match Qcompare q 0 with
  | Eq => 0%Q
  | Gt => nearest q
  | Lt => (- nearest (- q))%Q
  end.

(** [x + y], [x * y] and [x / y] on numbers: the exact result, rounded. *)
Definition Nadd (x y : number) : number := double (double x + double y).
Definition Nmul (x y : number) : number := double (double x * double y).
Definition Ndiv (x y : number) : number := double (double x / double y).

(** [if (x)] on a number. *)
Definition truthy (x : number) : bool := negb (Qeq_bool (double x) 0).

Inductive Date : Type :=
| InvalidDate
| TimeValue (t : Z).

Definition msPerDay : Z := 86400000.

(** The largest time value of ECMAScript, 100 000 000 days. *)
Definition maxTime : Z := 8640000000000000.

Definition valid_time (t : Z) : bool := (- maxTime <=? t) && (t <=? maxTime).

(** A date that denotes an instant. *)
Definition valid_date (d : Date) : bool :=
  match d with
  | InvalidDate => false
  | TimeValue t => valid_time t
  end.

(** [TimeClip]. *)
Definition TimeClip (t : Z) : Date :=
  if valid_time t then TimeValue t else InvalidDate.

(** [a >= b] on dates: the time values are compared, and a comparison
    with the invalid date (NaN) is false. *)
Definition date_geb (a b : Date) : bool :=
  match a, b with
  | TimeValue x, TimeValue y => y <=? x
  | _, _ => false
  end.

(** *** The proleptic Gregorian calendar

    Days since the epoch to year, month, day and back, by eras of 400
    years (146097 days) that start on the first of March. *)

(** Year of the era and day of that year, for a day of the era: the
    centuries (the fourth takes the extra day), the four-year cycles and
    the years (the fourth takes the leap day) are peeled off in turn. *)
Definition yoe_of_doe (doe : Z) : Z :=
  let n100 := Z.min (doe / 36524) 3 in
  let d2 := doe - n100 * 36524 in
  let n4 := d2 / 1461 in
  let d3 := d2 - n4 * 1461 in
  let n1 := Z.min (d3 / 365) 3 in
  n100 * 100 + n4 * 4 + n1.

Definition doy_of_doe (doe : Z) : Z :=
  let yoe := yoe_of_doe doe in
  doe - (365 * yoe + yoe / 4 - yoe / 100).

Definition month_of_doy (doy : Z) : Z :=
  let mp := (5 * doy + 2) / 153 in
  if mp <? 10 then mp + 3 else mp - 9.

Definition day_of_doy (doy : Z) : Z :=
  let mp := (5 * doy + 2) / 153 in
  doy - (153 * mp + 2) / 5 + 1.

Definition civil_from_days (z : Z) : Z * Z * Z :=
  let z := z + 719468 in
  let era := z / 146097 in
  let doe := z - era * 146097 in
  let y := yoe_of_doe doe + era * 400 in
  let m := month_of_doy (doy_of_doe doe) in
  let d := day_of_doy (doy_of_doe doe) in
  (if m <=? 2 then y + 1 else y, m, d).

Definition doy_of_md (m d : Z) : Z :=
  (153 * (if 2 <? m then m - 3 else m + 9) + 2) / 5 + d - 1.

Definition doe_of_ymd (yoe m d : Z) : Z :=
  yoe * 365 + yoe / 4 - yoe / 100 + doy_of_md m d.

Definition days_from_civil (y m d : Z) : Z :=
  let y := if m <=? 2 then y - 1 else y in
  let era := y / 400 in
  let yoe := y - era * 400 in
  era * 146097 + doe_of_ymd yoe m d - 719468.

(** *** Decimal fields *)

Definition digit (n : Z) : ascii := ascii_of_nat (48 + Z.to_nat n).

Definition is_digit (c : ascii) : bool :=
  let n := nat_of_ascii c in (48 <=? n)%nat && (n <=? 57)%nat.

Definition digit_val (c : ascii) : Z := Z.of_nat (nat_of_ascii c - 48).

(** [pad w n]: the [w] low decimal digits of [n], most significant
    first. *)
Fixpoint pad (w : nat) (n : Z) : string :=
  match w with
  | O => EmptyString
  | S w' => String (digit ((n / 10 ^ Z.of_nat w') mod 10)) (pad w' n)
  end.

Fixpoint read_digits (w : nat) (acc : Z) (s : string) : option (Z * string) :=
  match w with
  | O => Some (acc, s)
  | S w' =>
      match s with
      | String c s' =>
          if is_digit c then read_digits w' (10 * acc + digit_val c) s' else None
      | EmptyString => None
      end
  end.

Definition expect (c : ascii) (s : string) : option string :=
  match s with
  | String c' s' => if Ascii.eqb c c' then Some s' else None
  | EmptyString => None
  end.

(** *** [Date.prototype.toISOString] and [Date.parse]

    [YYYY-MM-DDTHH:mm:ss.sssZ], the year written with a sign and six
    digits outside 0..9999. *)

Definition iso_year (y : Z) : string :=
  if (0 <=? y) && (y <=? 9999) then pad 4 y
  else String (if y <? 0 then "-"%char else "+"%char) (pad 6 (Z.abs y)).

Definition iso_of_time (t : Z) : string :=
  let day := t / msPerDay in
  let ms := t mod msPerDay in
  let '(y, m, d) := civil_from_days day in
  iso_year y +:+ String "-" (pad 2 m +:+ String "-" (pad 2 d +:+
  String "T" (pad 2 (ms / 3600000) +:+ String ":" (pad 2 ((ms / 60000) mod 60) +:+
  String ":" (pad 2 ((ms / 1000) mod 60) +:+ String "." (pad 3 (ms mod 1000) +:+
  String "Z" EmptyString)))))).

(** [toISOString] throws a RangeError on the invalid date; [toJSON]
    turns that case into [null]. *)
Definition toISOString (d : Date) : option string :=
  match d with
  | TimeValue t => if valid_time t then Some (iso_of_time t) else None
  | InvalidDate => None
  end.

Definition read_year (s : string) : option (Z * string) :=
  match s with
  | String "+" s' => read_digits 6 0 s'
  | String "-" s' =>
      match read_digits 6 0 s' with
      | Some (y, r) => if y =? 0 then None else Some (- y, r)
      | None => None
      end
  | _ => read_digits 4 0 s
  end.

(** The date-time string format in its complete UTC form, which is what
    [toISOString] writes.  Engines read further forms (date only, local
    time, offsets, legacy formats); no such string is ever written by
    the manager, and the model reads them as the invalid date. *)
Definition parse_iso (s : string) : option Z :=
  '(y, s) ← read_year s;
  s ← expect "-" s;
  '(m, s) ← read_digits 2 0 s;
  s ← expect "-" s;
  '(d, s) ← read_digits 2 0 s;
  s ← expect "T" s;
  '(hh, s) ← read_digits 2 0 s;
  s ← expect ":" s;
  '(mm, s) ← read_digits 2 0 s;
  s ← expect ":" s;
  '(ss, s) ← read_digits 2 0 s;
  s ← expect "." s;
  '(ms, s) ← read_digits 3 0 s;
  s ← expect "Z" s;
  match s with
  | EmptyString =>
      if (1 <=? m) && (m <=? 12) && (1 <=? d) && (d <=? 31)
         && (hh <=? 23) && (mm <=? 59) && (ss <=? 59)
      then Some (days_from_civil y m d * msPerDay
                 + hh * 3600000 + mm * 60000 + ss * 1000 + ms)
      else None
  | _ => None
  end.

(** [Date.parse(s)], for the strings [toISOString] writes, which are
    the ones the manager stores and reads back.  For a string of
    another form an engine may read a date where this reads none. *)
Definition Date_parse (s : string) : Date :=
  match parse_iso s with
  | Some t => TimeClip t
  | None => InvalidDate
  end.

(** *** Checking a range of days

    [range_all f n start]: [f] holds of the [n] integers from [start] on. *)
Fixpoint range_all (f : Z -> bool) (n : nat) (start : Z) : bool :=
  match n with
  | O => true
  | S n' => f start && range_all f n' (start + 1)
  end.

(** The day [doy] of a year that starts in March comes back from its
    month and day, which are in range. *)
Definition doy_ok (doy : Z) : bool :=
  let m := month_of_doy doy in
  let d := day_of_doy doy in
  (1 <=? m) && (m <=? 12) && (1 <=? d) && (d <=? 31) && (doy_of_md m d =? doy).

(** ** JavaScript values, objects and JSON *)

Set Warnings "-register-all".

Inductive jsval : Type :=
| JUndefined
| JNull
| JBool (b : bool)
| JNum (q : number)
| JStr (s : string)
| JDate (d : Date)
| JArr (elems : list jsval)
| JObj (props : list (string * jsval)).

(** A JSON document, as [JSON.stringify] writes it and [JSON.parse]
    reads it.  The text itself is not modelled: a document stands for its
    text up to white space, and [JSON.parse] of a text that
    [JSON.stringify] wrote is the document it was written from. *)
Inductive json : Type :=
| JsonNull
| JsonBool (b : bool)
| JsonNum (q : number)
| JsonStr (s : string)
| JsonArr (elems : list json)
| JsonObj (members : list (string * json)).

(** *** Objects as dictionaries *)

Fixpoint decimal_value (s : string) (acc : N) : option N :=
  match s with
  | EmptyString => Some acc
  | String c s' =>
      if is_digit c
      then decimal_value s' (10 * acc + N.of_nat (nat_of_ascii c - 48))%N
      else None
  end.

(** An array index: the canonical decimal form of an integer below
    2^32 - 1.  Such keys are enumerated first, in ascending order. *)
Definition array_index (k : string) : option N :=
  match k with
  | EmptyString => None
  | String c rest =>
      if Ascii.eqb c "0"
      then match rest with EmptyString => Some 0%N | _ => None end
      else match decimal_value k 0 with
           | Some n => if (n <=? 4294967294)%N then Some n else None
           | None => None
           end
  end.

Section Objects.
Context {V : Type}.

(** [o[k]] *)
Fixpoint obj_get (k : string) (o : list (string * V)) : option V :=
  match o with
  | [] => None
  | (k', v) :: o' => if String.eqb k k' then Some v else obj_get k o'
  end.

(** [o[k] = v] for a key [o] already has: the property keeps its
    place. *)
Fixpoint obj_replace (k : string) (v : V) (o : list (string * V)) : list (string * V) :=
  match o with
  | [] => []
  | (k', v') :: o' =>
      if String.eqb k k' then (k', v) :: o' else (k', v') :: obj_replace k v o'
  end.

(** A new array-index key goes before the first key that is not an
    array index or is a larger one. *)
Fixpoint obj_insert_index (n : N) (k : string) (v : V) (o : list (string * V))
  : list (string * V) :=
  match o with
  | [] => [(k, v)]
  | (k', v') :: o' =>
      match array_index k' with
      | Some n' =>
          if (n' <? n)%N then (k', v') :: obj_insert_index n k v o'
          else (k, v) :: o
      | None => (k, v) :: o
      end
  end.

(** [o[k] = v] *)
Definition obj_set (k : string) (v : V) (o : list (string * V)) : list (string * V) :=
  match obj_get k o with
  | Some _ => obj_replace k v o
  | None =>
      match array_index k with
      | Some n => obj_insert_index n k v o
      | None => o ++ [(k, v)]
      end
  end.

Definition Object_keys (o : list (string * V)) : list string := List.map fst o.
Definition Object_values (o : list (string * V)) : list V := List.map snd o.
Definition Object_entries (o : list (string * V)) : list (string * V) := o.
End Objects.

(** *** [Array.prototype.sort]

    The sort is stable and the comparator orders [x] before [y] when it
    is negative.  Every stable sort gives the same array for a
    comparator that is a total preorder; this one inserts from the
    right. *)
Section Sort.
Context {A : Type} (compareFn : A -> A -> Z).

Fixpoint sort_insert (x : A) (l : list A) : list A :=
  match l with
  | [] => [x]
  | y :: l' => if compareFn x y <=? 0 then x :: l else y :: sort_insert x l'
  end.

Definition Array_sort (l : list A) : list A := fold_right sort_insert [] l.
End Sort.

(** *** [JSON.stringify] and [JSON.parse]

    [None] is [undefined]: a member that holds it is left out of its
    object, an element that holds it is written [null].  A date is
    written through [toJSON]: its ISO string, or [null] when invalid. *)
Fixpoint JSON_stringify (v : jsval) : option json :=
  match v with
  | JUndefined => None
  | JNull => Some JsonNull
  | JBool b => Some (JsonBool b)
  | JNum q => Some (JsonNum q)
  | JStr s => Some (JsonStr s)
  | JDate d =>
      Some (match toISOString d with Some s => JsonStr s | None => JsonNull end)
  | JArr l =>
      Some (JsonArr (List.map (fun x => default JsonNull (JSON_stringify x)) l))
  | JObj ps =>
      Some (JsonObj
        (List.flat_map
           (fun kx => match JSON_stringify (snd kx) with
                      | Some j => [(fst kx, j)]
                      | None => []
                      end) ps))
  end.

Fixpoint JSON_parse (j : json) : jsval :=
  match j with
  | JsonNull => JNull
  | JsonBool b => JBool b
  | JsonNum q => JNum q
  | JsonStr s => JStr s
  | JsonArr l => JArr (List.map JSON_parse l)
  | JsonObj ms => JObj (List.map (fun kx => (fst kx, JSON_parse (snd kx))) ms)
  end.

(** *** Reading properties, spreading, [new Date(value)] *)

(** [v.k] for a name [k] that no prototype defines.  [None]: a
    TypeError, [v] is [null] or [undefined]. *)
Definition get_prop (v : jsval) (k : string) : option jsval :=
  match v with
  | JUndefined | JNull => None
  | JObj ps => Some (default JUndefined (obj_get k ps))
  | _ => Some JUndefined
  end.

Definition indexed (l : list jsval) : list (string * jsval) :=
  imap (fun i x => (pretty i, x)) l.

Fixpoint chars (s : string) : list jsval :=
  match s with
  | EmptyString => []
  | String c s' => JStr (String c EmptyString) :: chars s'
  end.

(** The own enumerable properties [{...v}] copies. *)
Definition own_props (v : jsval) : list (string * jsval) :=
  match v with
  | JObj ps => ps
  | JArr l => indexed l
  | JStr s => indexed (chars s)
  | _ => []
  end.

(** [new Date(value)].  An array or object goes through its string
    form, which [Date_parse] does not read. *)
Definition newDate (v : jsval) : Date :=
  match v with
  | JDate d => d
  | JStr s => Date_parse s
  | JUndefined => InvalidDate
  | JNull => TimeValue 0
  | JBool b => TimeValue (if b then 1 else 0)
  | JNum q => TimeClip (Z.quot (Qnum q) (Zpos (Qden q)))
  | JArr _ | JObj _ => InvalidDate
  end.

(** *** The prototype of an object literal

    The names every object inherits from [Object.prototype]: a lookup
    of one of them in an object literal that has no such property of
    its own finds the inherited member. *)
Definition inherited_names : list string :=
  ["constructor"; "hasOwnProperty"; "isPrototypeOf"; "propertyIsEnumerable";
   "toLocaleString"; "toString"; "valueOf"; "__proto__";
   "__defineGetter__"; "__defineSetter__"; "__lookupGetter__"; "__lookupSetter__"].

Definition inherited (k : string) : bool :=
  existsb (String.eqb k) inherited_names.

(** The string [+] makes of the inherited member [k]: the source text
    of a built-in function, [constructor] being [Object], and the
    string form of [Object.prototype] itself, which [__proto__] reads.
    The text of a built-in function is written as V8 and JavaScriptCore
    write it; the engines differ in its white space only. *)
Definition member_text (k : string) : string :=
  if String.eqb k "__proto__" then "[object Object]"
  else "function " +:+ (if String.eqb k "constructor" then "Object" else k)
       +:+ "() { [native code] }".

(** *** Numbers read from strings

    What [ToNumber] gives: the model of numbers has no NaN and no
    infinity, a string read as a number can give either. *)
Inductive numeric : Type :=
| NotANumber
| Infinity (negative : bool)
| Number (q : number).

(** White space and line terminators among the code units below 256. *)
Definition is_space (c : ascii) : bool :=
  let n := nat_of_ascii c in
  ((9 <=? n)%nat && (n <=? 13)%nat) || (n =? 32)%nat || (n =? 160)%nat.

Fixpoint trim_start (s : string) : string :=
  match s with
  | String c s' => if is_space c then trim_start s' else s
  | EmptyString => EmptyString
  end.

Fixpoint trim_end (s : string) : string :=
  match s with
  | EmptyString => EmptyString
  | String c s' =>
      match trim_end s' with
      | EmptyString => if is_space c then EmptyString else String c EmptyString
      | t => String c t
      end
  end.

Definition digit_of (c : ascii) : option Z :=
  let n := Z.of_nat (nat_of_ascii c) in
  if (48 <=? n) && (n <=? 57) then Some (n - 48)
  else if (97 <=? n) && (n <=? 102) then Some (n - 87)
  else if (65 <=? n) && (n <=? 70) then Some (n - 55)
  else None.

(** The value of the digits of [s] in a base, after those of [acc];
    [None] when [s] holds another character. *)
Fixpoint digits (base : Z) (acc : Z) (s : string) : option Z :=
  match s with
  | EmptyString => Some acc
  | String c s' =>
      match digit_of c with
      | Some d => if d <? base then digits base (base * acc + d) s' else None
      | None => None
      end
  end.

Definition all_digits (base : Z) (s : string) : option Z :=
  match s with
  | EmptyString => None
  | _ => digits base 0 s
  end.

(** The decimal digits [s] starts with, and the rest. *)
Fixpoint span_digits (s : string) : string * string :=
  match s with
  | String c s' =>
      if is_digit c
      then let '(d, r) := span_digits s' in (String c d, r)
      else (EmptyString, s)
  | EmptyString => (EmptyString, EmptyString)
  end.

(** The double nearest to [q], an infinity from 2^1024 on. *)
Definition finite (q : Q) : numeric :=
  if Qle_bool (Qpower 2 1024) (Qabs (double q))
  then Infinity (Qle_bool q 0)
  else Number (double q).

Definition exponent_part (s : string) : option Z :=
  match s with
  | EmptyString => Some 0
  | String c s' =>
      if Ascii.eqb c "e" || Ascii.eqb c "E" then
        match s' with
        | String "+" d => all_digits 10 d
        | String "-" d => Z.opp <$> all_digits 10 d
        | d => all_digits 10 d
        end
      else None
  end.

(** [Infinity], or digits with a point among, before or after them and
    an exponent after that. *)
Definition unsigned_decimal (s : string) : option numeric :=
  if String.eqb s "Infinity" then Some (Infinity false)
  else
    let '(int_part, r) := span_digits s in
    let '(frac_part, r) :=
      match r with
      | String "." r' => span_digits r'
      | _ => (EmptyString, r)
      end in
    match int_part +:+ frac_part with
    | EmptyString => None
    | mantissa =>
        m ← digits 10 0 mantissa;
        e ← exponent_part r;
        Some (finite (inject_Z m * Qpower 10 (e - Z.of_nat (String.length frac_part))))
    end.

Definition negate (x : numeric) : numeric :=
  match x with
  | NotANumber => NotANumber
  | Infinity s => Infinity (negb s)
  | Number q => Number (- q)
  end.

Definition radix_literal (base : Z) (d : string) : numeric :=
  from_option (fun n => finite (inject_Z n)) NotANumber (all_digits base d).

(** [Number(s)] for a string: white space trimmed, the empty string is
    0, a literal in base 16, 8 or 2 takes no sign, anything that is no
    numeric literal is NaN. *)
Definition StringToNumber (s : string) : numeric :=
  match trim_end (trim_start s) with
  | EmptyString => Number 0
  | String "0" (String c d) as t =>
      if Ascii.eqb c "x" || Ascii.eqb c "X" then radix_literal 16 d
      else if Ascii.eqb c "o" || Ascii.eqb c "O" then radix_literal 8 d
      else if Ascii.eqb c "b" || Ascii.eqb c "B" then radix_literal 2 d
      else default NotANumber (unsigned_decimal t)
  | String "+" t => default NotANumber (unsigned_decimal t)
  | String "-" t => default NotANumber (negate <$> unsigned_decimal t)
  | t => default NotANumber (unsigned_decimal t)
  end.

(** The sign of [x - y]: -1, 0 or 1, and 0 where the difference is
    NaN, which is how [Array.prototype.sort] reads a comparator that
    returns it. *)
Definition difference_sign (x y : numeric) : Z :=
  match x, y with
  | Number a, Number b =>
      match Qcompare a b with Lt => -1 | Eq => 0 | Gt => 1 end
  | Infinity n, Number _ => if n then -1 else 1
  | Number _, Infinity n => if n then 1 else -1
  | Infinity n, Infinity n' => if Bool.eqb n n' then 0 else if n then -1 else 1
  | _, _ => 0
  end.

(** *** The values of a dictionary of counts

    The code keeps its counts in object literals under keys that the
    data supply.  Such a dictionary holds numbers as long as no key is
    an inherited name; [(o[k] || 0) + n] under an inherited name finds
    the member, and [+] then concatenates: the dictionary comes to hold
    a string. *)
Inductive tallied : Type :=
| Counted (n : nat)
| Garbled (text : string).

(** A count is written in decimal digits, as every count below 10^21
    is. *)
Definition ToString (v : tallied) : string :=
  match v with
  | Counted n => pretty n
  | Garbled s => s
  end.

Definition ToNumber (v : tallied) : numeric :=
  match v with
  | Counted n => Number (inject_Z (Z.of_nat n))
  | Garbled s => StringToNumber s
  end.

(** [o[k] || 0], as the primitive value that [+] makes of it: the
    property of [o] itself, else the inherited member, else 0; the
    number 0 and the empty string are falsy. *)
Definition or_zero (k : string) (o : list (string * tallied)) : tallied :=
  match obj_get k o with
  | Some (Counted n) => Counted n
  | Some (Garbled s) => if String.eqb s "" then Counted 0 else Garbled s
  | None => if inherited k then Garbled (member_text k) else Counted 0
  end.

(** [x + y]: the sum of two numbers, the concatenation when either is
    a string. *)
Definition plus (x y : tallied) : tallied :=
  match x, y with
  | Counted a, Counted b => Counted (a + b)
  | _, _ => Garbled (ToString x +:+ ToString y)
  end.

(** [o[k] = v] for a number or a string [v].  [__proto__] is an
    accessor of [Object.prototype]: where [o] has no property of that
    name, its setter takes the value and, the value being no object,
    leaves [o] alone. *)
Definition assign (k : string) (v : tallied) (o : list (string * tallied))
  : list (string * tallied) :=
  match obj_get k o with
  | None => if String.eqb k "__proto__" then o else obj_set k v o
  | Some _ => obj_set k v o
  end.

(** ** The data model ([types/index.ts]) *)

Record TopEmotion : Type := {
  te_emotion : string;
  te_score : number;
  te_category : string;
  te_intensity : string
}.

Record EmotionAnalysis : Type := {
  primary_emotion : string;
  emotion_scores : list (string * number);
  confidence : number;
  category : string;
  intensity : string;
  top_emotions : option (list TopEmotion)
}.

Record DetectedLanguageInfo : Type := {
  dl_language : string;
  dl_confidence : number;
  all_probabilities : list (string * number)
}.

Record ProcessingResult : Type := {
  transcript : string;
  original_transcript : option string;
  transcript_confidence : number;
  language : string;
  language_name : option string;
  is_south_indian_language : option bool;
  sentiment : string;
  sentiment_confidence : number;
  sentiment_scores : list (string * number);
  processing_time : number;
  totalProcessingTime : option number;
  detected_language_info : option DetectedLanguageInfo;
  sentiment_method : option string;
  emotions : option EmotionAnalysis
}.

Inductive MessageType : Type := user | ai.

Record Message : Type := {
  msg_id : string;
  type : MessageType;
  content : string;
  timestamp : Date;
  audioUrl : option string;
  processingResult : option ProcessingResult;
  isTyping : option bool
}.

(** [emotionDistribution] is declared a dictionary of numbers; what the
    code keeps in it is a number or, under a label that names an
    inherited member, a string ([tallied]). *)
Record EmotionalSummary : Type := {
  dominantEmotion : string;
  averageSentiment : number;
  emotionDistribution : list (string * tallied)
}.

Record Conversation : Type := {
  conv_id : string;
  title : string;
  messages : list Message;
  createdAt : Date;
  updatedAt : Date;
  emotionalSummary : option EmotionalSummary
}.

Record EmotionalInsight : Type := {
  date : string;
  insightDominantEmotion : string;
  sentimentScore : number;
  conversationCount : nat;
  emotionBreakdown : list (string * tallied)
}.

(** [Omit<Message, 'id' | 'timestamp'>], the argument of [addMessage]. *)
Record NewMessage : Type := {
  new_type : MessageType;
  new_content : string;
  new_audioUrl : option string;
  new_processingResult : option ProcessingResult;
  new_isTyping : option bool
}.

(** [Partial<Message>], the argument of [updateMessage].  [None]: the
    key is not in the object.  For an optional field, [Some None] is the
    key holding [undefined], which the spread copies like any other
    value. *)
Record MessageUpdate : Type := {
  upd_id : option string;
  upd_type : option MessageType;
  upd_content : option string;
  upd_timestamp : option Date;
  upd_audioUrl : option (option string);
  upd_processingResult : option (option ProcessingResult);
  upd_isTyping : option (option bool)
}.

(** *** The typed values as JavaScript values

    The order of the keys of a record is fixed here; the code reads
    these objects by key only. *)

Definition field {A : Type} (k : string) (f : A -> jsval) (x : option A)
  : list (string * jsval) :=
  match x with
  | Some a => [(k, f a)]
  | None => []
  end.

Definition number_dict (d : list (string * number)) : jsval :=
  JObj (List.map (fun kv => (fst kv, JNum (snd kv))) d).

Definition tallied_to_js (v : tallied) : jsval :=
  match v with
  | Counted n => JNum (inject_Z (Z.of_nat n))
  | Garbled s => JStr s
  end.

Definition count_dict (d : list (string * tallied)) : jsval :=
  JObj (List.map (fun kv => (fst kv, tallied_to_js (snd kv))) d).

Definition TopEmotion_to_js (e : TopEmotion) : jsval :=
  JObj [("emotion", JStr (te_emotion e)); ("score", JNum (te_score e));
        ("category", JStr (te_category e)); ("intensity", JStr (te_intensity e))].

Definition EmotionAnalysis_to_js (e : EmotionAnalysis) : jsval :=
  JObj ([("primary_emotion", JStr (primary_emotion e));
         ("emotion_scores", number_dict (emotion_scores e));
         ("confidence", JNum (confidence e));
         ("category", JStr (category e));
         ("intensity", JStr (intensity e))]
        ++ field "top_emotions" (fun l => JArr (List.map TopEmotion_to_js l))
             (top_emotions e)).

Definition DetectedLanguageInfo_to_js (i : DetectedLanguageInfo) : jsval :=
  JObj [("language", JStr (dl_language i)); ("confidence", JNum (dl_confidence i));
        ("all_probabilities", number_dict (all_probabilities i))].

Definition ProcessingResult_to_js (r : ProcessingResult) : jsval :=
  JObj ([("transcript", JStr (transcript r))]
        ++ field "original_transcript" JStr (original_transcript r)
        ++ [("transcript_confidence", JNum (transcript_confidence r));
            ("language", JStr (language r))]
        ++ field "language_name" JStr (language_name r)
        ++ field "is_south_indian_language" JBool (is_south_indian_language r)
        ++ [("sentiment", JStr (sentiment r));
            ("sentiment_confidence", JNum (sentiment_confidence r));
            ("sentiment_scores", number_dict (sentiment_scores r));
            ("processing_time", JNum (processing_time r))]
        ++ field "totalProcessingTime" JNum (totalProcessingTime r)
        ++ field "detected_language_info" DetectedLanguageInfo_to_js
             (detected_language_info r)
        ++ field "sentiment_method" JStr (sentiment_method r)
        ++ field "emotions" EmotionAnalysis_to_js (emotions r)).

Definition MessageType_to_js (t : MessageType) : jsval :=
  JStr (match t with user => "user" | ai => "ai" end).

Definition Message_to_js (m : Message) : jsval :=
  JObj ([("type", MessageType_to_js (type m)); ("content", JStr (content m))]
        ++ field "audioUrl" JStr (audioUrl m)
        ++ field "processingResult" ProcessingResult_to_js (processingResult m)
        ++ field "isTyping" JBool (isTyping m)
        ++ [("id", JStr (msg_id m)); ("timestamp", JDate (timestamp m))]).

Definition EmotionalSummary_to_js (s : EmotionalSummary) : jsval :=
  JObj [("dominantEmotion", JStr (dominantEmotion s));
        ("averageSentiment", JNum (averageSentiment s));
        ("emotionDistribution", count_dict (emotionDistribution s))].

Definition Conversation_to_js (c : Conversation) : jsval :=
  JObj ([("id", JStr (conv_id c)); ("title", JStr (title c));
         ("messages", JArr (List.map Message_to_js (messages c)));
         ("createdAt", JDate (createdAt c)); ("updatedAt", JDate (updatedAt c))]
        ++ field "emotionalSummary" EmotionalSummary_to_js (emotionalSummary c)).

(** ** Persistence layer *)

(** What [localStorage.getItem('conversations')] holds. *)
Inductive item : Type :=
| Absent                  (* no item, or the empty string *)
| Malformed               (* a text that [JSON.parse] rejects *)
| Document (j : json).

(** The store refuses a write ([setItem] throws) when its quota is
    exceeded. *)
Record Storage : Type := {
  getItem : item;
  quotaExceeded : bool
}.

(** [None]: the write threw. *)
Definition setItem (value : item) (s : Storage) : option Storage :=
  if quotaExceeded s then None
  else Some {| getItem := value; quotaExceeded := quotaExceeded s |}.

Record ConversationManager : Type := {
  conversations : list Conversation;
  currentConversationId : option string;
  localStorage : Storage
}.

Definition set_conversations (cs : list Conversation) (m : ConversationManager)
  : ConversationManager :=
  {| conversations := cs;
     currentConversationId := currentConversationId m;
     localStorage := localStorage m |}.

Definition set_currentConversationId (i : option string) (m : ConversationManager)
  : ConversationManager :=
  {| conversations := conversations m;
     currentConversationId := i;
     localStorage := localStorage m |}.

Definition set_localStorage (s : Storage) (m : ConversationManager)
  : ConversationManager :=
  {| conversations := conversations m;
     currentConversationId := currentConversationId m;
     localStorage := s |}.

(** The text [JSON.stringify(this.conversations)] gives [setItem]. *)
Definition serialized (cs : list Conversation) : item :=
  match JSON_stringify (JArr (List.map Conversation_to_js cs)) with
  | Some j => Document j
  | None => Malformed
  end.

(** [saveConversations]: a failed write is logged and nothing changes. *)
Definition saveConversations (m : ConversationManager) : ConversationManager :=
  match setItem (serialized (conversations m)) (localStorage m) with
  | Some s => set_localStorage s m
  | None => m
  end.

(** The message and conversation mappers of [loadConversations], on
    whatever [JSON.parse] returned.  [None]: a TypeError was thrown. *)
Definition revive_message (msg : jsval) : option jsval :=
  t ← get_prop msg "timestamp";
  Some (JObj (obj_set "timestamp" (JDate (newDate t)) (own_props msg))).

Definition revive_conversation (conv : jsval) : option jsval :=
  c ← get_prop conv "createdAt";
  u ← get_prop conv "updatedAt";
  ms ← get_prop conv "messages";
  match ms with
  | JArr l =>
      msgs ← mapM revive_message l;
      Some (JObj (obj_set "messages" (JArr msgs)
                   (obj_set "updatedAt" (JDate (newDate u))
                     (obj_set "createdAt" (JDate (newDate c)) (own_props conv)))))
  | _ => None
  end.

(** [loadConversations], from the item in the store and the list the
    manager holds to the list it holds afterwards, as JavaScript values:
    what is read back need not have the shape of a [Conversation]. *)
Definition loadConversations (saved : item) (held : list jsval) : list jsval :=
  match saved with
  | Absent => held
  | Malformed => []
  | Document j =>
      match JSON_parse j with
      | JArr l => default [] (mapM revive_conversation l)
      | _ => []
      end
  end.

(** *** JavaScript values as typed values

    The reading back of a value of the shape the types describe; [None]
    for any other value. *)

Definition as_str (v : jsval) : option string :=
  match v with JStr s => Some s | _ => None end.

Definition as_num (v : jsval) : option number :=
  match v with JNum q => Some q | _ => None end.

Definition as_bool (v : jsval) : option bool :=
  match v with JBool b => Some b | _ => None end.

Definition as_date (v : jsval) : option Date :=
  match v with JDate d => Some d | _ => None end.

Definition as_count (v : jsval) : option tallied :=
  match v with
  | JNum q =>
      if (Qden q =? 1)%positive && (0 <=? Qnum q)
      then Some (Counted (Z.to_nat (Qnum q))) else None
  | JStr s => Some (Garbled s)
  | _ => None
  end.

Definition as_dict {A : Type} (f : jsval -> option A) (v : jsval)
  : option (list (string * A)) :=
  match v with
  | JObj ps => mapM (fun kx => x ← f (snd kx); Some (fst kx, x)) ps
  | _ => None
  end.

Definition as_list {A : Type} (f : jsval -> option A) (v : jsval) : option (list A) :=
  match v with
  | JArr l => mapM f l
  | _ => None
  end.

(** A property that must be there, and one that may be missing. *)
Definition required {A : Type} (f : jsval -> option A) (k : string)
    (ps : list (string * jsval)) : option A :=
  obj_get k ps ≫= f.

Definition optional {A : Type} (f : jsval -> option A) (k : string)
    (ps : list (string * jsval)) : option (option A) :=
  match obj_get k ps with
  | Some x => Some <$> f x
  | None => Some None
  end.

Definition TopEmotion_of_js (v : jsval) : option TopEmotion :=
  match v with
  | JObj ps =>
      e ← required as_str "emotion" ps;
      s ← required as_num "score" ps;
      c ← required as_str "category" ps;
      i ← required as_str "intensity" ps;
      Some {| te_emotion := e; te_score := s; te_category := c; te_intensity := i |}
  | _ => None
  end.

Definition EmotionAnalysis_of_js (v : jsval) : option EmotionAnalysis :=
  match v with
  | JObj ps =>
      p ← required as_str "primary_emotion" ps;
      es ← required (as_dict as_num) "emotion_scores" ps;
      c ← required as_num "confidence" ps;
      cat ← required as_str "category" ps;
      i ← required as_str "intensity" ps;
      t ← optional (as_list TopEmotion_of_js) "top_emotions" ps;
      Some {| primary_emotion := p; emotion_scores := es; confidence := c;
              category := cat; intensity := i; top_emotions := t |}
  | _ => None
  end.

Definition DetectedLanguageInfo_of_js (v : jsval) : option DetectedLanguageInfo :=
  match v with
  | JObj ps =>
      l ← required as_str "language" ps;
      c ← required as_num "confidence" ps;
      a ← required (as_dict as_num) "all_probabilities" ps;
      Some {| dl_language := l; dl_confidence := c; all_probabilities := a |}
  | _ => None
  end.

Definition ProcessingResult_of_js (v : jsval) : option ProcessingResult :=
  match v with
  | JObj ps =>
      t ← required as_str "transcript" ps;
      ot ← optional as_str "original_transcript" ps;
      tc ← required as_num "transcript_confidence" ps;
      l ← required as_str "language" ps;
      ln ← optional as_str "language_name" ps;
      si ← optional as_bool "is_south_indian_language" ps;
      s ← required as_str "sentiment" ps;
      sc ← required as_num "sentiment_confidence" ps;
      ss ← required (as_dict as_num) "sentiment_scores" ps;
      pt ← required as_num "processing_time" ps;
      tp ← optional as_num "totalProcessingTime" ps;
      di ← optional DetectedLanguageInfo_of_js "detected_language_info" ps;
      sm ← optional as_str "sentiment_method" ps;
      e ← optional EmotionAnalysis_of_js "emotions" ps;
      Some {| transcript := t; original_transcript := ot; transcript_confidence := tc;
              language := l; language_name := ln; is_south_indian_language := si;
              sentiment := s; sentiment_confidence := sc; sentiment_scores := ss;
              processing_time := pt; totalProcessingTime := tp;
              detected_language_info := di; sentiment_method := sm; emotions := e |}
  | _ => None
  end.

Definition MessageType_of_js (v : jsval) : option MessageType :=
  match v with
  | JStr s =>
      if String.eqb s "user" then Some user
      else if String.eqb s "ai" then Some ai else None
  | _ => None
  end.

Definition Message_of_js (v : jsval) : option Message :=
  match v with
  | JObj ps =>
      i ← required as_str "id" ps;
      t ← required MessageType_of_js "type" ps;
      c ← required as_str "content" ps;
      ts ← required as_date "timestamp" ps;
      a ← optional as_str "audioUrl" ps;
      r ← optional ProcessingResult_of_js "processingResult" ps;
      ty ← optional as_bool "isTyping" ps;
      Some {| msg_id := i; type := t; content := c; timestamp := ts; audioUrl := a;
              processingResult := r; isTyping := ty |}
  | _ => None
  end.

Definition EmotionalSummary_of_js (v : jsval) : option EmotionalSummary :=
  match v with
  | JObj ps =>
      d ← required as_str "dominantEmotion" ps;
      a ← required as_num "averageSentiment" ps;
      e ← required (as_dict as_count) "emotionDistribution" ps;
      Some {| dominantEmotion := d; averageSentiment := a; emotionDistribution := e |}
  | _ => None
  end.

Definition Conversation_of_js (v : jsval) : option Conversation :=
  match v with
  | JObj ps =>
      i ← required as_str "id" ps;
      t ← required as_str "title" ps;
      ms ← required (as_list Message_of_js) "messages" ps;
      c ← required as_date "createdAt" ps;
      u ← required as_date "updatedAt" ps;
      s ← optional EmotionalSummary_of_js "emotionalSummary" ps;
      Some {| conv_id := i; title := t; messages := ms; createdAt := c; updatedAt := u;
              emotionalSummary := s |}
  | _ => None
  end.

(** ** Conversation store and message ledger *)

(** What a method returns: a value, or the [Error] it throws. *)
Inductive result (A : Type) : Type :=
| Returns (a : A)
| Throws (message : string).
Arguments Returns {A} a.
Arguments Throws {A} message.

Definition set_messages (ms : list Message) (c : Conversation) : Conversation :=
  {| conv_id := conv_id c; title := title c; messages := ms;
     createdAt := createdAt c; updatedAt := updatedAt c;
     emotionalSummary := emotionalSummary c |}.

Definition set_updatedAt (d : Date) (c : Conversation) : Conversation :=
  {| conv_id := conv_id c; title := title c; messages := messages c;
     createdAt := createdAt c; updatedAt := d;
     emotionalSummary := emotionalSummary c |}.

Definition set_title (t : string) (c : Conversation) : Conversation :=
  {| conv_id := conv_id c; title := t; messages := messages c;
     createdAt := createdAt c; updatedAt := updatedAt c;
     emotionalSummary := emotionalSummary c |}.

Definition set_emotionalSummary (s : option EmotionalSummary) (c : Conversation)
  : Conversation :=
  {| conv_id := conv_id c; title := title c; messages := messages c;
     createdAt := createdAt c; updatedAt := updatedAt c;
     emotionalSummary := s |}.

(** [createConversation(title?)].  [id] is what [generateId()] returned,
    [localeDate] is [new Date().toLocaleDateString()], [created] and
    [updated] are the two later readings of the clock.  An empty title is
    falsy and gets the default one. *)
Definition createConversation (title : option string) (id localeDate : string)
    (created updated : Date) (m : ConversationManager)
  : Conversation * ConversationManager :=
  let conversation :=
    {| conv_id := id;
       title := match title with
                | Some t => if String.eqb t "" then "Conversation " +:+ localeDate else t
                | None => "Conversation " +:+ localeDate
                end;
       messages := [];
       createdAt := created;
       updatedAt := updated;
       emotionalSummary := None |} in
  let m := set_conversations (conversation :: conversations m) m in
  let m := set_currentConversationId (Some (conv_id conversation)) m in
  (conversation, saveConversations m).

(** [getCurrentConversation()]: the first conversation with the current
    id.  The empty string is falsy, like [null]. *)
Definition getCurrentConversation (m : ConversationManager) : option Conversation :=
  match currentConversationId m with
  | None => None
  | Some id =>
      if String.eqb id "" then None
      else List.find (fun c => String.eqb (conv_id c) id) (conversations m)
  end.

Definition setCurrentConversation (id : string) (m : ConversationManager)
  : ConversationManager :=
  set_currentConversationId (Some id) m.

(** The conversation [getCurrentConversation] returned is an object of
    the list: assigning to its fields changes the list at the place it
    was found. *)
Fixpoint mutate_first (p : Conversation -> bool) (c' : Conversation)
    (cs : list Conversation) : list Conversation :=
  match cs with
  | [] => []
  | c :: cs' => if p c then c' :: cs' else c :: mutate_first p c' cs'
  end.

Definition mutate_current (c' : Conversation) (m : ConversationManager)
  : ConversationManager :=
  match currentConversationId m with
  | Some id =>
      set_conversations
        (mutate_first (fun c => String.eqb (conv_id c) id) c' (conversations m)) m
  | None => m
  end.

(** [content.split(' ')] *)
Fixpoint split_space (s : string) : list string :=
  match s with
  | EmptyString => [EmptyString]
  | String c s' =>
      if Ascii.eqb c " " then EmptyString :: split_space s'
      else match split_space s' with
           | w :: ws => String c w :: ws
           | [] => [String c EmptyString]
           end
  end.

Definition generateTitle (content : string) : string :=
  let words := take 6 (split_space content) in
  String.concat " " words
  +:+ (if (6 <? length (split_space content))%nat then "..." else "").

(** *** Emotional summarizer *)

(** The three accumulators of the [forEach] in [updateEmotionalSummary]. *)
Record Tally : Type := {
  emotionCounts : list (string * tallied);
  totalSentiment : number;
  sentimentCount : nat
}.

Definition sentimentValue (label : string) : number :=
  if String.eqb label "positive" then 1%Q
  else if String.eqb label "negative" then (-1)%Q
  else 0%Q.

(** [counts[k] = (counts[k] || 0) + n] *)
Definition bump (k : string) (n : tallied) (counts : list (string * tallied))
  : list (string * tallied) :=
  assign k (plus (or_zero k counts) n) counts.

Definition tally_message (t : Tally) (message : Message) : Tally :=
  let counts :=
    match processingResult message with
    | Some r =>
        match emotions r with
        | Some e => bump (primary_emotion e) (Counted 1) (emotionCounts t)
        | None => emotionCounts t
        end
    | None => emotionCounts t
    end in
  match processingResult message with
  | Some r =>
      if truthy (sentiment_confidence r)
      then {| emotionCounts := counts;
              totalSentiment :=
                Nadd (totalSentiment t)
                  (Nmul (sentimentValue (sentiment r)) (sentiment_confidence r));
              sentimentCount := S (sentimentCount t) |}
      else {| emotionCounts := counts;
              totalSentiment := totalSentiment t;
              sentimentCount := sentimentCount t |}
  | None => {| emotionCounts := counts;
               totalSentiment := totalSentiment t;
               sentimentCount := sentimentCount t |}
  end.

Definition tally (ms : list Message) : Tally :=
  fold_left tally_message ms
    {| emotionCounts := []; totalSentiment := 0%Q; sentimentCount := 0%nat |}.

(** [([, a], [, b]) => b - a], as the sign that the sort reads.  Among
    numbers this orders by falling count.  A string that reads as no
    number makes the difference NaN, which compares as equal to
    everything; where more than two entries are sorted with such a
    string among them the order is the engine's own. *)
Definition by_count_desc (x y : string * tallied) : Z :=
  difference_sign (ToNumber (snd y)) (ToNumber (snd x)).

(** [updateEmotionalSummary(conversation)] *)
Definition updateEmotionalSummary (conversation : Conversation) : Conversation :=
  let t := tally (messages conversation) in
  if (0 <? length (Object_keys (emotionCounts t)))%nat then
    match Array_sort by_count_desc (Object_entries (emotionCounts t)) with
    | (dominant, _) :: _ =>
        set_emotionalSummary
          (Some {| dominantEmotion := dominant;
                   averageSentiment :=
                     if (0 <? sentimentCount t)%nat
                     then Ndiv (totalSentiment t) (inject_Z (Z.of_nat (sentimentCount t)))
                     else 0%Q;
                   emotionDistribution := emotionCounts t |})
          conversation
    | [] => conversation
    end
  else conversation.

(** *** Adding, updating, deleting *)

(** [addMessage(message)]: [id] is what [generateId()] returned, [sent]
    and [updated] are the two readings of the clock. *)
Definition addMessage (message : NewMessage) (id : string) (sent updated : Date)
    (m : ConversationManager) : result Message * ConversationManager :=
  match getCurrentConversation m with
  | None => (Throws "No active conversation", m)
  | Some conversation =>
      let newMessage :=
        {| msg_id := id; type := new_type message; content := new_content message;
           timestamp := sent; audioUrl := new_audioUrl message;
           processingResult := new_processingResult message;
           isTyping := new_isTyping message |} in
      let conversation := set_messages (messages conversation ++ [newMessage]) conversation in
      let conversation := set_updatedAt updated conversation in
      let conversation :=
        if (length (messages conversation) =? 1)%nat
           && match new_type message with user => true | ai => false end
        then set_title (generateTitle (new_content message)) conversation
        else conversation in
      let conversation := updateEmotionalSummary conversation in
      (Returns newMessage, saveConversations (mutate_current conversation m))
  end.

(** [{...message, ...updates}] *)
Definition merge (message : Message) (updates : MessageUpdate) : Message :=
  {| msg_id := default (msg_id message) (upd_id updates);
     type := default (type message) (upd_type updates);
     content := default (content message) (upd_content updates);
     timestamp := default (timestamp message) (upd_timestamp updates);
     audioUrl := default (audioUrl message) (upd_audioUrl updates);
     processingResult := default (processingResult message) (upd_processingResult updates);
     isTyping := default (isTyping message) (upd_isTyping updates) |}.

(** [messages.findIndex(m => m.id === messageId)]; [None] is [-1]. *)
Fixpoint findIndex (messageId : string) (ms : list Message) : option nat :=
  match ms with
  | [] => None
  | m :: ms' =>
      if String.eqb (msg_id m) messageId then Some 0%nat
      else S <$> findIndex messageId ms'
  end.

(** [updateMessage(messageId, updates)] *)
Definition updateMessage (messageId : string) (updates : MessageUpdate) (updated : Date)
    (m : ConversationManager) : ConversationManager :=
  match getCurrentConversation m with
  | None => m
  | Some conversation =>
      match findIndex messageId (messages conversation) with
      | Some messageIndex =>
          let conversation :=
            set_messages
              (alter (fun old => merge old updates) messageIndex (messages conversation))
              conversation in
          let conversation := set_updatedAt updated conversation in
          saveConversations (mutate_current conversation m)
      | None => m
      end
  end.

Definition getConversations (m : ConversationManager) : list Conversation :=
  conversations m.

(** [deleteConversation(id)] *)
Definition deleteConversation (id : string) (m : ConversationManager)
  : ConversationManager :=
  let m :=
    set_conversations
      (List.filter (fun c => negb (String.eqb (conv_id c) id)) (conversations m)) m in
  let m :=
    match currentConversationId m with
    | Some cur => if String.eqb cur id then set_currentConversationId None m else m
    | None => m
    end in
  saveConversations m.

(** The calls that change the manager, for runs of several of them. *)
Inductive call : Type :=
| CreateConversation (title : option string) (id localeDate : string) (created updated : Date)
| SetCurrentConversation (id : string)
| AddMessage (message : NewMessage) (id : string) (sent updated : Date)
| UpdateMessage (messageId : string) (updates : MessageUpdate) (updated : Date)
| DeleteConversation (id : string).

Definition perform (c : call) (m : ConversationManager) : ConversationManager :=
  match c with
  | CreateConversation t id l c u => snd (createConversation t id l c u m)
  | SetCurrentConversation id => setCurrentConversation id m
  | AddMessage msg id s u => snd (addMessage msg id s u m)
  | UpdateMessage id upd u => updateMessage id upd u m
  | DeleteConversation id => deleteConversation id m
  end.

Definition run (cs : list call) (m : ConversationManager) : ConversationManager :=
  fold_left (fun m c => perform c m) cs m.

(** The calls that leave the current pointer alone when it is unset. *)
Definition keeps_selection (c : call) : bool :=
  match c with
  | CreateConversation _ _ _ _ _ | SetCurrentConversation _ => false
  | _ => true
  end.

Definition is_AddMessage (c : call) : bool :=
  match c with
  | AddMessage _ _ _ _ => true
  | _ => false
  end.

(** *** Daily insights

    The calendar day of a date, the reading of such a day back into a
    date and the date [days] days before now follow the time zone and
    the locale of the engine: they are parameters. *)
Section Insights.
Context (toDateString : Date -> string)
        (dateOfString : string -> Date)
        (daysBefore : Date -> Z -> Date).

Definition blank (dateKey : string) : EmotionalInsight :=
  {| date := dateKey; insightDominantEmotion := ""; sentimentScore := 0%Q;
     conversationCount := 0; emotionBreakdown := [] |}.

(** What the body of the [forEach] over the conversations of the
    window does to the insight of the day of the conversation. *)
Definition count_conversation (i : EmotionalInsight) (conversation : Conversation)
  : EmotionalInsight :=
  let i :=
    {| date := date i; insightDominantEmotion := insightDominantEmotion i;
       sentimentScore := sentimentScore i;
       conversationCount := S (conversationCount i);
       emotionBreakdown := emotionBreakdown i |} in
  match emotionalSummary conversation with
  | Some summary =>
      {| date := date i; insightDominantEmotion := insightDominantEmotion i;
         sentimentScore := Nadd (sentimentScore i) (averageSentiment summary);
         conversationCount := conversationCount i;
         emotionBreakdown :=
           fold_left (fun b kv => bump (fst kv) (snd kv) b)
             (Object_entries (emotionDistribution summary)) (emotionBreakdown i) |}
  | None => i
  end.

(** The body of that [forEach]: the insight of the day is created
    blank when the day has none, then updated in place. *)
Definition record_conversation (insights : list (string * EmotionalInsight))
    (conversation : Conversation) : list (string * EmotionalInsight) :=
  let dateKey := toDateString (updatedAt conversation) in
  let insights :=
    match obj_get dateKey insights with
    | Some _ => insights
    | None => obj_set dateKey (blank dateKey) insights
    end in
  obj_replace dateKey
    (count_conversation (default (blank dateKey) (obj_get dateKey insights)) conversation)
    insights.

(** The body of the [forEach] that averages and picks the dominant
    emotion of a day. *)
Definition finish (insight : EmotionalInsight) : EmotionalInsight :=
  if (0 <? conversationCount insight)%nat then
    {| date := date insight;
       insightDominantEmotion :=
         match Array_sort by_count_desc (Object_entries (emotionBreakdown insight)) with
         | (dominant, _) :: _ => dominant
         | [] => insightDominantEmotion insight
         end;
       sentimentScore :=
         Ndiv (sentimentScore insight) (inject_Z (Z.of_nat (conversationCount insight)));
       conversationCount := conversationCount insight;
       emotionBreakdown := emotionBreakdown insight |}
  else insight.

(** [getTime()], NaN for the invalid date; a comparator that returns
    NaN compares as equal. *)
Definition by_date (a b : EmotionalInsight) : Z :=
  match dateOfString (date a), dateOfString (date b) with
  | TimeValue x, TimeValue y => x - y
  | _, _ => 0
  end.

Definition in_window (cutoffDate : Date) (conv : Conversation) : bool :=
  date_geb (updatedAt conv) cutoffDate.

(** [getEmotionalInsights(days)], [now] being the reading of the clock. *)
Definition getEmotionalInsights (days : Z) (now : Date) (m : ConversationManager)
  : list EmotionalInsight :=
  let cutoffDate := daysBefore now days in
  let insights :=
    fold_left record_conversation
      (List.filter (in_window cutoffDate) (conversations m)) [] in
  Array_sort by_date (List.map finish (Object_values insights)).
End Insights.

(** ** Metrics batcher ([CloudWatchService]) *)

Record CloudWatchMetric : Type := {
  name : string;
  value : number;
  dimensions : option (list (string * string));
  metric_timestamp : option Date
}.

(** [requests]: the batches taken off the queue for a request so far,
    oldest first.  The body of the request is
    [formatMetricsForBackend] of the batch. *)
Record CloudWatchService : Type := {
  metricsQueue : list CloudWatchMetric;
  isProduction : bool;
  requests : list (list CloudWatchMetric)
}.

Definition batchSize : nat := 10.
Definition flushInterval : Z := 30000.

(** [flushMetrics()] up to its first [await]: the batch leaves the queue
    and the request is issued.  This is all that runs before the caller
    continues. *)
Definition flushMetrics (s : CloudWatchService) : CloudWatchService :=
  if (length (metricsQueue s) =? 0)%nat || negb (isProduction s) then s
  else
    let metricsToSend := take batchSize (metricsQueue s) in
    {| metricsQueue := drop batchSize (metricsQueue s);
       isProduction := isProduction s;
       requests := requests s ++ [metricsToSend] |}.

(** The rest of [flushMetrics()], when the request of [metricsToSend]
    settles: a failed batch goes back to the front of a queue that holds
    fewer than 100 measurements. *)
Definition flushSettled (metricsToSend : list CloudWatchMetric) (ok : bool)
    (s : CloudWatchService) : CloudWatchService :=
  if ok then s
  else if (length (metricsQueue s) <? 100)%nat then
    {| metricsQueue := metricsToSend ++ metricsQueue s;
       isProduction := isProduction s;
       requests := requests s |}
  else s.

(** [addMetric(name, value, dimensions)], [now] being the reading of the
    clock. *)
Definition addMetric (name : string) (value : number)
    (dimensions : option (list (string * string))) (now : Date)
    (s : CloudWatchService) : CloudWatchService :=
  if negb (isProduction s) then s
  else
    let s :=
      {| metricsQueue :=
           metricsQueue s ++
           [{| name := name; value := value; dimensions := dimensions;
               metric_timestamp := Some now |}];
         isProduction := isProduction s;
         requests := requests s |} in
    if (batchSize <=? length (metricsQueue s))%nat then flushMetrics s else s.

(** What happens to the service: a measurement is recorded, the
    30-second timer fires, a request settles. *)
Inductive event : Type :=
| Recorded (name : string) (value : number)
    (dimensions : option (list (string * string))) (now : Date)
| TimerFired
| Settled (metricsToSend : list CloudWatchMetric) (ok : bool).

Definition handle (e : event) (s : CloudWatchService) : CloudWatchService :=
  match e with
  | Recorded n v d now => addMetric n v d now s
  | TimerFired => flushMetrics s
  | Settled b ok => flushSettled b ok s
  end.

(** ** Sample data *)

Definition emptyStorage : Storage := {| getItem := Absent; quotaExceeded := false |}.

(** The manager of a first visit: nothing stored, nothing loaded. *)
Definition freshManager : ConversationManager :=
  {| conversations := []; currentConversationId := None; localStorage := emptyStorage |}.

(** 2026-11-03T09:00:00.000Z and the seconds after it. *)
Definition clock (seconds : Z) : Date := TimeValue (1793696400000 + 1000 * seconds).

Definition textMessage (t : MessageType) (text : string) : NewMessage :=
  {| new_type := t; new_content := text; new_audioUrl := None;
     new_processingResult := None; new_isTyping := None |}.

Definition analysis (label : string) (certainty : number) (emotion : option string)
  : ProcessingResult :=
  {| transcript := "hello"; original_transcript := None;
     transcript_confidence := 9 # 10; language := "en"; language_name := Some "English";
     is_south_indian_language := Some false;
     sentiment := label; sentiment_confidence := certainty;
     sentiment_scores := [(label, certainty)];
     processing_time := 3 # 2; totalProcessingTime := Some (2 # 1);
     detected_language_info := None; sentiment_method := None;
     emotions :=
       match emotion with
       | Some e =>
           Some {| primary_emotion := e; emotion_scores := [(e, 3 # 4)];
                   confidence := 3 # 4; category := "positive"; intensity := "medium";
                   top_emotions := None |}
       | None => None
       end |}.

Definition spoken (label : string) (certainty : number) (emotion : option string)
  : NewMessage :=
  {| new_type := user; new_content := "hello";
     new_audioUrl := Some "blob:https://app/7f0c";
     new_processingResult := Some (analysis label certainty emotion);
     new_isTyping := None |}.

(** [{ isTyping: false }], the update the chat view sends. *)
Definition typingDone : MessageUpdate :=
  {| upd_id := None; upd_type := None; upd_content := None; upd_timestamp := None;
     upd_audioUrl := None; upd_processingResult := None; upd_isTyping := Some (Some false) |}.

(** One conversation, created and current. *)
Definition oneConversation : ConversationManager :=
  snd (createConversation None "c1" "11/3/2026" (clock 0) (clock 0) freshManager).

(** Two conversations; the older one, ["c1"], holds message ["m1"], the
    newer one, ["c2"], is current and empty. *)
Definition twoConversations : ConversationManager :=
  run [AddMessage (textMessage user "good morning") "m1" (clock 1) (clock 1);
       CreateConversation (Some "Second") "c2" "11/3/2026" (clock 2) (clock 2)]
      oneConversation.

(** The three append orders of the emotions happy, happy, sad, the
    second with a message without analysis in between. *)
Definition feelings (order : list string) : list call :=
  imap (fun i e => AddMessage (spoken "neutral" (1 # 2) (Some e))
                     (pretty i) (clock (Z.of_nat i)) (clock (Z.of_nat i))) order.

Definition happyHappySad : ConversationManager :=
  run (feelings ["happy"; "happy"; "sad"]) oneConversation.

Definition happySadHappy : ConversationManager :=
  run [AddMessage (spoken "neutral" (1 # 2) (Some "happy")) "m1" (clock 1) (clock 1);
       AddMessage (textMessage ai "I see.") "m2" (clock 2) (clock 2);
       AddMessage (spoken "neutral" (1 # 2) (Some "sad")) "m3" (clock 3) (clock 3);
       AddMessage (spoken "neutral" (1 # 2) (Some "happy")) "m4" (clock 4) (clock 4)]
      oneConversation.

Definition sadHappyHappy : ConversationManager :=
  run (feelings ["sad"; "happy"; "happy"]) oneConversation.

(** The label of the first message names a member of
    [Object.prototype]. *)
Definition toStringHappyHappy : ConversationManager :=
  run (feelings ["toString"; "happy"; "happy"]) oneConversation.


Definition ratedWithoutEmotions : ConversationManager :=
  run [AddMessage (spoken "positive" (8 # 10) None) "m1" (clock 1) (clock 1);
       AddMessage (spoken "negative" (4 # 10) None) "m2" (clock 2) (clock 2)]
      oneConversation.


(** [{ processingResult: r }] *)
Definition withResult (r : option ProcessingResult) : MessageUpdate :=
  {| upd_id := None; upd_type := None; upd_content := None; upd_timestamp := None;
     upd_audioUrl := None; upd_processingResult := Some r; upd_isTyping := None |}.

(** A message is added without analysis; the analysis arrives in an
    update. *)
Definition analysedLater : ConversationManager :=
  run [AddMessage (textMessage user "hello") "m1" (clock 1) (clock 1);
       UpdateMessage "m1" (withResult (Some (analysis "positive" (8 # 10) (Some "happy"))))
         (clock 2)]
      oneConversation.

(** A message is added with its analysis; an update takes the analysis
    away. *)
Definition analysisWithdrawn : ConversationManager :=
  run [AddMessage (spoken "positive" (8 # 10) (Some "happy")) "m1" (clock 1) (clock 1);
       UpdateMessage "m1" (withResult None) (clock 2)]
      oneConversation.

Definition measurement (n : Z) : event :=
  Recorded "UserInteraction" (inject_Z n) (Some [("action", "click")]) (clock n).

(** A production service that recorded nine measurements since it
    started: nothing was sent. *)
Definition nineQueued : CloudWatchService :=
  fold_left (fun s e => handle e s) (List.map measurement [1; 2; 3; 4; 5; 6; 7; 8; 9])
    {| metricsQueue := []; isProduction := true; requests := [] |}.

(** The current conversation of a manager that has one. *)
Definition currentOf (m : ConversationManager) : Conversation :=
  default {| conv_id := ""; title := ""; messages := []; createdAt := InvalidDate;
             updatedAt := InvalidDate; emotionalSummary := None |}
    (getCurrentConversation m).

(** ** Vocabulary of the specification *)

(** The primary emotion of a message that carries an emotion analysis. *)
Definition emotion_of (m : Message) : option string :=
  match processingResult m with
  | Some r => primary_emotion <$> emotions r
  | None => None
  end.

Definition has_emotion (e : string) (m : Message) : bool :=
  match emotion_of m with
  | Some e' => String.eqb e' e
  | None => false
  end.

(** The occurrence count of an emotion label among the messages. *)
Definition occurrences (e : string) (ms : list Message) : nat :=
  length (List.filter (has_emotion e) ms).

(** The primary emotions of the messages that carry one, in order. *)
Fixpoint emotion_labels (ms : list Message) : list string :=
  match ms with
  | [] => []
  | m :: ms' =>
      match emotion_of m with
      | Some e => e :: emotion_labels ms'
      | None => emotion_labels ms'
      end
  end.

(** The labels of the messages name no member of [Object.prototype]. *)
Definition plain_labels (ms : list Message) : Prop :=
  Forall (fun e => inherited e = false) (emotion_labels ms).









(** What [JSON.parse] returns for the text [JSON.stringify] wrote. *)
Definition written (v : jsval) : jsval :=
  JSON_parse (default JsonNull (JSON_stringify v)).

(** A value that JSON holds as it is: no [undefined] and no date in it. *)
Fixpoint plain (v : jsval) : bool :=
  match v with
  | JUndefined | JDate _ => false
  | JNull | JBool _ | JNum _ | JStr _ => true
  | JArr l => forallb plain l
  | JObj ps => forallb (fun kx => plain (snd kx)) ps
  end.

(** The dates of a conversation denote instants. *)
Definition valid_dates (c : Conversation) : bool :=
  valid_date (createdAt c) && valid_date (updatedAt c)
  && forallb (fun m => valid_date (timestamp m)) (messages c).


(** Set exactly when some message carries an emotion analysis. *)
Definition summary_in_step (c : Conversation) : Prop :=
  emotionalSummary c <> None <-> exists m, In m (messages c) /\ emotion_of m <> None.

(** The members [JSON.stringify] writes for the properties of an object, and
    the properties [JSON.parse] reads from the members. *)
Definition json_members (ps : list (string * jsval)) : list (string * json) :=
  List.flat_map
    (fun kx => match JSON_stringify (snd kx) with
               | Some j => [(fst kx, j)]
               | None => []
               end) ps.

Definition js_props (ms : list (string * json)) : list (string * jsval) :=
  List.map (fun kx => (fst kx, JSON_parse (snd kx))) ms.

Definition written_props (ps : list (string * jsval)) : list (string * jsval) :=
  js_props (json_members ps).

(** The properties of a message before its id and timestamp. *)
Definition message_head (m : Message) : list (string * jsval) :=
  [("type", MessageType_to_js (type m)); ("content", JStr (content m))]
  ++ field "audioUrl" JStr (audioUrl m)
  ++ field "processingResult" ProcessingResult_to_js (processingResult m)
  ++ field "isTyping" JBool (isTyping m).

(** The messages a run of calls of [addMessage] appends, in call order. *)
Fixpoint appended (calls : list call) : list Message :=
  match calls with
  | [] => []
  | AddMessage message id sent _ :: calls' =>
      {| msg_id := id; type := new_type message; content := new_content message;
         timestamp := sent; audioUrl := new_audioUrl message;
         processingResult := new_processingResult message;
         isTyping := new_isTyping message |} :: appended calls'
  | _ :: calls' => appended calls'
  end.

(** ** An engine in the UTC time zone with the default locale

    [toDateString] writes "Tue Nov 03 2026"; [new Date(string)] reads
    that form back as the midnight that starts the day; [setDate] moves
    by whole days of 86 400 000 ms, there being no daylight saving. *)

Definition weekdays : list string := ["Sun"; "Mon"; "Tue"; "Wed"; "Thu"; "Fri"; "Sat"].

Definition months : list string :=
  ["Jan"; "Feb"; "Mar"; "Apr"; "May"; "Jun"; "Jul"; "Aug"; "Sep"; "Oct"; "Nov"; "Dec"].

Definition utcDateString (d : Date) : string :=
  match d with
  | InvalidDate => "Invalid Date"
  | TimeValue t =>
      let day := t / msPerDay in
      let '(y, m, dd) := civil_from_days day in
      nth (Z.to_nat ((day + 4) mod 7)) weekdays "" +:+ " "
      +:+ nth (Z.to_nat (m - 1)) months "" +:+ " "
      +:+ pad 2 dd +:+ " "
      +:+ (if y <? 0 then "-" else "") +:+ pad 4 (Z.abs y)
  end.

Fixpoint month_number (name : string) (names : list string) (n : Z) : option Z :=
  match names with
  | [] => None
  | x :: names' => if String.eqb x name then Some n else month_number name names' (n + 1)
  end.

(** Reads "Www Mmm DD YYYY" with a year of four digits; the invalid date
    otherwise. *)
Definition utcDateOfString (s : string) : Date :=
  let parsed :=
    m ← month_number (substring 4 3 s) months 1;
    '(d, rest) ← read_digits 2 0 (substring 8 (String.length s - 8) s);
    rest ← expect " " rest;
    '(y, rest) ← read_digits 4 0 rest;
    match rest with
    | EmptyString => Some (days_from_civil y m d * msPerDay)
    | _ => None
    end in
  match parsed with
  | Some t => TimeClip t
  | None => InvalidDate
  end.

Definition utcDaysBefore (now : Date) (days : Z) : Date :=
  match now with
  | TimeValue t => TimeClip (t - days * msPerDay)
  | InvalidDate => InvalidDate
  end.

(** Three conversations: one updated ten days before the clock starts,
    with a message; two updated on the day the clock starts, both
    without a summary. *)
Definition threeConversations : ConversationManager :=
  run [AddMessage (spoken "positive" (8 # 10) (Some "happy")) "m0"
         (clock (-864000)) (clock (-864000));
       CreateConversation None "c2" "11/3/2026" (clock 60) (clock 60);
       AddMessage (textMessage user "good morning") "m1" (clock 61) (clock 61);
       CreateConversation None "c3" "11/3/2026" (clock 120) (clock 120)]
      oneConversation.

(** ** The rest of the conversation manager *)

(** *** [getConversationHistory] *)

(** ['user' | 'assistant'] *)
Inductive Role : Type := roleUser | roleAssistant.

Record HistoryEntry : Type := {
  role : Role;
  history_content : string
}.

Definition history_entry (msg : Message) : HistoryEntry :=
  {| role := match type msg with user => roleUser | ai => roleAssistant end;
     history_content := content msg |}.

(** [getConversationHistory(conversationId?)]: an id that is missing or
    empty is falsy and selects the current conversation. *)
Definition getConversationHistory (conversationId : option string)
    (m : ConversationManager) : list HistoryEntry :=
  let conversation :=
    match conversationId with
    | Some id =>
        if String.eqb id "" then getCurrentConversation m
        else List.find (fun c => String.eqb (conv_id c) id) (conversations m)
    | None => getCurrentConversation m
    end in
  match conversation with
  | None => []
  | Some conversation => List.map history_entry (messages conversation)
  end.

(** *** [exportConversation] *)

(** The object the mapper of [exportConversation] builds for a message;
    the optional chains give [undefined] where a link is missing. *)
Definition export_message (msg : Message) : jsval :=
  JObj [("type", MessageType_to_js (type msg));
        ("content", JStr (content msg));
        ("timestamp", JDate (timestamp msg));
        ("emotions",
         match processingResult msg with
         | Some r =>
             match emotions r with
             | Some e => JStr (primary_emotion e)
             | None => JUndefined
             end
         | None => JUndefined
         end);
        ("sentiment",
         match processingResult msg with
         | Some r => JStr (sentiment r)
         | None => JUndefined
         end)].

Definition exportData (conversation : Conversation) : jsval :=
  JObj [("title", JStr (title conversation));
        ("createdAt", JDate (createdAt conversation));
        ("messages", JArr (List.map export_message (messages conversation)))].

(** [exportConversation(conversationId)].  [None] is the empty string,
    which is no JSON text; otherwise the document of the text, whose
    indentation is not modelled. *)
Definition exportConversation (conversationId : string) (m : ConversationManager)
  : option json :=
  match List.find (fun c => String.eqb (conv_id c) conversationId) (conversations m) with
  | None => None
  | Some conversation => JSON_stringify (exportData conversation)
  end.

(** The name [handleExport] of [ConversationHistory.tsx] gives the
    downloaded file: [title.replace(/[^a-z0-9]/gi, '_').toLowerCase()]
    between a prefix and an extension.  Without the [u] flag the class
    matches the ASCII letters and digits only. *)
Definition is_upper (c : ascii) : bool :=
  let n := nat_of_ascii c in (65 <=? n)%nat && (n <=? 90)%nat.

Definition is_lower (c : ascii) : bool :=
  let n := nat_of_ascii c in (97 <=? n)%nat && (n <=? 122)%nat.

Definition is_alnum (c : ascii) : bool := is_upper c || is_lower c || is_digit c.

Definition toLowerCase_ascii (c : ascii) : ascii :=
  if is_upper c then ascii_of_nat (nat_of_ascii c + 32) else c.

Fixpoint map_string (f : ascii -> ascii) (s : string) : string :=
  match s with
  | EmptyString => EmptyString
  | String c s' => String (f c) (map_string f s')
  end.

Definition downloadName (title : string) : string :=
  "conversation-"
  +:+ map_string toLowerCase_ascii
        (map_string (fun c => if is_alnum c then c else "_"%char) title)
  +:+ ".json".

(** *** The constructor of the manager

    [new ConversationManager()] starts from no conversation and no
    current id and loads what the store holds.  The manager is given
    here when what was loaded has the shape of conversations; [None]
    when it has not, the list then holding values that are no
    conversations. *)
Definition newConversationManager (store : Storage) : option ConversationManager :=
  cs ← mapM Conversation_of_js (loadConversations (getItem store) []);
  Some {| conversations := cs; currentConversationId := None; localStorage := store |}.

(** ** The rest of the metrics service *)

Definition unitMap : list (string * string) :=
  [("PageView", "Count");
   ("UserInteraction", "Count");
   ("APICall", "Count");
   ("APIResponseTime", "Milliseconds");
   ("ConversationStarted", "Count");
   ("ConversationDuration", "Seconds");
   ("EmotionDetected", "Count");
   ("EmotionConfidence", "Percent");
   ("SentimentAnalyzed", "Count");
   ("AudioRecorded", "Count");
   ("AudioDuration", "Seconds");
   ("AudioFileSize", "Bytes");
   ("WellnessActivity", "Count");
   ("FrontendError", "Count");
   ("Performance", "Milliseconds")].

(** [getMetricUnit(metricName)].  [None]: the name is an inherited one,
    and what the lookup returns is that member, which is truthy and no
    unit. *)
Definition getMetricUnit (metricName : string) : option string :=
  if inherited metricName then None
  else Some (default "Count" (obj_get metricName unitMap)).

Record FormattedMetric : Type := {
  fm_value : number;
  fm_dimensions : list (string * string);
  fm_timestamp : Date;
  fm_unit : option string
}.

(** The key of a measurement in the formatted batch. *)
Definition metric_key (metric : CloudWatchMetric) : string :=
  match dimensions metric with
  | Some d => name metric +:+ "_" +:+ String.concat "_" (Object_values d)
  | None => name metric
  end.

Definition format_metric (now : Date) (metric : CloudWatchMetric) : FormattedMetric :=
  {| fm_value := value metric;
     fm_dimensions := default [] (dimensions metric);
     fm_timestamp := default now (metric_timestamp metric);
     fm_unit := getMetricUnit (name metric) |}.

(** The [forEach] of [formatMetricsForBackend] from the measurement of
    index [i] on; [clock i] is the reading of the clock at that
    measurement, used when it has no timestamp.  An assignment to the
    key ["__proto__"] sets the prototype of the object and adds no
    property. *)
Fixpoint format_from (clock : nat -> Date) (i : nat) (metrics : list CloudWatchMetric)
    (formatted : list (string * FormattedMetric)) : list (string * FormattedMetric) :=
  match metrics with
  | [] => formatted
  | metric :: metrics' =>
      let key := metric_key metric in
      format_from clock (S i) metrics'
        (if String.eqb key "__proto__" then formatted
         else obj_set key (format_metric (clock i) metric) formatted)
  end.

(** [formatMetricsForBackend(metrics)] *)
Definition formatMetricsForBackend (clock : nat -> Date) (metrics : list CloudWatchMetric)
  : list (string * FormattedMetric) :=
  format_from clock 0 metrics [].

(** The service with its interval timer: [timer] tells whether one is
    set. *)
Record Monitor : Type := {
  service : CloudWatchService;
  timer : bool
}.

(** [new CloudWatchService()], [prod] being [import.meta.env.PROD]. *)
Definition newCloudWatchService (prod : bool) : Monitor :=
  {| service := {| metricsQueue := []; isProduction := prod; requests := [] |};
     timer := prod |}.

(** [destroy()], up to the first [await] of its [flushMetrics()]. *)
Definition destroy (w : Monitor) : Monitor :=
  {| service := flushMetrics (service w); timer := false |}.

(** [trackError(errorType, component, message?)]: a message that is
    missing or empty adds no dimension. *)
Definition trackError (errorType component : string) (message : option string)
    (now : Date) (s : CloudWatchService) : CloudWatchService :=
  addMetric "FrontendError" 1%Q
    (Some ([("errorType", errorType); ("component", component)]
           ++ match message with
              | Some text =>
                  if String.eqb text "" then []
                  else [("message", substring 0 100 text)]
              | None => []
              end))
    now s.

(** [s] without [pat] at its start, when it starts with it. *)
Fixpoint strip_prefix (pat s : string) : option string :=
  match pat, s with
  | EmptyString, _ => Some s
  | String a pat', String b s' => if Ascii.eqb a b then strip_prefix pat' s' else None
  | String _ _, EmptyString => None
  end.

(** [s.replace(pat, '')] for a string [pat]: the first occurrence of
    [pat] in [s] is removed. *)
Fixpoint replace_first (pat s : string) : string :=
  match strip_prefix pat s with
  | Some rest => rest
  | None =>
      match s with
      | EmptyString => EmptyString
      | String c s' => String c (replace_first pat s')
      end
  end.

(** [trackAPICall(endpoint, method, duration, success)]; [apiUrl] is the
    base URL the service was constructed with, [t1], [t2] and [t3] are
    the readings of the clock of the measurements. *)
Definition trackAPICall (apiUrl endpoint method : string) (duration : number)
    (success : bool) (t1 t2 t3 : Date) (s : CloudWatchService) : CloudWatchService :=
  let s :=
    addMetric "APICall" 1%Q
      (Some [("endpoint", replace_first apiUrl endpoint); ("method", method);
             ("success", if success then "true" else "false")]) t1 s in
  let s :=
    addMetric "APIResponseTime" duration
      (Some [("endpoint", replace_first apiUrl endpoint); ("method", method)]) t2 s in
  if negb success then
    addMetric "APIError" 1%Q
      (Some [("endpoint", replace_first apiUrl endpoint); ("method", method)]) t3 s
  else s.

(** The measurements taken off the queue for a request so far, oldest
    first. *)
Definition sentMetrics (s : CloudWatchService) : list CloudWatchMetric :=
  List.concat (requests s).

(** The measurements an event records. *)
Definition recorded (e : event) : list CloudWatchMetric :=
  match e with
  | Recorded n v d now =>
      [{| name := n; value := v; dimensions := d; metric_timestamp := Some now |}]
  | _ => []
  end.

(** A request settles for a batch of at most [batchSize] measurements:
    that is what [splice(0, batchSize)] took. *)
(** No request of the events failed. *)
Definition no_failure (e : event) : bool :=
  match e with
  | Settled _ ok => ok
  | _ => true
  end.

Definition within_batchSize (e : event) : bool :=
  match e with
  | Settled b _ => (length b <=? batchSize)%nat
  | _ => true
  end.

Definition handle_all (es : list event) (s : CloudWatchService) : CloudWatchService :=
  fold_left (fun s e => handle e s) es s.

(** ** Requests to the backend: the query strings *)

Definition hex_digit (n : N) : ascii :=
  match String.get (N.to_nat n) "0123456789ABCDEF" with
  | Some c => c
  | None => "0"%char
  end.

Definition percent_byte (b : N) : string :=
  String "%" (String (hex_digit (b / 16)) (String (hex_digit (b mod 16)) EmptyString)).

(** The bytes the [application/x-www-form-urlencoded] serializer leaves
    as they are. *)
Definition form_safe (c : ascii) : bool :=
  is_alnum c || Ascii.eqb c "*" || Ascii.eqb c "-" || Ascii.eqb c "." || Ascii.eqb c "_".

(** The serializer on one code unit below 256: the space becomes [+];
    a code unit from 128 on is written as the two bytes of its UTF-8
    form. *)
Definition form_encode_char (c : ascii) : string :=
  let n := N_of_ascii c in
  if Ascii.eqb c " " then "+"
  else if form_safe c then String c EmptyString
  else if (n <? 128)%N then percent_byte n
  else percent_byte (192 + n / 64) +:+ percent_byte (128 + n mod 64).

Fixpoint form_encode (s : string) : string :=
  match s with
  | EmptyString => EmptyString
  | String c s' => form_encode_char c +:+ form_encode s'
  end.

(** [URLSearchParams.prototype.toString] *)
Definition URLSearchParams_toString (params : list (string * string)) : string :=
  String.concat "&"
    (List.map (fun kv => form_encode (fst kv) +:+ "=" +:+ form_encode (snd kv)) params).

(** The URL [processAudio(audioFile, language?, autoDetect = true)]
    posts to. *)
Definition processAudio_url (language : option string) (autoDetect : option bool)
  : string :=
  let autoDetect := default true autoDetect in
  let params :=
    match language with
    | Some l =>
        if String.eqb l "" || String.eqb l "auto" then [] else [("language", l)]
    | None => []
    end
    ++ [("auto_detect", if autoDetect then "true" else "false")] in
  "/api/process-audio"
  +:+ (if String.eqb (URLSearchParams_toString params) "" then ""
       else "?" +:+ URLSearchParams_toString params).

(** The URL [analyzeSentiment(text, language?)] posts to. *)
Definition analyzeSentiment_url (language : option string) : string :=
  let params :=
    match language with
    | Some l => if String.eqb l "" then [] else [("language", l)]
    | None => []
    end in
  "/api/analyze-sentiment"
  +:+ (if String.eqb (URLSearchParams_toString params) "" then ""
       else "?" +:+ URLSearchParams_toString params).

(** ** Further vocabulary *)

(** The store holds the text of the list the manager holds. *)
Definition in_sync (m : ConversationManager) : Prop :=
  getItem (localStorage m) = serialized (conversations m).

(** A string without a space. *)
Fixpoint no_space (s : string) : bool :=
  match s with
  | EmptyString => true
  | String c s' => negb (Ascii.eqb c " ") && no_space s'
  end.

(** The characters of a string all pass a test. *)
Fixpoint all_chars (p : ascii -> bool) (s : string) : bool :=
  match s with
  | EmptyString => true
  | String c s' => p c && all_chars p s'
  end.

(** Safe in a file name: a lower-case letter, a digit or an underscore. *)
Definition name_safe (c : ascii) : bool :=
  is_lower c || is_digit c || Ascii.eqb c "_".

(** The summaries of the conversations that have one, in order. *)
Fixpoint summaries (convs : list Conversation) : list EmotionalSummary :=
  match convs with
  | [] => []
  | c :: convs' =>
      match emotionalSummary c with
      | Some s => s :: summaries convs'
      | None => summaries convs'
      end
  end.

(** The number a value of a distribution holds; a string holds none. *)
Definition counted (v : tallied) : nat :=
  match v with
  | Counted n => n
  | Garbled _ => 0%nat
  end.

(** A dictionary whose values are numbers. *)
Definition holds_numbers (d : list (string * tallied)) : Prop :=
  Forall (fun kv => snd kv = Counted (counted (snd kv))) d.

(** What a distribution files under an emotion. *)
Definition count_of (e : string) (d : list (string * tallied)) : nat :=
  fold_right (fun kv n => if String.eqb (fst kv) e then (counted (snd kv) + n)%nat else n)
    0%nat d.

(** A distribution of numbers under labels that name no member of
    [Object.prototype]. *)
Definition numbers_only (d : list (string * tallied)) : bool :=
  forallb (fun kv => negb (inherited (fst kv))
                     && match snd kv with Counted _ => true | Garbled _ => false end) d.

(** What the summaries of some conversations file under an emotion,
    all together. *)
Definition day_total (e : string) (convs : list Conversation) : nat :=
  fold_right (fun s n => (count_of e (emotionDistribution s) + n)%nat) 0%nat
    (summaries convs).

(** The conversations the insights count, all together. *)
Definition total_count (insights : list EmotionalInsight) : nat :=
  fold_right (fun i n => (conversationCount i + n)%nat) 0%nat insights.

(** A month of conversations: the three of [threeConversations] seen
    from one hour after the clock starts, over thirty days. *)
Definition monthOfInsights : list EmotionalInsight :=
  getEmotionalInsights utcDateString utcDateOfString utcDaysBefore 30 (clock 3600)
    threeConversations.

(** What a query string is made of: the bytes the serializer leaves as
    they are, the plus sign and the percent sign. *)
Definition query_safe (c : ascii) : bool :=
  form_safe c || Ascii.eqb c "+" || Ascii.eqb c "%".

(** An entry of the stored array that [loadConversations] cannot read:
    its [messages] is no array (or the entry is [null]). *)
Definition unreadable (j : json) : bool :=
  match get_prop (JSON_parse j) "messages" with
  | Some (JArr _) => false
  | _ => true
  end.

(** The labels in the order they are seen first. *)
Definition first_seen (labels : list string) : list string :=
  fold_left (fun seen e => if existsb (String.eqb e) seen then seen else seen ++ [e])
    labels [].

(** * Properties *)

(** ** Dates: [Date.parse] reads what [toISOString] writes *)

Lemma range_all_spec f n : forall start,
  range_all f n start = true -> forall z, start <= z < start + Z.of_nat n -> f z = true.
Proof.
  induction n as [|n IH]; intros start H z Hz.
  - lia.
  - cbn [range_all] in H. apply andb_prop in H. destruct H as [H1 H2].
    destruct (Z.eq_dec z start) as [->|Hne]; [exact H1|].
    apply (IH (start + 1) H2). lia.
Qed.

Lemma doy_ok_all : range_all doy_ok 366 0 = true.
Proof. vm_compute. reflexivity. Qed.

Lemma doy_ok_range doy : 0 <= doy <= 365 -> doy_ok doy = true.
Proof.
  intros H. apply (range_all_spec doy_ok 366 0 doy_ok_all). lia.
Qed.

(** The year of the era is in range and, with the day of the year, gives
    the day of the era back. *)
Lemma yoe_of_doe_spec doe :
  0 <= doe < 146097 ->
  0 <= yoe_of_doe doe <= 399 /\ 0 <= doy_of_doe doe <= 365.
Proof.
  intros H. unfold doy_of_doe, yoe_of_doe. cbv zeta.
  set (n100 := Z.min (doe / 36524) 3).
  set (d2 := doe - n100 * 36524).
  set (n4 := d2 / 1461).
  set (d3 := d2 - n4 * 1461).
  set (n1 := Z.min (d3 / 365) 3).
  assert (H100 : 0 <= n100 <= 3 /\ 0 <= d2 <= 36524).
  { subst d2 n100. pose proof (Z.div_mod doe 36524 ltac:(lia)).
    pose proof (Z.mod_pos_bound doe 36524 ltac:(lia)). lia. }
  assert (H4 : 0 <= n4 <= 24 /\ 0 <= d3 <= 1460).
  { subst d3 n4. pose proof (Z.div_mod d2 1461 ltac:(lia)).
    pose proof (Z.mod_pos_bound d2 1461 ltac:(lia)). lia. }
  assert (H1 : 0 <= n1 <= 3 /\ 0 <= d3 - n1 * 365 <= 365).
  { subst n1. pose proof (Z.div_mod d3 365 ltac:(lia)).
    pose proof (Z.mod_pos_bound d3 365 ltac:(lia)). lia. }
  assert (Hq4 : (n100 * 100 + n4 * 4 + n1) / 4 = n100 * 25 + n4).
  { symmetry. apply Z.div_unique with (r := n1); lia. }
  assert (Hq100 : (n100 * 100 + n4 * 4 + n1) / 100 = n100).
  { symmetry. apply Z.div_unique with (r := n4 * 4 + n1); lia. }
  rewrite Hq4, Hq100. subst d3 d2. lia.
Qed.

Lemma days_civil_roundtrip z :
  let '(y, m, d) := civil_from_days z in
  days_from_civil y m d = z /\ 1 <= m <= 12 /\ 1 <= d <= 31
  /\ (z + 719468) / 146097 * 400 <= y <= (z + 719468) / 146097 * 400 + 400.
Proof.
  unfold civil_from_days, days_from_civil.
  set (zz := z + 719468).
  set (era := zz / 146097).
  set (doe := zz - era * 146097).
  assert (Hdoe : 0 <= doe < 146097).
  { subst doe era. pose proof (Z.div_mod zz 146097 ltac:(lia)).
    pose proof (Z.mod_pos_bound zz 146097 ltac:(lia)). lia. }
  destruct (yoe_of_doe_spec doe Hdoe) as [Hyoe Hdoy].
  pose proof (doy_ok_range _ Hdoy) as Hok.
  unfold doy_ok in Hok.
  repeat (apply andb_prop in Hok; destruct Hok as [Hok ?]).
  unfold doe_of_ymd.
  set (yoe := yoe_of_doe doe) in *.
  set (m := month_of_doy (doy_of_doe doe)) in *.
  set (d := day_of_doy (doy_of_doe doe)) in *.
  assert (Hy : (if m <=? 2 then (if m <=? 2 then yoe + era * 400 + 1 else yoe + era * 400) - 1
                else (if m <=? 2 then yoe + era * 400 + 1 else yoe + era * 400))
               = yoe + era * 400).
  { destruct (m <=? 2); lia. }
  rewrite Hy.
  assert (He : (yoe + era * 400) / 400 = era).
  { symmetry. apply Z.div_unique with (r := yoe); lia. }
  rewrite He.
  replace (yoe + era * 400 - era * 400) with yoe by lia.
  split; [| split; [lia | split; [lia |]]].
  - apply Z.eqb_eq in H. rewrite H. unfold doy_of_doe. fold yoe. subst doe zz. lia.
  - destruct (m <=? 2); lia.
Qed.

Lemma digit_ok k : 0 <= k <= 9 -> is_digit (digit k) = true /\ digit_val (digit k) = k.
Proof.
  intros H.
  assert (E : k = 0 \/ k = 1 \/ k = 2 \/ k = 3 \/ k = 4 \/ k = 5 \/ k = 6 \/ k = 7
              \/ k = 8 \/ k = 9) by lia.
  repeat (destruct E as [-> | E]; [split; reflexivity |]).
  subst k. split; reflexivity.
Qed.

Lemma read_pad w : forall n acc rest, 0 <= n ->
  read_digits w acc (pad w n +:+ rest) = Some (acc * 10 ^ Z.of_nat w + n mod 10 ^ Z.of_nat w, rest).
Proof.
  induction w as [|w IH]; intros n acc rest Hn.
  - cbn [pad read_digits String.append]. rewrite Z.mod_1_r. f_equal. f_equal. cbn. lia.
  - cbn [pad read_digits String.append].
    set (k := (n / 10 ^ Z.of_nat w) mod 10).
    assert (Hk : 0 <= k <= 9) by (subst k; pose proof (Z.mod_pos_bound (n / 10 ^ Z.of_nat w) 10); lia).
    change (String (digit k) (pad w n) +:+ rest) with (String (digit k) (pad w n +:+ rest)).
    destruct (digit_ok k Hk) as [-> ->].
    rewrite IH by assumption. f_equal. f_equal.
    rewrite Nat2Z.inj_succ, Z.pow_succ_r by lia.
    assert (Hp : 0 < 10 ^ Z.of_nat w) by (apply Z.pow_pos_nonneg; lia).
    rewrite (Z.mul_comm 10 (10 ^ Z.of_nat w)).
    rewrite (Z.rem_mul_r n (10 ^ Z.of_nat w) 10) by lia.
    fold k. lia.
Qed.

Lemma read_year_digit k s : 0 <= k <= 9 ->
  read_year (String (digit k) s) = read_digits 4 0 (String (digit k) s).
Proof.
  intros H.
  assert (E : k = 0 \/ k = 1 \/ k = 2 \/ k = 3 \/ k = 4 \/ k = 5 \/ k = 6 \/ k = 7
              \/ k = 8 \/ k = 9) by lia.
  repeat (destruct E as [-> | E]; [reflexivity |]).
  subst k. reflexivity.
Qed.

Lemma read_iso_year y rest : -999999 <= y <= 999999 ->
  read_year (iso_year y +:+ rest) = Some (y, rest).
Proof.
  intros Hy. unfold iso_year.
  destruct ((0 <=? y) && (y <=? 9999)) eqn:E.
  - apply andb_prop in E. destruct E as [E1 E2].
    apply Z.leb_le in E1, E2.
    pose proof (read_pad 4 y 0 rest E1) as R.
    cbn [pad] in R |- *.
    change (String ?c ?s +:+ rest) with (String c (s +:+ rest)) in R |- *.
    rewrite read_year_digit.
    + rewrite R. f_equal. f_equal. change (10 ^ Z.of_nat 4) with 10000.
      rewrite Z.mod_small by lia. lia.
    + match goal with |- 0 <= ?a mod 10 <= 9 => pose proof (Z.mod_pos_bound a 10) end. lia.
  - change (String ?c ?s +:+ rest) with (String c (s +:+ rest)).
    assert (Ha : 0 <= Z.abs y) by lia.
    pose proof (read_pad 6 (Z.abs y) 0 rest Ha) as R.
    change (10 ^ Z.of_nat 6) with 1000000 in R.
    rewrite Z.mod_small in R by lia.
    destruct (y <? 0) eqn:Hneg.
    + apply Z.ltb_lt in Hneg. cbn [read_year]. rewrite R.
      replace (0 * 1000000 + Z.abs y =? 0) with false by (symmetry; apply Z.eqb_neq; lia).
      f_equal. f_equal. lia.
    + apply Z.ltb_ge in Hneg. cbn [read_year]. rewrite R. f_equal. f_equal. lia.
Qed.

Lemma read_pad_small w n acc rest : 0 <= n < 10 ^ Z.of_nat w ->
  read_digits w acc (pad w n +:+ rest) = Some (acc * 10 ^ Z.of_nat w + n, rest).
Proof.
  intros H. rewrite read_pad by lia. rewrite Z.mod_small by lia. reflexivity.
Qed.

Lemma expect_cons c s : expect c (String c s) = Some s.
Proof. cbn [expect]. rewrite Ascii.eqb_refl. reflexivity. Qed.

Ltac read_field :=
  rewrite read_pad_small
    by (first [change (10 ^ Z.of_nat 2) with 100 | change (10 ^ Z.of_nat 3) with 1000]; lia);
  cbn [mbind option_bind]; rewrite expect_cons; cbn [mbind option_bind].

Lemma parse_iso_fields y m d hh mm ss ms :
  -999999 <= y <= 999999 -> 1 <= m <= 12 -> 1 <= d <= 31 ->
  0 <= hh <= 23 -> 0 <= mm <= 59 -> 0 <= ss <= 59 -> 0 <= ms <= 999 ->
  parse_iso (iso_year y +:+ String "-" (pad 2 m +:+ String "-" (pad 2 d +:+
    String "T" (pad 2 hh +:+ String ":" (pad 2 mm +:+
    String ":" (pad 2 ss +:+ String "." (pad 3 ms +:+
    String "Z" EmptyString)))))))
  = Some (days_from_civil y m d * msPerDay + hh * 3600000 + mm * 60000 + ss * 1000 + ms).
Proof.
  intros Hy Hm Hd Hh Hmm Hs Hms.
  unfold parse_iso.
  rewrite read_iso_year by assumption.
  cbn [mbind option_bind]; rewrite expect_cons; cbn [mbind option_bind].
  do 6 read_field.
  change (0 * 10 ^ Z.of_nat 2) with 0. change (0 * 10 ^ Z.of_nat 3) with 0.
  rewrite !Z.add_0_l.
  replace ((1 <=? m) && (m <=? 12) && (1 <=? d) && (d <=? 31)
           && (hh <=? 23) && (mm <=? 59) && (ss <=? 59)) with true.
  - reflexivity.
  - symmetry. repeat (apply andb_true_intro; split); apply Z.leb_le; lia.
Qed.

Lemma parse_iso_of_time t : valid_time t = true -> parse_iso (iso_of_time t) = Some t.
Proof.
  intros Hv. unfold valid_time, maxTime in Hv.
  apply andb_prop in Hv. destruct Hv as [H1 H2]. apply Z.leb_le in H1, H2.
  unfold iso_of_time.
  pose proof (days_civil_roundtrip (t / msPerDay)) as C.
  destruct (civil_from_days (t / msPerDay)) as [[y m] d].
  destruct C as (Hday & Hm & Hd & Hy).
  unfold msPerDay in *.
  pose proof (Z.div_mod t 86400000 ltac:(lia)) as Ht.
  pose proof (Z.mod_pos_bound t 86400000 ltac:(lia)) as Hms.
  set (day := t / 86400000) in *. set (ms := t mod 86400000) in *.
  assert (Hdayb : -100000000 <= day <= 100000000) by lia.
  pose proof (Z.div_mod (day + 719468) 146097 ltac:(lia)) as He.
  pose proof (Z.mod_pos_bound (day + 719468) 146097 ltac:(lia)) as Her.
  pose proof (Z.div_mod ms 3600000 ltac:(lia)).
  pose proof (Z.mod_pos_bound ms 3600000 ltac:(lia)).
  pose proof (Z.div_mod ms 60000 ltac:(lia)).
  pose proof (Z.mod_pos_bound ms 60000 ltac:(lia)).
  pose proof (Z.div_mod ms 1000 ltac:(lia)).
  pose proof (Z.mod_pos_bound ms 1000 ltac:(lia)).
  pose proof (Z.div_mod (ms / 60000) 60 ltac:(lia)).
  pose proof (Z.mod_pos_bound (ms / 60000) 60 ltac:(lia)).
  pose proof (Z.div_mod (ms / 1000) 60 ltac:(lia)).
  pose proof (Z.mod_pos_bound (ms / 1000) 60 ltac:(lia)).
  pose proof (Z.div_mod (ms / 60000) 60 ltac:(lia)).
  assert (Hq1 : ms / 60000 / 60 = ms / 3600000)
    by (rewrite Z.div_div by lia; reflexivity).
  assert (Hq2 : ms / 1000 / 60 = ms / 60000)
    by (rewrite Z.div_div by lia; reflexivity).
  assert (-999999 <= y <= 999999) by lia.
  assert (0 <= ms / 3600000 <= 23) by lia.
  assert (0 <= (ms / 60000) mod 60 <= 59) by lia.
  assert (0 <= (ms / 1000) mod 60 <= 59) by lia.
  assert (0 <= ms mod 1000 <= 999) by lia.
  rewrite parse_iso_fields by assumption.
  f_equal. rewrite Hday. unfold msPerDay. lia.
Qed.

Lemma Date_parse_toISOString d s : toISOString d = Some s -> Date_parse s = d.
Proof.
  destruct d as [|t]; cbn [toISOString]; [discriminate|].
  destruct (valid_time t) eqn:Hv; [|discriminate].
  intros [= <-]. unfold Date_parse. rewrite parse_iso_of_time by assumption.
  unfold TimeClip. rewrite Hv. reflexivity.
Qed.

(** ** Objects and sorting *)

Section ObjectFacts.
Context {V : Type}.
Implicit Types (o : list (string * V)) (k : string) (v : V).

Lemma obj_get_none_keys k o : obj_get k o = None <-> ~ In k (Object_keys o).
Proof.
  induction o as [|[k0 v0] o IH]; cbn [obj_get Object_keys List.map In fst].
  - tauto.
  - destruct (String.eqb_spec k k0) as [->|Hne].
    + split; [discriminate | intros H; exfalso; apply H; now left].
    + unfold Object_keys in IH. rewrite IH. split.
      * intros H [E|E]; [congruence | contradiction].
      * intros H E. apply H. now right.
Qed.

Lemma obj_get_in k v o : obj_get k o = Some v -> In (k, v) o.
Proof.
  induction o as [|[k0 v0] o IH]; cbn [obj_get]; [discriminate|].
  destruct (String.eqb_spec k k0) as [->|Hne].
  - intros [= ->]. now left.
  - intros H. right. now apply IH.
Qed.

Lemma obj_in_get k v o : List.NoDup (Object_keys o) -> In (k, v) o -> obj_get k o = Some v.
Proof.
  induction o as [|[k0 v0] o IH]; cbn [obj_get Object_keys List.map fst]; [intros _ []|].
  intros Hnd [E | Hin].
  - injection E as -> ->. now rewrite String.eqb_refl.
  - apply List.NoDup_cons_iff in Hnd. destruct Hnd as [Hk0 Hnd].
    destruct (String.eqb_spec k k0) as [->|Hne].
    + exfalso. apply Hk0. change k0 with (fst (k0, v)). now apply in_map.
    + now apply IH.
Qed.

Lemma obj_replace_keys k v o : Object_keys (obj_replace k v o) = Object_keys o.
Proof.
  induction o as [|[k0 v0] o IH]; [reflexivity|].
  cbn [obj_replace]. destruct (String.eqb k k0); cbn [Object_keys List.map fst] in *;
    [reflexivity | now f_equal].
Qed.

Lemma obj_get_replace k v o k' :
  obj_get k' (obj_replace k v o)
  = if String.eqb k' k then (fun _ => v) <$> obj_get k o else obj_get k' o.
Proof.
  induction o as [|[k0 v0] o IH]; cbn [obj_replace obj_get].
  - now destruct (String.eqb k' k).
  - destruct (String.eqb k k0) eqn:E0; cbn [obj_get].
    + apply String.eqb_eq in E0. subst k0.
      now destruct (String.eqb k' k).
    + destruct (String.eqb k' k0) eqn:E1; [|exact IH].
      apply String.eqb_eq in E1. subst k0.
      rewrite String.eqb_sym, E0. reflexivity.
Qed.

Lemma obj_insert_index_keys n k v o :
  Permutation (Object_keys (obj_insert_index n k v o)) (k :: Object_keys o).
Proof.
  induction o as [|[k0 v0] o IH]; cbn [obj_insert_index]; [reflexivity|].
  destruct (array_index k0) as [n0|]; [destruct (n0 <? n)%N|]; try reflexivity.
  cbn [Object_keys List.map fst] in *. rewrite IH. apply perm_swap.
Qed.

Lemma obj_get_insert_index n k v o k' :
  obj_get k o = None ->
  obj_get k' (obj_insert_index n k v o)
  = if String.eqb k' k then Some v else obj_get k' o.
Proof.
  induction o as [|[k0 v0] o IH]; cbn [obj_insert_index obj_get]; [reflexivity|].
  destruct (String.eqb k k0) eqn:E0; [discriminate|]. intros Hk.
  destruct (array_index k0) as [n0|]; [destruct (n0 <? n)%N|]; cbn [obj_get];
    try reflexivity.
  destruct (String.eqb k' k0) eqn:E1; [|now apply IH].
  apply String.eqb_eq in E1. subst k0.
  rewrite String.eqb_sym, E0. reflexivity.
Qed.

Lemma obj_get_app k' o o' :
  obj_get k' (o ++ o') = match obj_get k' o with Some x => Some x | None => obj_get k' o' end.
Proof.
  induction o as [|[k0 v0] o IH]; [reflexivity|].
  cbn [app obj_get]. now destruct (String.eqb k' k0).
Qed.

(** Reading after writing. *)
Lemma obj_get_set k v o k' :
  obj_get k' (obj_set k v o) = if String.eqb k' k then Some v else obj_get k' o.
Proof.
  unfold obj_set. destruct (obj_get k o) as [v0|] eqn:E.
  - rewrite obj_get_replace, E. reflexivity.
  - destruct (array_index k) as [n|].
    + now apply obj_get_insert_index.
    + rewrite obj_get_app. cbn [obj_get].
      destruct (String.eqb_spec k' k) as [->|Hne]; [now rewrite E|].
      now destruct (obj_get k' o).
Qed.

Lemma obj_set_keys_In k v o e :
  In e (Object_keys (obj_set k v o)) <-> In e (Object_keys o) \/ e = k.
Proof.
  pose proof (obj_get_none_keys e (obj_set k v o)) as H1.
  pose proof (obj_get_none_keys e o) as H2.
  rewrite obj_get_set in H1.
  destruct (String.eqb_spec e k) as [E|Hne].
  - subst e. split; [now right|]. intros _.
    destruct (in_dec string_dec k (Object_keys (obj_set k v o))) as [Hin|Hout];
      [exact Hin|]. apply H1 in Hout. discriminate Hout.
  - split.
    + intros Hin. left.
      destruct (in_dec string_dec e (Object_keys o)) as [Hi|Ho]; [exact Hi|].
      exfalso. apply H2 in Ho. now apply H1 in Ho.
    + intros [Hin|E]; [|contradiction].
      destruct (in_dec string_dec e (Object_keys (obj_set k v o))) as [Hi|Ho]; [exact Hi|].
      exfalso. apply H1 in Ho. now apply H2 in Ho.
Qed.

Lemma obj_set_In k v o kv : In kv (obj_set k v o) -> kv = (k, v) \/ In kv o.
Proof.
  unfold obj_set. destruct (obj_get k o) as [x|].
  - clear x. induction o as [|[k0 v0] o IH]; cbn [obj_replace]; [intros []|].
    destruct (String.eqb_spec k k0) as [->|Hne]; cbn [In].
    + intros [<-|H]; [now left | right; now right].
    + intros [<-|H]; [right; now left|]. destruct (IH H) as [E|Hin]; [now left|].
      right; now right.
  - destruct (array_index k) as [n|].
    + induction o as [|[k0 v0] o IH]; cbn [obj_insert_index In].
      * intros [<-|[]]. now left.
      * destruct (array_index k0) as [n'|]; [destruct (n' <? n)%N|]; cbn [In].
        -- intros [<-|H]; [right; now left|]. destruct (IH H) as [E|Hin]; [now left|].
           right; now right.
        -- intros [<-|H]; [now left | now right].
        -- intros [<-|H]; [now left | now right].
    + intros H. apply in_app_or in H. destruct H as [H|[<-|[]]]; [now right | now left].
Qed.

Lemma obj_set_keys_NoDup k v o :
  List.NoDup (Object_keys o) -> List.NoDup (Object_keys (obj_set k v o)).
Proof.
  intros Hnd. unfold obj_set. destruct (obj_get k o) as [v0|] eqn:E.
  - now rewrite obj_replace_keys.
  - apply obj_get_none_keys in E.
    assert (Hk : List.NoDup (k :: Object_keys o)) by now constructor.
    destruct (array_index k) as [n|].
    + eapply Permutation_NoDup; [|exact Hk]. symmetry. apply obj_insert_index_keys.
    + eapply Permutation_NoDup; [|exact Hk].
      unfold Object_keys. rewrite map_app. cbn [List.map fst].
      apply Permutation_cons_append.
Qed.
End ObjectFacts.

Section SortFacts.
Context {A : Type} (compareFn : A -> A -> Z).

Lemma sort_insert_In x l z : In z (sort_insert compareFn x l) <-> z = x \/ In z l.
Proof.
  induction l as [|y l IH]; cbn [sort_insert In].
  - intuition congruence.
  - destruct (compareFn x y <=? 0); cbn [In]; [intuition congruence|].
    rewrite IH. intuition congruence.
Qed.

(** The sorted array holds the elements of the array. *)
Lemma Array_sort_In l z : In z (Array_sort compareFn l) <-> In z l.
Proof.
  induction l as [|x l IH]; [reflexivity|].
  unfold Array_sort in *. cbn [fold_right In]. rewrite sort_insert_In, IH.
  intuition congruence.
Qed.

Lemma Array_sort_nil l : Array_sort compareFn l = [] -> l = [].
Proof.
  destruct l as [|x l]; [reflexivity|]. intros H.
  assert (Hx : In x (Array_sort compareFn (x :: l))) by (apply Array_sort_In; now left).
  rewrite H in Hx. destruct Hx.
Qed.
End SortFacts.

(** Between two numbers [b - a] is the difference of the counts. *)
Lemma by_count_desc_counted k a k' b :
  (by_count_desc (k, Counted a) (k', Counted b) <=? 0) = (b <=? a)%nat.
Proof.
  unfold by_count_desc, ToNumber, difference_sign. cbn [snd].
  unfold Qcompare. cbn [inject_Z Qnum Qden]. rewrite !Z.mul_1_r.
  destruct (Z.compare_spec (Z.of_nat b) (Z.of_nat a)) as [E|E|E];
    destruct (Nat.leb_spec b a); first [reflexivity | exfalso; lia].
Qed.

(** The first entry after sorting by [b - a] has the largest count,
    when the entries hold numbers. *)
Lemma sort_by_count_head (l : list (string * tallied)) x rest :
  holds_numbers l ->
  Array_sort by_count_desc l = x :: rest ->
  In x l /\ forall y, In y l -> (counted (snd y) <= counted (snd x))%nat.
Proof.
  intros Hnum H. split.
  - apply (Array_sort_In by_count_desc). rewrite H. now left.
  - revert x rest H. induction l as [|a l IH]; intros x rest H y Hy; [destruct Hy|].
    apply List.Forall_cons_iff in Hnum as [Ha Hl]. specialize (IH Hl).
    unfold Array_sort in H. cbn [fold_right] in H.
    fold (Array_sort by_count_desc l) in H.
    destruct (Array_sort by_count_desc l) as [|h t] eqn:E.
    + apply Array_sort_nil in E. subst l. cbn in H. injection H as <- <-.
      destruct Hy as [<- | []]. lia.
    + specialize (IH h t eq_refl).
      assert (Hh : snd h = Counted (counted (snd h))).
      { apply (proj1 (List.Forall_forall _ l) Hl).
        apply (Array_sort_In by_count_desc). rewrite E. now left. }
      cbn [sort_insert] in H.
      destruct a as [ka [na|sa]]; [|discriminate Ha].
      destruct h as [kh [nh|sh]]; [|discriminate Hh].
      cbn [snd counted] in IH |- *.
      rewrite by_count_desc_counted in H.
      destruct (Nat.leb_spec nh na) as [C|C]; injection H as <- <-;
        cbn [snd counted]; (destruct Hy as [<- | Hy]; [cbn [snd counted]; lia|]);
        specialize (IH y Hy); lia.
Qed.

(** ** The conversation store *)

Lemma find_none_iff (p : Conversation -> bool) cs :
  List.find p cs = None <-> forall c, In c cs -> p c = false.
Proof.
  induction cs as [|c cs IH]; cbn [List.find].
  - split; [intros _ c [] | reflexivity].
  - destruct (p c) eqn:E; split.
    + discriminate.
    + intros H. specialize (H c (or_introl eq_refl)). congruence.
    + intros H x [<- | Hx]; [assumption | now apply IH].
    + intros H. apply IH. intros x Hx. apply H. now right.
Qed.

Lemma getCurrentConversation_unset m :
  currentConversationId m = None -> getCurrentConversation m = None.
Proof. unfold getCurrentConversation. now intros ->. Qed.

Lemma getCurrentConversation_stale m id :
  currentConversationId m = Some id ->
  (forall c, In c (conversations m) -> conv_id c <> id) ->
  getCurrentConversation m = None.
Proof.
  unfold getCurrentConversation. intros -> H.
  destruct (String.eqb id ""); [reflexivity|].
  apply find_none_iff. intros c Hc. apply String.eqb_neq. now apply H.
Qed.

Lemma getCurrentConversation_some m c :
  getCurrentConversation m = Some c ->
  exists id, currentConversationId m = Some id /\ conv_id c = id /\ In c (conversations m).
Proof.
  unfold getCurrentConversation.
  destruct (currentConversationId m) as [id|]; [|discriminate].
  destruct (String.eqb id ""); [discriminate|].
  intros H. exists id. split; [reflexivity|].
  apply find_some in H. destruct H as [Hin Heq].
  apply String.eqb_eq in Heq. now split.
Qed.

Lemma saveConversations_conversations m :
  conversations (saveConversations m) = conversations m.
Proof.
  unfold saveConversations. now destruct (setItem _ _).
Qed.

Lemma saveConversations_current m :
  currentConversationId (saveConversations m) = currentConversationId m.
Proof.
  unfold saveConversations. now destruct (setItem _ _).
Qed.

Lemma getCurrentConversation_save m :
  getCurrentConversation (saveConversations m) = getCurrentConversation m.
Proof.
  unfold getCurrentConversation.
  now rewrite saveConversations_current, saveConversations_conversations.
Qed.

(** Mutating the current conversation without touching its id leaves it
    the current one. *)
Lemma find_mutate_first (p : Conversation -> bool) c c' cs :
  List.find p cs = Some c -> p c' = true ->
  List.find p (mutate_first p c' cs) = Some c'.
Proof.
  intros H Hc'. induction cs as [|x cs IH]; [discriminate|].
  cbn [List.find mutate_first] in *.
  destruct (p x) eqn:E.
  - cbn [List.find]. now rewrite Hc'.
  - cbn [List.find]. rewrite E. now apply IH.
Qed.

Lemma getCurrentConversation_mutate m c c' :
  getCurrentConversation m = Some c -> conv_id c' = conv_id c ->
  getCurrentConversation (mutate_current c' m) = Some c'.
Proof.
  intros H Hid.
  destruct (getCurrentConversation_some _ _ H) as (id & Hcur & Hc & _).
  unfold getCurrentConversation, mutate_current in *. rewrite Hcur in *.
  cbn [currentConversationId set_conversations conversations]. rewrite Hcur.
  destruct (String.eqb id ""); [discriminate|].
  eapply find_mutate_first; [eassumption|].
  apply String.eqb_eq. congruence.
Qed.

Lemma updateEmotionalSummary_frame c :
  conv_id (updateEmotionalSummary c) = conv_id c
  /\ title (updateEmotionalSummary c) = title c
  /\ messages (updateEmotionalSummary c) = messages c
  /\ createdAt (updateEmotionalSummary c) = createdAt c
  /\ updatedAt (updateEmotionalSummary c) = updatedAt c.
Proof.
  unfold updateEmotionalSummary.
  destruct (0 <? _)%nat; [|auto].
  destruct (Array_sort _ _) as [|[d n] l]; auto.
Qed.

(** What a successful [addMessage] leaves as the current conversation. *)
Lemma addMessage_current m c message id sent updated :
  getCurrentConversation m = Some c ->
  exists c',
    getCurrentConversation (snd (addMessage message id sent updated m)) = Some c'
    /\ conv_id c' = conv_id c
    /\ messages c' =
         messages c ++
         [{| msg_id := id; type := new_type message; content := new_content message;
             timestamp := sent; audioUrl := new_audioUrl message;
             processingResult := new_processingResult message;
             isTyping := new_isTyping message |}]
    /\ title c' =
         (if (length (messages c) =? 0)%nat
             && match new_type message with user => true | ai => false end
          then generateTitle (new_content message) else title c)
    /\ c' = updateEmotionalSummary
              (set_emotionalSummary (emotionalSummary c)
                 (set_title (title c') (set_updatedAt updated (set_messages (messages c') c)))).
Proof.
  intros H. unfold addMessage. rewrite H. cbn [snd].
  set (nm := {| msg_id := id |}).
  set (c1 := set_updatedAt updated (set_messages (messages c ++ [nm]) c)).
  set (c2 := if (length (messages c1) =? 1)%nat && _ then _ else c1).
  exists (updateEmotionalSummary c2).
  destruct (updateEmotionalSummary_frame c2) as (Hi & Ht & Hm & _ & _).
  assert (Hl : (length (messages c1) =? 1)%nat = (length (messages c) =? 0)%nat).
  { subst c1. cbn [messages set_updatedAt set_messages].
    rewrite length_app. cbn [length].
    destruct (length (messages c)) as [|n]; [reflexivity|].
    replace (S n + 1)%nat with (S (S n)) by lia. reflexivity. }
  assert (Hc2 : conv_id c2 = conv_id c /\ messages c2 = messages c ++ [nm]
                /\ title c2 = (if (length (messages c) =? 0)%nat
                                  && match new_type message with user => true | ai => false end
                               then generateTitle (new_content message) else title c)
                /\ c2 = set_emotionalSummary (emotionalSummary c)
                          (set_title (title c2)
                             (set_updatedAt updated (set_messages (messages c ++ [nm]) c)))).
  { subst c2. rewrite Hl.
    destruct ((length (messages c) =? 0)%nat && _); subst c1; now destruct c. }
  destruct Hc2 as (Hi2 & Hm2 & Ht2 & Hc2).
  split; [|split; [congruence | split; [congruence | split; [congruence|]]]].
  - rewrite getCurrentConversation_save.
    apply getCurrentConversation_mutate with (c := c); [assumption | congruence].
  - rewrite Ht, Hm, Hm2. f_equal. exact Hc2.
Qed.

(** C5. Whenever no current conversation exists (the current pointer is
    unset, or refers to a conversation id that is not in the list),
    [addMessage] fails with the "No active conversation" error and leaves
    the manager as it was: the conversation list, the pointer and the
    persisted state are unchanged. *)
Theorem addMessage_without_current_conversation message id sent updated m :
  currentConversationId m = None
  \/ (exists cur, currentConversationId m = Some cur
        /\ forall c, In c (conversations m) -> conv_id c <> cur) ->
  addMessage message id sent updated m = (Throws "No active conversation", m).
Proof.
  intros H. unfold addMessage.
  replace (getCurrentConversation m) with (@None Conversation); [reflexivity|].
  symmetry. destruct H as [H | (cur & Hcur & H)].
  - now apply getCurrentConversation_unset.
  - now apply getCurrentConversation_stale with cur.
Qed.

Lemma addMessage_without_current_conversation_witness :
  addMessage (textMessage user "anyone there") "m2" (clock 5) (clock 5)
    (setCurrentConversation "gone" twoConversations)
  = (Throws "No active conversation", setCurrentConversation "gone" twoConversations).
Proof.
  apply addMessage_without_current_conversation.
  right. exists "gone". split; [reflexivity|].
  intros c Hc. cbn in Hc. destruct Hc as [<- | [<- | []]]; discriminate.
Defined.

Lemma findIndex_none messageId ms :
  (forall x, In x ms -> msg_id x <> messageId) -> findIndex messageId ms = None.
Proof.
  induction ms as [|x ms IH]; intros H; [reflexivity|].
  cbn [findIndex].
  destruct (String.eqb (msg_id x) messageId) eqn:E.
  - apply String.eqb_eq in E. exfalso. apply (H x); [now left | assumption].
  - rewrite IH; [reflexivity|]. intros y Hy. apply H. now right.
Qed.

(** C8. [updateMessage(id, partial)] with an id that no message of the
    current conversation has is a complete no-op, also when a message of
    another conversation has that id and when there is no current
    conversation: every conversation, message and [updatedAt], the
    pointer and the persisted state are unchanged. *)
Theorem updateMessage_unknown_id messageId updates updated m :
  (forall c, getCurrentConversation m = Some c ->
     forall x, In x (messages c) -> msg_id x <> messageId) ->
  updateMessage messageId updates updated m = m.
Proof.
  intros H. unfold updateMessage.
  destruct (getCurrentConversation m) as [c|]; [|reflexivity].
  rewrite findIndex_none; [reflexivity|]. now apply H.
Qed.

Lemma updateMessage_unknown_id_witness :
  updateMessage "m1" typingDone (clock 9) twoConversations = twoConversations.
Proof.
  apply updateMessage_unknown_id.
  intros c Hc x Hx. cbv in Hc. injection Hc as <-. destruct Hx.
Defined.

(** *** Deleting the current conversation *)

Lemma perform_unset c m :
  keeps_selection c = true -> currentConversationId m = None ->
  currentConversationId (perform c m) = None.
Proof.
  intros Hk Hm. pose proof (getCurrentConversation_unset m Hm) as Hg.
  destruct c; try discriminate; cbn [perform].
  - unfold addMessage. now rewrite Hg.
  - unfold updateMessage. now rewrite Hg.
  - unfold deleteConversation. rewrite saveConversations_current.
    cbn [set_conversations currentConversationId]. now rewrite Hm.
Qed.

Lemma run_unset calls : forall m,
  forallb keeps_selection calls = true -> currentConversationId m = None ->
  currentConversationId (run calls m) = None.
Proof.
  induction calls as [|c calls IH]; intros m Hk Hm; [assumption|].
  cbn [forallb] in Hk. apply andb_prop in Hk. destruct Hk as [Hc Hk].
  unfold run. cbn [fold_left]. apply IH; [assumption|]. now apply perform_unset.
Qed.

(** C6. After [deleteConversation(id)] of the conversation that is
    current, the conversations with that id are gone from the list (the
    others stay, in order) and [getCurrentConversation()] returns [null],
    and keeps returning it over any calls of [addMessage],
    [updateMessage] and [deleteConversation], until a conversation is
    created or selected.  Besides, [getCurrentConversation()] returns
    [null] whenever the pointer is unset or holds an id that is not in
    the list. *)
Theorem deleteConversation_clears_current :
  (forall id m,
     currentConversationId m = Some id ->
     conversations (deleteConversation id m)
     = List.filter (fun c => negb (String.eqb (conv_id c) id)) (conversations m)
     /\ (forall c, In c (conversations (deleteConversation id m)) -> conv_id c <> id)
     /\ (forall calls, forallb keeps_selection calls = true ->
           getCurrentConversation (run calls (deleteConversation id m)) = None))
  /\ (forall m,
        currentConversationId m = None
        \/ (exists cur, currentConversationId m = Some cur
              /\ forall c, In c (conversations m) -> conv_id c <> cur) ->
        getCurrentConversation m = None).
Proof.
  split.
  - intros id m Hcur.
    assert (Hl : conversations (deleteConversation id m)
                 = List.filter (fun c => negb (String.eqb (conv_id c) id)) (conversations m)).
    { unfold deleteConversation. rewrite saveConversations_conversations.
      cbn [set_conversations currentConversationId]. rewrite Hcur.
      now rewrite String.eqb_refl. }
    split; [exact Hl | split].
    + intros c Hc. rewrite Hl in Hc. apply filter_In in Hc. destruct Hc as [_ Hc].
      apply negb_true_iff, String.eqb_neq in Hc. exact Hc.
    + intros calls Hk. apply getCurrentConversation_unset, run_unset; [assumption|].
      unfold deleteConversation. rewrite saveConversations_current.
      cbn [set_conversations currentConversationId]. rewrite Hcur.
      now rewrite String.eqb_refl.
  - intros m [H | (cur & Hcur & H)].
    + now apply getCurrentConversation_unset.
    + now apply getCurrentConversation_stale with cur.
Qed.

Lemma deleteConversation_clears_current_witness :
  (conversations (deleteConversation "c2" twoConversations)
   = List.filter (fun c => negb (String.eqb (conv_id c) "c2")) (conversations twoConversations)
   /\ (forall c, In c (conversations (deleteConversation "c2" twoConversations)) ->
         conv_id c <> "c2")
   /\ (forall calls, forallb keeps_selection calls = true ->
         getCurrentConversation (run calls (deleteConversation "c2" twoConversations)) = None))
  /\ getCurrentConversation (setCurrentConversation "gone" twoConversations) = None.
Proof.
  split.
  - apply (proj1 deleteConversation_clears_current "c2" twoConversations). reflexivity.
  - apply (proj2 deleteConversation_clears_current).
    right. exists "gone". split; [reflexivity|].
    intros c Hc. cbn in Hc. destruct Hc as [<- | [<- | []]]; discriminate.
Defined.

(** *** Titles *)

Lemma append_empty_r (s : string) : s +:+ "" = s.
Proof.
  induction s as [|a s IH]; [reflexivity|].
  change (String a s +:+ "") with (String a (s +:+ "")). now rewrite IH.
Qed.

Lemma run_addMessage_title calls : forall m c,
  forallb is_AddMessage calls = true ->
  getCurrentConversation m = Some c -> messages c <> [] ->
  exists c', getCurrentConversation (run calls m) = Some c' /\ title c' = title c.
Proof.
  induction calls as [|k calls IH]; intros m c Hk Hc Hne.
  - exists c. now split.
  - cbn [forallb] in Hk. apply andb_prop in Hk. destruct Hk as [Hk1 Hk].
    destruct k; try discriminate.
    unfold run. cbn [fold_left perform].
    destruct (addMessage_current m c message id sent updated Hc)
      as (c1 & Hc1 & _ & Hm1 & Ht1 & _).
    destruct (IH _ c1 Hk Hc1) as (c2 & Hc2 & Ht2).
    + rewrite Hm1. now destruct (messages c).
    + exists c2. split; [exact Hc2|]. rewrite Ht2, Ht1.
      destruct (messages c); [congruence | reflexivity].
Qed.

(** C4. When the first message appended to a conversation is of type
    user, the title of the conversation becomes the first six words of
    its content (the pieces between single spaces), followed by an
    ellipsis exactly when the content has more than six words; for the
    content "a b c d e f g h" it is "a b c d e f...".  No later
    [addMessage] changes the title. *)
Theorem title_from_first_user_message m c message id sent updated :
  getCurrentConversation m = Some c -> messages c = [] -> new_type message = user ->
  exists c1,
    getCurrentConversation (snd (addMessage message id sent updated m)) = Some c1
    /\ title c1 = generateTitle (new_content message)
    /\ (let words := split_space (new_content message) in
        ((6 < length words)%nat ->
           title c1 = String.concat " " (take 6 words) +:+ "...")
        /\ ((length words <= 6)%nat -> title c1 = String.concat " " words))
    /\ (new_content message = "a b c d e f g h" -> title c1 = "a b c d e f...")
    /\ forall calls, forallb is_AddMessage calls = true ->
         exists c2,
           getCurrentConversation (run calls (snd (addMessage message id sent updated m)))
           = Some c2
           /\ title c2 = title c1.
Proof.
  intros Hc Hm Hu.
  destruct (addMessage_current m c message id sent updated Hc)
    as (c1 & Hc1 & _ & Hm1 & Ht1 & _).
  rewrite Hm, Hu in Ht1. cbn in Ht1.
  exists c1. split; [exact Hc1 | split; [exact Ht1 | split; [| split]]].
  - rewrite Ht1. unfold generateTitle. cbv zeta. split; intros Hw.
    + apply Nat.ltb_lt in Hw. now rewrite Hw.
    + rewrite take_ge by lia.
      replace (6 <? length _)%nat with false by (symmetry; apply Nat.ltb_ge; lia).
      apply append_empty_r.
  - intros E. rewrite Ht1, E. reflexivity.
  - intros calls Hk. apply (run_addMessage_title calls _ c1 Hk Hc1).
    rewrite Hm1. now destruct (messages c).
Qed.

Lemma title_from_first_user_message_witness :
  exists c1,
    getCurrentConversation
      (snd (addMessage (textMessage user "a b c d e f g h") "m1" (clock 1) (clock 1) oneConversation))
    = Some c1
    /\ title c1 = "a b c d e f..."
    /\ forall calls, forallb is_AddMessage calls = true ->
         exists c2,
           getCurrentConversation
             (run calls
                (snd (addMessage (textMessage user "a b c d e f g h") "m1" (clock 1) (clock 1)
                        oneConversation)))
           = Some c2
           /\ title c2 = title c1.
Proof.
  destruct (title_from_first_user_message oneConversation
              {| conv_id := "c1"; title := "Conversation 11/3/2026"; messages := [];
                 createdAt := clock 0; updatedAt := clock 0; emotionalSummary := None |}
              (textMessage user "a b c d e f g h") "m1" (clock 1) (clock 1)
              eq_refl eq_refl eq_refl)
    as (c1 & H1 & _ & _ & H3 & H4).
  exists c1. split; [exact H1 | split; [exact (H3 eq_refl) | exact H4]].
Defined.

(** *** The ledger is append-only *)

(** Over calls of [addMessage], the messages of the current conversation
    are the ones it had followed by the new ones in call order, each with
    the id and the timestamp it was given and otherwise as passed in; the
    conversation keeps its id and its creation date. *)
Theorem addMessage_appends_in_call_order calls : forall m c,
  forallb is_AddMessage calls = true ->
  getCurrentConversation m = Some c ->
  exists c',
    getCurrentConversation (run calls m) = Some c'
    /\ messages c' = messages c ++ appended calls
    /\ conv_id c' = conv_id c.
Proof.
  induction calls as [|k calls IH]; intros m c Hk Hc.
  - exists c. cbn [appended]. now rewrite app_nil_r.
  - cbn [forallb] in Hk. apply andb_prop in Hk. destruct Hk as [Hk1 Hk].
    destruct k; try discriminate.
    unfold run. cbn [fold_left perform].
    destruct (addMessage_current m c message id sent updated Hc)
      as (c1 & Hc1 & Hi1 & Hm1 & _).
    destruct (IH _ c1 Hk Hc1) as (c2 & Hc2 & Hm2 & Hi2).
    exists c2. split; [exact Hc2 | split; [|congruence]].
    rewrite Hm2, Hm1. cbn [appended]. now rewrite <- app_assoc.
Qed.

Lemma addMessage_appends_in_call_order_witness :
  exists c',
    getCurrentConversation happySadHappy = Some c'
    /\ List.map msg_id (messages c') = ["m1"; "m2"; "m3"; "m4"]
    /\ conv_id c' = "c1".
Proof.
  destruct (addMessage_appends_in_call_order
              [AddMessage (spoken "neutral" (1 # 2) (Some "happy")) "m1" (clock 1) (clock 1);
               AddMessage (textMessage ai "I see.") "m2" (clock 2) (clock 2);
               AddMessage (spoken "neutral" (1 # 2) (Some "sad")) "m3" (clock 3) (clock 3);
               AddMessage (spoken "neutral" (1 # 2) (Some "happy")) "m4" (clock 4) (clock 4)]
              oneConversation
              {| conv_id := "c1"; title := "Conversation 11/3/2026"; messages := [];
                 createdAt := clock 0; updatedAt := clock 0; emotionalSummary := None |}
              eq_refl eq_refl)
    as (c' & Hc & Hm & Hi).
  exists c'. split; [exact Hc | split; [now rewrite Hm | exact Hi]].
Defined.

(** ** The metrics batcher *)

(** C9. In production, whenever recording a measurement brings the
    queue to the batch size (10) or beyond, [addMetric] itself starts a
    flush before it returns: the first [batchSize] entries of the queue
    leave it and are handed to the request, no timer event being
    involved.  A measurement that leaves the queue shorter than that
    starts none. *)
Theorem addMetric_flushes_at_batchSize name value dimensions now s :
  isProduction s = true ->
  let queued :=
    metricsQueue s ++
    [{| name := name; value := value; dimensions := dimensions;
        metric_timestamp := Some now |}] in
  ((batchSize <= length queued)%nat ->
     requests (addMetric name value dimensions now s)
     = requests s ++ [take batchSize queued]
     /\ metricsQueue (addMetric name value dimensions now s) = drop batchSize queued
     /\ length (take batchSize queued) = batchSize)
  /\ ((length queued < batchSize)%nat ->
        requests (addMetric name value dimensions now s) = requests s
        /\ metricsQueue (addMetric name value dimensions now s) = queued).
Proof.
  intros Hp queued. unfold addMetric. rewrite Hp. cbn [negb].
  cbn [metricsQueue isProduction requests]. fold queued.
  split; intros Hq.
  - replace (batchSize <=? length queued)%nat with true
      by (symmetry; apply Nat.leb_le; exact Hq).
    unfold flushMetrics. cbn [metricsQueue isProduction requests]. fold queued.
    replace (length queued =? 0)%nat with false
      by (symmetry; apply Nat.eqb_neq; unfold batchSize in Hq; lia).
    cbn [orb negb metricsQueue requests].
    split; [reflexivity | split; [reflexivity|]].
    rewrite length_take. lia.
  - replace (batchSize <=? length queued)%nat with false
      by (symmetry; apply Nat.leb_gt; exact Hq).
    split; reflexivity.
Qed.

Lemma addMetric_flushes_at_batchSize_witness :
  requests nineQueued = []
  /\ length (metricsQueue nineQueued) = 9%nat
  /\ requests (addMetric "PageView" 1 None (clock 10) nineQueued)
     = [metricsQueue nineQueued ++
        [{| name := "PageView"; value := 1; dimensions := None;
            metric_timestamp := Some (clock 10) |}]]
  /\ metricsQueue (addMetric "PageView" 1 None (clock 10) nineQueued) = [].
Proof.
  split; [reflexivity | split; [reflexivity|]].
  destruct (proj1 (addMetric_flushes_at_batchSize "PageView" 1 None (clock 10) nineQueued
                     eq_refl)) as (H1 & H2 & _).
  - apply Nat.leb_le. reflexivity.
  - split; [exact H1 | exact H2].
Defined.

(** ** The emotional summarizer *)


Lemma inherited_proto k : inherited k = false -> String.eqb k "__proto__" = false.
Proof.
  intros H. destruct (String.eqb_spec k "__proto__") as [->|]; [discriminate H | reflexivity].
Qed.

Lemma holds_numbers_get k v (counts : list (string * tallied)) :
  holds_numbers counts -> obj_get k counts = Some v -> v = Counted (counted v).
Proof.
  intros Hn Hg. apply obj_get_in in Hg.
  exact (proj1 (List.Forall_forall _ counts) Hn _ Hg).
Qed.

(** Under a label that names no inherited member the count goes up in
    a dictionary of numbers. *)
Lemma bump_plain k n counts :
  inherited k = false -> holds_numbers counts ->
  bump k (Counted n) counts
  = obj_set k (Counted (default 0%nat (counted <$> obj_get k counts) + n)) counts.
Proof.
  intros Hk Hn. unfold bump, assign, or_zero.
  destruct (obj_get k counts) as [v|] eqn:E.
  - rewrite (holds_numbers_get _ _ _ Hn E). reflexivity.
  - rewrite Hk, (inherited_proto _ Hk). reflexivity.
Qed.

Lemma holds_numbers_set k n counts :
  holds_numbers counts -> holds_numbers (obj_set k (Counted n) counts).
Proof.
  intros Hn. apply List.Forall_forall. intros kv Hin.
  apply obj_set_In in Hin. destruct Hin as [-> | Hin]; [reflexivity|].
  exact (proj1 (List.Forall_forall _ counts) Hn _ Hin).
Qed.

Lemma assign_keys_NoDup k v (counts : list (string * tallied)) :
  List.NoDup (Object_keys counts) -> List.NoDup (Object_keys (assign k v counts)).
Proof.
  intros H. unfold assign.
  destruct (obj_get k counts); [now apply obj_set_keys_NoDup|].
  destruct (String.eqb k "__proto__"); [exact H | now apply obj_set_keys_NoDup].
Qed.

(** The keys after an assignment: the key is new unless it is
    [__proto__]. *)
Lemma assign_keys_In k v (counts : list (string * tallied)) e :
  In e (Object_keys (assign k v counts))
  <-> In e (Object_keys counts) \/ (e = k /\ k <> "__proto__").
Proof.
  unfold assign. destruct (obj_get k counts) as [x|] eqn:E.
  - rewrite obj_set_keys_In. split; [|intros [H|[-> _]]; [now left | now right]].
    intros [H| ->]; [now left|]. left.
    apply obj_get_in in E. change k with (fst (k, x)). now apply in_map.
  - destruct (String.eqb_spec k "__proto__") as [->|Hne].
    + split; [now left | intros [H|[_ H]]; [exact H | contradiction]].
    + rewrite obj_set_keys_In. split; (intros [H|H]; [now left | right]);
        [now split | apply H].
Qed.

Lemma bump_keys_NoDup k n (b : list (string * tallied)) :
  List.NoDup (Object_keys b) -> List.NoDup (Object_keys (bump k n b)).
Proof. apply assign_keys_NoDup. Qed.

Lemma occurrences_cons e m ms :
  occurrences e (m :: ms) = ((if has_emotion e m then 1 else 0) + occurrences e ms)%nat.
Proof.
  unfold occurrences. cbn [List.filter]. now destruct (has_emotion e m).
Qed.

(** What a message does to the counts. *)
Lemma tally_message_counts t m :
  emotionCounts (tally_message t m)
  = match emotion_of m with
    | Some e => bump e (Counted 1) (emotionCounts t)
    | None => emotionCounts t
    end.
Proof.
  unfold tally_message, emotion_of.
  destruct (processingResult m) as [r|]; [|reflexivity].
  destruct (truthy (sentiment_confidence r)); now destruct (emotions r).
Qed.

Lemma emotion_labels_app ms ms' :
  emotion_labels (ms ++ ms') = emotion_labels ms ++ emotion_labels ms'.
Proof.
  induction ms as [|m ms IH]; [reflexivity|].
  cbn [app emotion_labels]. destruct (emotion_of m); cbn [app]; now rewrite IH.
Qed.

Lemma emotion_labels_In e ms :
  In e (emotion_labels ms) <-> exists m, In m ms /\ emotion_of m = Some e.
Proof.
  induction ms as [|m ms IH]; cbn [emotion_labels].
  - split; [intros [] | intros (m & [] & _)].
  - destruct (emotion_of m) as [e'|] eqn:E; cbn [In]; rewrite ?IH; split.
    + intros [->|(x & Hx & He)]; [exists m; split; [now left | exact E]|].
      exists x. split; [now right | exact He].
    + intros (x & [<-|Hx] & He); [left; congruence | right; now exists x].
    + intros (x & Hx & He). exists x. split; [now right | exact He].
    + intros (x & [<-|Hx] & He); [congruence | now exists x].
Qed.

(** The counts of the [forEach] of [updateEmotionalSummary], from any
    tally of numbers on, when no label names an inherited member. *)
Lemma tally_counts_from ms : forall t,
  plain_labels ms -> holds_numbers (emotionCounts t) ->
  let t' := fold_left tally_message ms t in
  holds_numbers (emotionCounts t')
  /\ forall e,
       obj_get e (emotionCounts t')
       = if (occurrences e ms =? 0)%nat then obj_get e (emotionCounts t)
         else Some (Counted (default 0%nat (counted <$> obj_get e (emotionCounts t))
                             + occurrences e ms)).
Proof.
  induction ms as [|m ms IH]; intros t Hp Hn; cbn zeta.
  - cbn [fold_left]. split; [exact Hn | reflexivity].
  - cbn [fold_left].
    assert (Hp' : plain_labels ms /\
                  match emotion_of m with Some e => inherited e = false | None => True end).
    { unfold plain_labels in *. cbn [emotion_labels] in Hp.
      destruct (emotion_of m); [|now split].
      apply List.Forall_cons_iff in Hp. tauto. }
    destruct Hp' as [Hp' Hm].
    assert (Hn' : holds_numbers (emotionCounts (tally_message t m))).
    { rewrite tally_message_counts. destruct (emotion_of m) as [e'|]; [|exact Hn].
      rewrite (bump_plain _ _ _ Hm Hn). now apply holds_numbers_set. }
    destruct (IH (tally_message t m) Hp' Hn') as [Hnum Hc]. cbn zeta in Hc.
    split; [exact Hnum|].
    intros e. rewrite Hc, tally_message_counts, occurrences_cons. unfold has_emotion.
    destruct (emotion_of m) as [e'|]; [|reflexivity].
    rewrite (bump_plain _ _ _ Hm Hn), obj_get_set. rewrite (String.eqb_sym e e').
    destruct (String.eqb e' e) eqn:E.
    + apply String.eqb_eq in E. subst e'.
      destruct (occurrences e ms); cbn [Nat.eqb Nat.add fmap option_fmap option_map
                                        from_option];
        unfold id; do 2 f_equal; cbn [counted]; lia.
    + reflexivity.
Qed.

Lemma tally_counts ms e :
  plain_labels ms ->
  obj_get e (emotionCounts (tally ms))
  = if (occurrences e ms =? 0)%nat then None else Some (Counted (occurrences e ms)).
Proof.
  intros Hp. unfold tally.
  destruct (tally_counts_from ms {| emotionCounts := []; totalSentiment := 0;
                                    sentimentCount := 0 |} Hp) as (_ & H).
  - constructor.
  - cbn zeta in H. rewrite H. reflexivity.
Qed.

Lemma tally_holds_numbers ms : plain_labels ms -> holds_numbers (emotionCounts (tally ms)).
Proof.
  intros Hp. unfold tally.
  destruct (tally_counts_from ms {| emotionCounts := []; totalSentiment := 0;
                                    sentimentCount := 0 |} Hp) as (H & _);
    [constructor | exact H].
Qed.

(** The keys of the counts, whatever the labels: every label but
    [__proto__] gets one. *)
Lemma tally_keys_from ms : forall t,
  let t' := fold_left tally_message ms t in
  (List.NoDup (Object_keys (emotionCounts t)) ->
   List.NoDup (Object_keys (emotionCounts t')))
  /\ forall e,
       In e (Object_keys (emotionCounts t'))
       <-> In e (Object_keys (emotionCounts t))
           \/ (In e (emotion_labels ms) /\ e <> "__proto__").
Proof.
  induction ms as [|m ms IH]; intros t; cbn zeta.
  - cbn [fold_left emotion_labels In]. split; [tauto | intros e; tauto].
  - cbn [fold_left]. destruct (IH (tally_message t m)) as [Hn Hk]. cbn zeta in *.
    split.
    + intros Hnd. apply Hn. rewrite tally_message_counts.
      destruct (emotion_of m); [now apply bump_keys_NoDup | assumption].
    + intros e. rewrite Hk, tally_message_counts. cbn [emotion_labels].
      destruct (emotion_of m) as [e'|]; [|reflexivity].
      unfold bump. rewrite assign_keys_In. cbn [In].
      split.
      * intros [[H|[-> H]]|[H1 H2]]; [now left | right; split; [now left | exact H]|].
        right. split; [now right | exact H2].
      * intros [H|[[->|H1] H2]]; [left; now left | left; right; now split|].
        right. now split.
Qed.

Lemma tally_keys_NoDup ms : List.NoDup (Object_keys (emotionCounts (tally ms))).
Proof.
  unfold tally. destruct (tally_keys_from ms {| emotionCounts := []; totalSentiment := 0;
                             sentimentCount := 0 |}) as (H & _).
  apply H. constructor.
Qed.

Lemma tally_keys ms e :
  In e (Object_keys (emotionCounts (tally ms)))
  <-> In e (emotion_labels ms) /\ e <> "__proto__".
Proof.
  unfold tally. destruct (tally_keys_from ms {| emotionCounts := []; totalSentiment := 0;
                             sentimentCount := 0 |}) as (_ & H).
  cbn zeta in H. rewrite H. cbn [emotionCounts Object_keys List.map In]. tauto.
Qed.


(** [updateEmotionalSummary] leaves the conversation alone when the
    counts have no key, and writes a summary otherwise: the first entry
    of the sorted counts, the quotient and the counts. *)
Lemma updateEmotionalSummary_spec c :
  let t := tally (messages c) in
  (emotionCounts t = [] /\ updateEmotionalSummary c = c)
  \/ exists d n sorted,
       emotionCounts t <> []
       /\ Array_sort by_count_desc (emotionCounts t) = (d, n) :: sorted
       /\ updateEmotionalSummary c
          = set_emotionalSummary
              (Some {| dominantEmotion := d;
                       averageSentiment :=
                         if (0 <? sentimentCount t)%nat
                         then Ndiv (totalSentiment t)
                                (inject_Z (Z.of_nat (sentimentCount t)))
                         else 0%Q;
                       emotionDistribution := emotionCounts t |}) c.
Proof.
  cbn zeta. unfold updateEmotionalSummary.
  set (t := tally (messages c)).
  destruct (emotionCounts t) as [|kv rest] eqn:Ecounts.
  - left. now split.
  - right. rewrite <- Ecounts.
    replace (0 <? length (Object_keys (emotionCounts t)))%nat with true
      by (rewrite Ecounts; reflexivity).
    unfold Object_entries.
    destruct (Array_sort by_count_desc (emotionCounts t)) as [|[d n] sorted] eqn:Esort.
    { apply Array_sort_nil in Esort. congruence. }
    exists d, n, sorted. split; [congruence | split; reflexivity].
Qed.

(** The summary is written exactly when some label is not [__proto__]. *)
Lemma updateEmotionalSummary_written c :
  (exists e, In e (emotion_labels (messages c)) /\ e <> "__proto__") ->
  exists s,
    updateEmotionalSummary c = set_emotionalSummary (Some s) c
    /\ In (dominantEmotion s) (emotion_labels (messages c))
    /\ emotionDistribution s = emotionCounts (tally (messages c))
    /\ averageSentiment s
       = (if (0 <? sentimentCount (tally (messages c)))%nat
          then Ndiv (totalSentiment (tally (messages c)))
                 (inject_Z (Z.of_nat (sentimentCount (tally (messages c)))))
          else 0%Q)
    /\ exists n sorted,
         Array_sort by_count_desc (emotionCounts (tally (messages c)))
         = (dominantEmotion s, n) :: sorted.
Proof.
  intros (e & He & Hne).
  destruct (updateEmotionalSummary_spec c) as [[Hnil _] | (d & n & sorted & _ & Hs & Hu)].
  - exfalso. pose proof (proj2 (tally_keys (messages c) e) (conj He Hne)) as Hk.
    cbn zeta in Hnil. rewrite Hnil in Hk. destruct Hk.
  - cbn zeta in Hs, Hu. eexists. split; [exact Hu|].
    cbn [dominantEmotion emotionDistribution averageSentiment].
    split; [|split; [reflexivity | split; [reflexivity | now exists n, sorted]]].
    apply (tally_keys (messages c) d).
    assert (Hin : In (d, n) (emotionCounts (tally (messages c)))).
    { apply (Array_sort_In by_count_desc). rewrite Hs. now left. }
    change d with (fst (d, n)). now apply in_map.
Qed.

Lemma updateEmotionalSummary_skipped c :
  (forall e, In e (emotion_labels (messages c)) -> e = "__proto__") ->
  updateEmotionalSummary c = c.
Proof.
  intros H.
  destruct (updateEmotionalSummary_spec c) as [[_ Hu] | (d & n & sorted & Hne & Hs & _)];
    [exact Hu|].
  exfalso. cbn zeta in Hne, Hs.
  assert (Hin : In (d, n) (emotionCounts (tally (messages c)))).
  { apply (Array_sort_In by_count_desc). rewrite Hs. now left. }
  assert (Hk : In d (Object_keys (emotionCounts (tally (messages c))))).
  { change d with (fst (d, n)). now apply in_map. }
  apply tally_keys in Hk. destruct Hk as [Hl Hp]. apply Hp. now apply H.
Qed.

(** C2 on the code.  The counts are kept in an object literal under
    the labels of the messages, and [emotionCounts[emotion] || 0] finds
    the member that every object inherits where the label names one.
    After three messages whose primary emotions are toString, happy and
    happy, the distribution holds the text of [Object.prototype.toString]
    followed by 1 under "toString"; the sort reads [b - a] as NaN for
    it, which moves nothing, and [dominantEmotion] is "toString", a
    label that occurs once where "happy" occurs twice. *)
Theorem dominantEmotion_of_inherited_label :
  exists c s,
    getCurrentConversation toStringHappyHappy = Some c
    /\ emotion_labels (messages c) = ["toString"; "happy"; "happy"]
    /\ emotionalSummary c = Some s
    /\ emotionalSummary (updateEmotionalSummary c) = Some s
    /\ dominantEmotion s = "toString"
    /\ occurrences "toString" (messages c) = 1%nat
    /\ occurrences "happy" (messages c) = 2%nat
    /\ emotionDistribution s
       = [("toString", Garbled "function toString() { [native code] }1");
          ("happy", Counted 2)].
Proof.
  do 2 eexists. split; [vm_compute; reflexivity|].
  split; [vm_compute; reflexivity|]. split; [vm_compute; reflexivity|].
  split; [vm_compute; reflexivity|]. cbn [dominantEmotion emotionDistribution].
  split; [reflexivity|]. split; [vm_compute; reflexivity|].
  split; [vm_compute; reflexivity | reflexivity].
Qed.




(** *** The summary along [addMessage] and [updateMessage] *)

Lemma emotion_of_labels ms :
  (exists m, In m ms /\ emotion_of m <> None) <-> emotion_labels ms <> [].
Proof.
  split.
  - intros (m & Hm & He) Hnil. destruct (emotion_of m) as [e|] eqn:E; [|congruence].
    assert (Hin : In e (emotion_labels ms)) by (apply emotion_labels_In; now exists m).
    rewrite Hnil in Hin. destruct Hin.
  - intros Hne. destruct (emotion_labels ms) as [|e l] eqn:E; [congruence|].
    assert (Hin : In e (emotion_labels ms)) by (rewrite E; now left).
    apply emotion_labels_In in Hin. destruct Hin as (m & Hm & He).
    exists m. split; [exact Hm | congruence].
Qed.

(** [addMessage] keeps the summary in step with the messages, as long
    as no label is "__proto__". *)
Lemma addMessage_summary_in_step m c message id sent updated :
  getCurrentConversation m = Some c -> summary_in_step c ->
  exists c',
    getCurrentConversation (snd (addMessage message id sent updated m)) = Some c'
    /\ messages c' = messages c ++ appended [AddMessage message id sent updated]
    /\ (~ In "__proto__" (emotion_labels (messages c')) -> summary_in_step c').
Proof.
  intros Hc Hstep.
  destruct (addMessage_current m c message id sent updated Hc)
    as (c' & Hc' & _ & Hm & _ & Hu).
  exists c'. split; [exact Hc' | split; [exact Hm|]]. intros Hproto.
  set (c0 := set_emotionalSummary _ _) in Hu.
  assert (Hm0 : messages c0 = messages c') by reflexivity.
  assert (He0 : emotionalSummary c0 = emotionalSummary c) by reflexivity.
  unfold summary_in_step. rewrite emotion_of_labels.
  destruct (emotion_labels (messages c')) as [|e l] eqn:El.
  - rewrite (updateEmotionalSummary_skipped c0) in Hu
      by (rewrite Hm0, El; intros x []).
    split; [|congruence]. intros Hset. exfalso. rewrite Hu, He0 in Hset.
    apply Hstep, emotion_of_labels in Hset. apply Hset.
    rewrite Hm, emotion_labels_app in El. now apply app_eq_nil in El.
  - destruct (updateEmotionalSummary_written c0) as (s & Hs & _).
    { exists e. rewrite Hm0, El. split; [now left|]. intros ->. apply Hproto. now left. }
    rewrite Hs in Hu. split; [discriminate|]. intros _. rewrite Hu. discriminate.
Qed.

(** C7 on the code.  [addMessage] recomputes the summary, which it
    sets when some message carries an emotion analysis (under a label
    other than "__proto__").  [updateMessage] does not recompute it:
    an analysis that arrives in an update leaves the summary unset, and
    an analysis that an update takes away leaves the summary set. *)
Theorem summary_not_recomputed_by_updateMessage :
  (exists c,
     getCurrentConversation analysedLater = Some c
     /\ (exists m, In m (messages c) /\ emotion_of m = Some "happy")
     /\ emotionalSummary c = None)
  /\ (exists c,
        getCurrentConversation analysisWithdrawn = Some c
        /\ (forall m, In m (messages c) -> emotion_of m = None)
        /\ emotionalSummary c <> None).
Proof.
  split.
  - exists (currentOf analysedLater). vm_compute.
    split; [reflexivity | split; [|reflexivity]].
    eexists. split; [left; reflexivity | reflexivity].
  - exists (currentOf analysisWithdrawn). vm_compute.
    split; [reflexivity | split; [|discriminate]].
    intros m [<- | []]. reflexivity.
Qed.

Lemma run_addMessage_summary_in_step calls : forall m c,
  forallb is_AddMessage calls = true ->
  getCurrentConversation m = Some c -> summary_in_step c ->
  ~ In "__proto__" (emotion_labels (messages c ++ appended calls)) ->
  exists c', getCurrentConversation (run calls m) = Some c' /\ summary_in_step c'.
Proof.
  induction calls as [|k calls IH]; intros m c Hk Hc Hstep Hproto.
  - exists c. now split.
  - cbn [forallb] in Hk. apply andb_prop in Hk. destruct Hk as [Hk1 Hk].
    destruct k; try discriminate.
    unfold run. cbn [fold_left perform].
    destruct (addMessage_summary_in_step m c message id sent updated Hc Hstep)
      as (c1 & Hc1 & Hm1 & Hstep1).
    cbn [appended] in Hm1, Hproto.
    change (?x :: appended calls) with ([x] ++ appended calls) in Hproto.
    rewrite app_assoc, <- Hm1 in Hproto.
    apply (IH _ c1 Hk Hc1); [|exact Hproto].
    apply Hstep1. intros Hin. apply Hproto. rewrite emotion_labels_app.
    apply in_or_app. now left.
Qed.

(** Along calls of [addMessage] on a conversation that was just created
    (under an id that is not the empty string, which is falsy), with no
    message whose primary emotion is "__proto__", the summary is set
    exactly when some message carries an emotion analysis; in particular
    it stays unset while none does, whatever sentiment analysis the
    messages carry. *)
Theorem summary_in_step_along_addMessage title id localeDate created updated m calls :
  id <> "" ->
  forallb is_AddMessage calls = true ->
  ~ In "__proto__" (emotion_labels (appended calls)) ->
  exists c,
    getCurrentConversation
      (run calls (snd (createConversation title id localeDate created updated m)))
    = Some c
    /\ (emotionalSummary c <> None
        <-> exists x, In x (messages c) /\ emotion_of x <> None).
Proof.
  intros Hid Hk Hproto. apply String.eqb_neq in Hid.
  set (c0 := fst (createConversation title id localeDate created updated m)).
  apply (run_addMessage_summary_in_step calls _ c0 Hk).
  - unfold createConversation. cbn [snd]. rewrite getCurrentConversation_save.
    unfold getCurrentConversation.
    cbn [set_currentConversationId set_conversations currentConversationId
         conversations conv_id List.find].
    rewrite Hid. now rewrite String.eqb_refl.
  - unfold summary_in_step. subst c0. cbn [createConversation fst messages emotionalSummary].
    split; [congruence | intros (x & [] & _)].
  - subst c0. cbn [createConversation fst messages app]. exact Hproto.
Qed.

Lemma summary_in_step_along_addMessage_witness :
  exists c,
    getCurrentConversation ratedWithoutEmotions = Some c
    /\ (emotionalSummary c <> None
        <-> exists x, In x (messages c) /\ emotion_of x <> None).
Proof.
  apply (summary_in_step_along_addMessage None "c1" "11/3/2026" (clock 0) (clock 0)
           freshManager
           [AddMessage (spoken "positive" (8 # 10) None) "m1" (clock 1) (clock 1);
            AddMessage (spoken "negative" (4 # 10) None) "m2" (clock 2) (clock 2)]);
    [discriminate | reflexivity | intros []].
Defined.

(** ** Daily insights *)

Section InsightFacts.
Context (toDateString : Date -> string)
        (dateOfString : string -> Date)
        (daysBefore : Date -> Z -> Date).

Let dayOf (c : Conversation) : string := toDateString (updatedAt c).
Let on_day (k : string) (c : Conversation) : bool := String.eqb (dayOf c) k.

Lemma record_conversation_get insights conv k :
  obj_get k (record_conversation toDateString insights conv)
  = if String.eqb k (dayOf conv)
    then Some (count_conversation
                 (default (blank (dayOf conv)) (obj_get (dayOf conv) insights)) conv)
    else obj_get k insights.
Proof.
  unfold record_conversation. fold (dayOf conv). cbv zeta.
  rewrite obj_get_replace.
  destruct (obj_get (dayOf conv) insights) as [i0|] eqn:E.
  - rewrite E. reflexivity.
  - rewrite !obj_get_set, String.eqb_refl. cbn [fmap option_fmap option_map].
    now destruct (String.eqb k (dayOf conv)).
Qed.

Lemma record_conversation_keys insights conv :
  List.NoDup (Object_keys insights) ->
  List.NoDup (Object_keys (record_conversation toDateString insights conv)).
Proof.
  intros H. unfold record_conversation. cbv zeta. rewrite obj_replace_keys.
  destruct (obj_get _ insights); [assumption | now apply obj_set_keys_NoDup].
Qed.

(** The insight of a day after the [forEach]: the conversations of
    that day counted into what the day had, or into a blank one. *)
Lemma record_all_get convs : forall insights k,
  obj_get k (fold_left (record_conversation toDateString) convs insights)
  = match List.filter (on_day k) convs with
    | [] => obj_get k insights
    | that_day =>
        Some (fold_left count_conversation that_day
                (default (blank k) (obj_get k insights)))
    end.
Proof.
  induction convs as [|c convs IH]; intros insights k; [reflexivity|].
  cbn [fold_left List.filter]. rewrite IH, record_conversation_get.
  unfold on_day at 2. rewrite (String.eqb_sym k (dayOf c)).
  destruct (String.eqb_spec (dayOf c) k) as [E|Hne].
  - rewrite E. now destruct (List.filter (on_day k) convs).
  - reflexivity.
Qed.

Lemma record_all_keys convs : forall insights,
  List.NoDup (Object_keys insights) ->
  List.NoDup (Object_keys (fold_left (record_conversation toDateString) convs insights)).
Proof.
  induction convs as [|c convs IH]; intros insights H; [assumption|].
  cbn [fold_left]. now apply IH, record_conversation_keys.
Qed.

Lemma count_all convs : forall i,
  let i' := fold_left count_conversation convs i in
  date i' = date i
  /\ insightDominantEmotion i' = insightDominantEmotion i
  /\ conversationCount i' = (conversationCount i + length convs)%nat
  /\ (Forall (fun c => emotionalSummary c = None) convs ->
      sentimentScore i' = sentimentScore i /\ emotionBreakdown i' = emotionBreakdown i).
Proof.
  induction convs as [|c convs IH]; intros i; cbv zeta.
  - cbn [fold_left length]. repeat split; lia.
  - cbn [fold_left length]. destruct (IH (count_conversation i c)) as (Hd & He & Hc & Hs).
    cbv zeta in *. rewrite Hd, He, Hc.
    assert (Hi : date (count_conversation i c) = date i
                 /\ insightDominantEmotion (count_conversation i c)
                    = insightDominantEmotion i
                 /\ conversationCount (count_conversation i c) = S (conversationCount i)).
    { unfold count_conversation. now destruct (emotionalSummary c). }
    destruct Hi as (-> & -> & ->).
    split; [reflexivity | split; [reflexivity | split; [lia|]]].
    intros Hall. apply List.Forall_cons_iff in Hall. destruct Hall as [Hc0 Hall].
    destruct (Hs Hall) as [-> ->].
    unfold count_conversation. rewrite Hc0. now split.
Qed.

Lemma finish_date i : date (finish i) = date i.
Proof. unfold finish. now destruct (0 <? conversationCount i)%nat. Qed.

(** C10. [getEmotionalInsights(days)] counts every conversation of the
    trailing window toward the [conversationCount] of its day, whether
    or not the conversation has a summary: for a day on which some
    conversation of the window was updated, the result holds exactly
    one insight, whose [conversationCount] is the number of those
    conversations.  When none of them has a summary, that insight has
    the empty string as [dominantEmotion], a [sentimentScore] of 0 and
    an empty [emotionBreakdown], its [conversationCount] being
    positive all the same. *)
Theorem insights_count_conversations_without_summary days now m day :
  let window :=
    List.filter (in_window (daysBefore now days)) (conversations m) in
  let that_day :=
    List.filter (fun c => String.eqb (toDateString (updatedAt c)) day) window in
  let insights := getEmotionalInsights toDateString dateOfString daysBefore days now m in
  that_day <> [] ->
  exists i,
    In i insights
    /\ (forall j, In j insights -> date j = day -> j = i)
    /\ date i = day
    /\ conversationCount i = length that_day
    /\ (0 < conversationCount i)%nat
    /\ (Forall (fun c => emotionalSummary c = None) that_day ->
        insightDominantEmotion i = ""
        /\ (sentimentScore i == 0)%Q
        /\ emotionBreakdown i = []).
Proof.
  intros window that_day insights Hne.
  set (table := fold_left (record_conversation toDateString) window []).
  assert (Hget : forall k,
             obj_get k table
             = match List.filter (on_day k) window with
               | [] => None
               | d => Some (fold_left count_conversation d (blank k))
               end).
  { intros k. unfold table. now rewrite record_all_get. }
  assert (Hnd : List.NoDup (Object_keys table)).
  { apply record_all_keys. constructor. }
  set (raw := fold_left count_conversation that_day (blank day)).
  assert (Hraw : obj_get day table = Some raw).
  { rewrite Hget. fold that_day in Hne |- *.
    change (List.filter (on_day day) window) with that_day.
    now destruct that_day. }
  destruct (count_all that_day (blank day)) as (Hd & He & Hc & Hs).
  fold raw in Hd, He, Hc, Hs. cbn [blank date insightDominantEmotion conversationCount
                                    sentimentScore emotionBreakdown] in Hd, He, Hc, Hs.
  assert (Hpos : (0 < conversationCount raw)%nat).
  { rewrite Hc. destruct that_day; [congruence | cbn; lia]. }
  assert (Hin : forall j, In j insights <-> exists k i, In (k, i) table /\ j = finish i).
  { intros j. unfold insights, getEmotionalInsights. fold window. fold table.
    rewrite Array_sort_In, in_map_iff. unfold Object_values. split.
    - intros (i & <- & Hi). apply in_map_iff in Hi. destruct Hi as ([k i'] & <- & Hi).
      now exists k, i'.
    - intros (k & i & Hi & ->). exists i. split; [reflexivity|].
      apply in_map_iff. now exists (k, i). }
  exists (finish raw).
  split; [|split; [|split; [|split; [|split]]]].
  - apply Hin. exists day, raw. split; [now apply obj_get_in | reflexivity].
  - intros j Hj Hday. apply Hin in Hj. destruct Hj as (k & i & Hi & ->).
    rewrite finish_date in Hday.
    pose proof (obj_in_get _ _ _ Hnd Hi) as Hk. pose proof Hk as Hk'.
    rewrite Hget in Hk'.
    destruct (List.filter (on_day k) window) as [|c d]; [discriminate|].
    injection Hk' as Hi'.
    destruct (count_all (c :: d) (blank k)) as (Hdk & _).
    cbn [blank date fold_left] in Hdk.
    rewrite <- Hi', Hdk in Hday. subst k. rewrite Hraw in Hk. now injection Hk as ->.
  - now rewrite finish_date.
  - unfold finish. destruct (0 <? conversationCount raw)%nat; cbn [conversationCount];
      rewrite Hc; lia.
  - unfold finish. destruct (0 <? conversationCount raw)%nat; cbn [conversationCount];
      exact Hpos.
  - intros Hall. destruct (Hs Hall) as [Hscore Hbreak].
    unfold finish.
    replace (0 <? conversationCount raw)%nat with true
      by (symmetry; now apply Nat.ltb_lt).
    cbn [insightDominantEmotion sentimentScore emotionBreakdown].
    rewrite Hbreak, Hscore, He. cbn [Object_entries Array_sort fold_right].
    split; [reflexivity | split; [|reflexivity]].
    unfold Qdiv. apply Qmult_0_l.
Qed.
End InsightFacts.

Lemma insights_count_conversations_without_summary_witness :
  exists i,
    getEmotionalInsights utcDateString utcDateOfString utcDaysBefore 7 (clock 3600)
      threeConversations = [i]
    /\ date i = "Tue Nov 03 2026"
    /\ conversationCount i = 2%nat
    /\ insightDominantEmotion i = ""
    /\ (sentimentScore i == 0)%Q
    /\ emotionBreakdown i = [].
Proof.
  destruct (insights_count_conversations_without_summary
              utcDateString utcDateOfString utcDaysBefore 7 (clock 3600)
              threeConversations "Tue Nov 03 2026")
    as (i & Hin & _ & Hd & Hc & _ & Hs).
  - vm_compute. discriminate.
  - exists i. destruct Hs as (H1 & H2 & H3).
    + vm_compute. repeat constructor.
    + vm_compute in Hin. destruct Hin as [<- | []].
      repeat split; try reflexivity.
Defined.

(** ** Persistence *)

Lemma plain_written : forall v, plain v = true ->
  JSON_stringify v = Some (default JsonNull (JSON_stringify v)) /\ written v = v.
Proof.
  fix IH 1. intros v. destruct v as [| |b|q|s|d|l|ps]; cbn [plain]; intros Hp;
    try discriminate; try (split; reflexivity).
  - split; [reflexivity|]. unfold written. cbn [JSON_stringify from_option id JSON_parse].
    f_equal. induction l as [|x l IHl]; [reflexivity|].
    cbn [forallb] in Hp. apply andb_prop in Hp. destruct Hp as [Hx Hl].
    cbn [List.map]. f_equal; [exact (proj2 (IH x Hx)) | exact (IHl Hl)].
  - split; [reflexivity|]. unfold written. cbn [JSON_stringify from_option id JSON_parse].
    f_equal. induction ps as [|[k x] ps IHps]; [reflexivity|].
    cbn [forallb snd] in Hp. apply andb_prop in Hp. destruct Hp as [Hx Hps].
    cbn [List.flat_map fst snd]. destruct (IH x Hx) as [Hs Hw]. rewrite Hs.
    cbn [app List.map fst snd]. f_equal; [f_equal; exact Hw | exact (IHps Hps)].
Qed.

Lemma written_obj ps : written (JObj ps) = JObj (written_props ps).
Proof. reflexivity. Qed.

Lemma written_arr l : written (JArr l) = JArr (List.map written l).
Proof.
  unfold written. cbn [JSON_stringify from_option id JSON_parse].
  now rewrite List.map_map.
Qed.

Lemma written_props_app ps qs :
  written_props (ps ++ qs) = written_props ps ++ written_props qs.
Proof.
  unfold written_props, json_members, js_props.
  now rewrite flat_map_app, List.map_app.
Qed.

Lemma written_props_cons k x ps :
  JSON_stringify x <> None ->
  written_props ((k, x) :: ps) = (k, written x) :: written_props ps.
Proof.
  intros H. unfold written_props, json_members, js_props, written.
  cbn [List.flat_map fst snd]. destruct (JSON_stringify x); [reflexivity | contradiction].
Qed.

Lemma written_props_plain ps :
  forallb (fun kx => plain (snd kx)) ps = true -> written_props ps = ps.
Proof.
  intros H. pose proof (plain_written (JObj ps) H) as [_ Hw].
  rewrite written_obj in Hw. now injection Hw.
Qed.

Lemma written_date d :
  valid_date d = true ->
  exists s, toISOString d = Some s /\ written (JDate d) = JStr s /\ Date_parse s = d.
Proof.
  intros Hv. destruct d as [|t]; [discriminate|]. cbn [valid_date] in Hv.
  exists (iso_of_time t). unfold written. cbn [JSON_stringify toISOString].
  rewrite Hv. split; [reflexivity | split; [reflexivity|]].
  apply Date_parse_toISOString. cbn [toISOString]. now rewrite Hv.
Qed.

(** The typed values hold neither [undefined] nor dates outside the
    date fields. *)
Lemma plain_field {A} k (f : A -> jsval) x :
  (forall a, plain (f a) = true) ->
  forallb (fun kx => plain (snd kx)) (field k f x) = true.
Proof. intros H. destruct x; cbn; [now rewrite H | reflexivity]. Qed.

Lemma plain_number_dict d : plain (number_dict d) = true.
Proof. unfold number_dict. cbn [plain]. now induction d. Qed.

Lemma plain_count_dict d : plain (count_dict d) = true.
Proof.
  unfold count_dict. cbn [plain].
  induction d as [|[k [n|s]] d IH]; [reflexivity | exact IH | exact IH].
Qed.

Lemma plain_EmotionAnalysis e : plain (EmotionAnalysis_to_js e) = true.
Proof.
  unfold EmotionAnalysis_to_js. cbn [plain]. rewrite forallb_app. cbn [forallb snd plain].
  rewrite plain_number_dict. cbn [andb]. apply plain_field.
  intros l. cbn [plain]. now induction l.
Qed.

Lemma plain_DetectedLanguageInfo i : plain (DetectedLanguageInfo_to_js i) = true.
Proof.
  unfold DetectedLanguageInfo_to_js. cbn [plain forallb snd]. now rewrite plain_number_dict.
Qed.

Lemma plain_ProcessingResult r : plain (ProcessingResult_to_js r) = true.
Proof.
  unfold ProcessingResult_to_js. cbn [plain].
  repeat (rewrite forallb_app; cbn [forallb snd plain andb]).
  rewrite plain_number_dict. cbn [andb].
  rewrite !plain_field; try reflexivity.
  - apply plain_EmotionAnalysis.
  - apply plain_DetectedLanguageInfo.
Qed.

Lemma plain_EmotionalSummary s : plain (EmotionalSummary_to_js s) = true.
Proof.
  unfold EmotionalSummary_to_js. cbn [plain forallb snd]. now rewrite plain_count_dict.
Qed.

Lemma message_head_plain m : forallb (fun kx => plain (snd kx)) (message_head m) = true.
Proof.
  unfold message_head. repeat (rewrite forallb_app; cbn [forallb snd plain andb]).
  rewrite !plain_field; try reflexivity. apply plain_ProcessingResult.
Qed.

Lemma message_head_keys m :
  obj_get "id" (message_head m) = None /\ obj_get "timestamp" (message_head m) = None.
Proof.
  unfold message_head.
  destruct (audioUrl m), (processingResult m), (isTyping m); split; reflexivity.
Qed.

Lemma Message_to_js_head m :
  Message_to_js m
  = JObj (message_head m ++ [("id", JStr (msg_id m)); ("timestamp", JDate (timestamp m))]).
Proof.
  unfold Message_to_js, message_head. now rewrite <- !app_assoc.
Qed.

Lemma obj_replace_app {V} k (v : V) ps qs :
  obj_get k ps = None -> obj_replace k v (ps ++ qs) = ps ++ obj_replace k v qs.
Proof.
  induction ps as [|[k0 v0] ps IH]; [reflexivity|].
  cbn [obj_get app obj_replace]. destruct (String.eqb k k0); [discriminate|].
  intros H. now rewrite IH.
Qed.

Lemma written_message m :
  valid_date (timestamp m) = true ->
  exists s,
    Date_parse s = timestamp m
    /\ written (Message_to_js m)
       = JObj (message_head m ++ [("id", JStr (msg_id m)); ("timestamp", JStr s)]).
Proof.
  intros Hv. destruct (written_date _ Hv) as (s & Hs & Hw & Hp).
  exists s. split; [exact Hp|].
  rewrite Message_to_js_head, written_obj, written_props_app.
  rewrite written_props_plain by apply message_head_plain.
  rewrite !written_props_cons by (cbn; congruence).
  now rewrite Hw.
Qed.

Lemma message_tail_get (a b : jsval) :
  obj_get "timestamp" [("id", a); ("timestamp", b)] = Some b.
Proof. reflexivity. Qed.

Lemma message_tail_replace (a b v : jsval) :
  obj_replace "timestamp" v [("id", a); ("timestamp", b)] = [("id", a); ("timestamp", v)].
Proof. reflexivity. Qed.

(** Reading back a message that was written. *)
Lemma revive_written_message m :
  valid_date (timestamp m) = true ->
  revive_message (written (Message_to_js m)) = Some (Message_to_js m).
Proof.
  intros Hv. destruct (written_message m Hv) as (s & Hp & ->).
  destruct (message_head_keys m) as [Hid Hts].
  unfold revive_message, get_prop. rewrite obj_get_app, Hts, message_tail_get.
  cbn [from_option id mbind option_bind own_props newDate].
  unfold obj_set. rewrite obj_get_app, Hts, message_tail_get.
  rewrite obj_replace_app by exact Hts. rewrite message_tail_replace, Hp.
  now rewrite Message_to_js_head.
Qed.

Lemma revive_written_messages ms :
  forallb (fun m => valid_date (timestamp m)) ms = true ->
  mapM revive_message (List.map written (List.map Message_to_js ms))
  = Some (List.map Message_to_js ms).
Proof.
  intros H. apply mapM_Some.
  induction ms as [|m ms IH]; cbn [List.map]; [constructor|].
  cbn [forallb] in H. apply andb_prop in H. destruct H as [Hm Hms].
  constructor; [now apply revive_written_message | now apply IH].
Qed.

Lemma conversation_props_get (a b c d e : jsval) t :
  let props :=
    [("id", a); ("title", b); ("messages", c); ("createdAt", d); ("updatedAt", e)] ++ t in
  obj_get "createdAt" props = Some d
  /\ obj_get "updatedAt" props = Some e
  /\ obj_get "messages" props = Some c.
Proof. repeat split. Qed.

Lemma conversation_props_set (a b c d e c' d' e' : jsval) t :
  obj_set "messages" c'
    (obj_set "updatedAt" e'
       (obj_set "createdAt" d'
          ([("id", a); ("title", b); ("messages", c); ("createdAt", d); ("updatedAt", e)]
           ++ t)))
  = [("id", a); ("title", b); ("messages", c'); ("createdAt", d'); ("updatedAt", e')] ++ t.
Proof. reflexivity. Qed.

Lemma written_conversation c :
  valid_dates c = true ->
  exists sc su,
    Date_parse sc = createdAt c /\ Date_parse su = updatedAt c
    /\ written (Conversation_to_js c)
       = JObj ([("id", JStr (conv_id c)); ("title", JStr (title c));
                ("messages", JArr (List.map written (List.map Message_to_js (messages c))));
                ("createdAt", JStr sc); ("updatedAt", JStr su)]
               ++ field "emotionalSummary" EmotionalSummary_to_js (emotionalSummary c)).
Proof.
  unfold valid_dates. intros H.
  apply andb_prop in H. destruct H as [H _]. apply andb_prop in H. destruct H as [Hc Hu].
  destruct (written_date _ Hc) as (sc & _ & Hwc & Hpc).
  destruct (written_date _ Hu) as (su & _ & Hwu & Hpu).
  exists sc, su. split; [exact Hpc | split; [exact Hpu|]].
  unfold Conversation_to_js. rewrite written_obj, written_props_app.
  rewrite !written_props_cons by (cbn; congruence).
  rewrite Hwc, Hwu, written_arr.
  rewrite (written_props_plain (field _ _ _))
    by (apply plain_field, plain_EmotionalSummary).
  reflexivity.
Qed.

(** Reading back a conversation that was written. *)
Lemma revive_written_conversation c :
  valid_dates c = true ->
  revive_conversation (written (Conversation_to_js c)) = Some (Conversation_to_js c).
Proof.
  intros Hv. destruct (written_conversation c Hv) as (sc & su & Hsc & Hsu & ->).
  unfold valid_dates in Hv. apply andb_prop in Hv. destruct Hv as [_ Hms].
  unfold revive_conversation, get_prop.
  match goal with
  | |- context [obj_get "createdAt" ([("id", ?a); ("title", ?b); ("messages", ?c);
                                      ("createdAt", ?d); ("updatedAt", ?e)] ++ ?t)] =>
      destruct (conversation_props_get a b c d e t) as (-> & -> & ->)
  end.
  cbn [from_option id mbind option_bind own_props newDate].
  rewrite revive_written_messages by exact Hms.
  cbn [mbind option_bind]. rewrite conversation_props_set, Hsc, Hsu. reflexivity.
Qed.

Lemma serialized_document cs :
  serialized cs
  = Document (JsonArr (List.map (fun v => default JsonNull (JSON_stringify v))
                         (List.map Conversation_to_js cs))).
Proof. reflexivity. Qed.

(** What [loadConversations] makes of what [saveConversations] wrote. *)
Lemma load_serialized cs held :
  forallb valid_dates cs = true ->
  loadConversations (serialized cs) held = List.map Conversation_to_js cs.
Proof.
  intros Hv. rewrite serialized_document. unfold loadConversations.
  cbn [JSON_parse]. rewrite List.map_map.
  change (fun x => JSON_parse (default JsonNull (JSON_stringify x))) with written.
  replace (mapM revive_conversation (List.map written (List.map Conversation_to_js cs)))
    with (Some (List.map Conversation_to_js cs)); [reflexivity|].
  symmetry. apply mapM_Some.
  induction cs as [|c cs IH]; cbn [List.map]; [constructor|].
  cbn [forallb] in Hv. apply andb_prop in Hv. destruct Hv as [Hc Hcs].
  constructor; [now apply revive_written_conversation | now apply IH].
Qed.

(** ** The typed reading of what was loaded *)

Lemma as_dict_number_dict d : as_dict as_num (number_dict d) = Some d.
Proof.
  unfold as_dict, number_dict. apply mapM_Some.
  induction d as [|[k q] d IH]; cbn [List.map]; constructor; [reflexivity | exact IH].
Qed.

Lemma as_dict_count_dict d : as_dict as_count (count_dict d) = Some d.
Proof.
  unfold as_dict, count_dict. apply mapM_Some.
  induction d as [|[k [n|s]] d IH]; cbn [List.map]; constructor;
    [|exact IH|reflexivity|exact IH].
  cbn [fst snd as_count tallied_to_js inject_Z Qden Qnum Pos.eqb andb].
  replace (0 <=? Z.of_nat n) with true by (symmetry; apply Z.leb_le; lia).
  cbn [mbind option_bind]. now rewrite Nat2Z.id.
Qed.

Lemma TopEmotion_of_to_js e : TopEmotion_of_js (TopEmotion_to_js e) = Some e.
Proof. now destruct e. Qed.

Lemma as_list_TopEmotions l :
  as_list TopEmotion_of_js (JArr (List.map TopEmotion_to_js l)) = Some l.
Proof.
  unfold as_list. apply mapM_Some.
  induction l as [|e l IH]; cbn [List.map]; constructor;
    [apply TopEmotion_of_to_js | exact IH].
Qed.

Lemma EmotionAnalysis_of_to_js e : EmotionAnalysis_of_js (EmotionAnalysis_to_js e) = Some e.
Proof.
  destruct e as [p es c cat i [t|]]; unfold EmotionAnalysis_to_js, EmotionAnalysis_of_js;
    cbn -[as_dict as_list number_dict]; rewrite as_dict_number_dict;
    cbn -[as_dict as_list number_dict]; rewrite ?as_list_TopEmotions; reflexivity.
Qed.

Lemma DetectedLanguageInfo_of_to_js i :
  DetectedLanguageInfo_of_js (DetectedLanguageInfo_to_js i) = Some i.
Proof.
  destruct i as [l c a]; unfold DetectedLanguageInfo_to_js, DetectedLanguageInfo_of_js;
    cbn -[as_dict number_dict]; now rewrite as_dict_number_dict.
Qed.

Lemma ProcessingResult_of_to_js r :
  ProcessingResult_of_js (ProcessingResult_to_js r) = Some r.
Proof.
  destruct r as [t ot tc l ln si s sc ss pt tp di sm e].
  unfold ProcessingResult_to_js, ProcessingResult_of_js.
  destruct ot, ln, si, tp, di, sm, e;
    cbn -[as_dict number_dict DetectedLanguageInfo_of_js DetectedLanguageInfo_to_js
          EmotionAnalysis_of_js EmotionAnalysis_to_js];
    rewrite as_dict_number_dict;
    cbn -[as_dict number_dict DetectedLanguageInfo_of_js DetectedLanguageInfo_to_js
          EmotionAnalysis_of_js EmotionAnalysis_to_js];
    rewrite ?DetectedLanguageInfo_of_to_js;
    cbn -[as_dict number_dict DetectedLanguageInfo_of_js DetectedLanguageInfo_to_js
          EmotionAnalysis_of_js EmotionAnalysis_to_js];
    rewrite ?EmotionAnalysis_of_to_js; reflexivity.
Qed.

Lemma Message_of_to_js m : Message_of_js (Message_to_js m) = Some m.
Proof.
  destruct m as [i t c ts a r ty].
  unfold Message_to_js, Message_of_js.
  destruct t, a, r, ty;
    cbn -[ProcessingResult_of_js ProcessingResult_to_js];
    rewrite ?ProcessingResult_of_to_js; reflexivity.
Qed.

Lemma EmotionalSummary_of_to_js s :
  EmotionalSummary_of_js (EmotionalSummary_to_js s) = Some s.
Proof.
  destruct s as [d a e]. unfold EmotionalSummary_to_js, EmotionalSummary_of_js.
  cbn -[as_dict count_dict]. now rewrite as_dict_count_dict.
Qed.

Lemma as_list_Messages ms :
  as_list Message_of_js (JArr (List.map Message_to_js ms)) = Some ms.
Proof.
  unfold as_list. apply mapM_Some.
  induction ms as [|m ms IH]; cbn [List.map]; constructor;
    [apply Message_of_to_js | exact IH].
Qed.

(** Reading a conversation back from its JavaScript value gives the
    conversation: the values of two conversations are equal only when
    the conversations are. *)
Lemma Conversation_of_to_js c : Conversation_of_js (Conversation_to_js c) = Some c.
Proof.
  destruct c as [i t ms cr up s].
  unfold Conversation_to_js, Conversation_of_js.
  destruct s;
    cbn -[as_list Message_of_js Message_to_js EmotionalSummary_of_js EmotionalSummary_to_js];
    rewrite as_list_Messages;
    cbn -[as_list Message_of_js Message_to_js EmotionalSummary_of_js EmotionalSummary_to_js];
    rewrite ?EmotionalSummary_of_to_js; reflexivity.
Qed.

Lemma Conversations_of_to_js cs :
  mapM Conversation_of_js (List.map Conversation_to_js cs) = Some cs.
Proof.
  apply mapM_Some.
  induction cs as [|c cs IH]; cbn [List.map]; constructor;
    [apply Conversation_of_to_js | exact IH].
Qed.

(** Without the hypothesis on the dates the round trip fails: the invalid
    date is written as [null], which [new Date] reads as the epoch. *)
Remark invalid_date_reloads_as_epoch : newDate (written (JDate InvalidDate)) = TimeValue 0.
Proof. reflexivity. Qed.

(** And a refused write stores nothing. *)
Remark saveConversations_refused m :
  quotaExceeded (localStorage m) = true -> saveConversations m = m.
Proof. intros H. unfold saveConversations, setItem. now rewrite H. Qed.

(** C1. [save()] then [load()] yields the list the manager held: when
    the store accepts the write and the date fields denote instants,
    what [loadConversations] builds from what [saveConversations] wrote
    is, value for value, the list of conversations that was saved, and
    read as conversations it is that list.  Every field is the same,
    [audioUrl] and [isTyping] included, and every [createdAt],
    [updatedAt] and message [timestamp] is a date again, of the same
    time value. *)
Theorem save_then_load m held :
  quotaExceeded (localStorage m) = false ->
  forallb valid_dates (conversations m) = true ->
  loadConversations (getItem (localStorage (saveConversations m))) held
  = List.map Conversation_to_js (conversations m)
  /\ mapM Conversation_of_js
       (loadConversations (getItem (localStorage (saveConversations m))) held)
     = Some (conversations m).
Proof.
  intros Hq Hv.
  assert (H : loadConversations (getItem (localStorage (saveConversations m))) held
              = List.map Conversation_to_js (conversations m)).
  { unfold saveConversations, setItem. rewrite Hq.
    cbn [localStorage set_localStorage getItem]. now apply load_serialized. }
  split; [exact H|]. rewrite H. apply Conversations_of_to_js.
Qed.

Lemma save_then_load_witness :
  loadConversations (getItem (localStorage (saveConversations happySadHappy))) []
  = List.map Conversation_to_js (conversations happySadHappy)
  /\ mapM Conversation_of_js
       (loadConversations (getItem (localStorage (saveConversations happySadHappy))) [])
     = Some (conversations happySadHappy).
Proof.
  apply save_then_load; reflexivity.
Defined.

(** ** More on the conversation store *)

Lemma find_filter_implied {A : Type} (p q : A -> bool) l :
  (forall x, p x = true -> q x = true) ->
  List.find p (List.filter q l) = List.find p l.
Proof.
  intros H. induction l as [|x l IH]; [reflexivity|].
  cbn [List.filter List.find].
  destruct (p x) eqn:Ep.
  - rewrite (H x Ep). cbn [List.find]. now rewrite Ep.
  - destruct (q x); [cbn [List.find]; rewrite Ep|]; exact IH.
Qed.

Lemma filter_idempotent {A : Type} (q : A -> bool) l :
  List.filter q (List.filter q l) = List.filter q l.
Proof.
  induction l as [|x l IH]; [reflexivity|].
  cbn [List.filter]. destruct (q x) eqn:E; [|exact IH].
  cbn [List.filter]. rewrite E. now f_equal.
Qed.

(** [createConversation] makes the conversation it returns the current
    one, whatever the list held, and puts it first; the conversation
    starts without messages and without a summary. *)
Theorem createConversation_is_current t id localeDate created updated m :
  id <> "" ->
  let conversation := fst (createConversation t id localeDate created updated m) in
  let m' := snd (createConversation t id localeDate created updated m) in
  getCurrentConversation m' = Some conversation
  /\ getConversations m' = conversation :: getConversations m
  /\ conv_id conversation = id
  /\ messages conversation = []
  /\ emotionalSummary conversation = None
  /\ title conversation <> "".
Proof.
  intros Hid. cbv zeta. unfold createConversation. cbn [fst snd].
  rewrite getCurrentConversation_save. unfold getConversations.
  rewrite saveConversations_conversations.
  unfold getCurrentConversation.
  cbn [currentConversationId set_currentConversationId set_conversations conversations
       conv_id messages emotionalSummary title List.find].
  apply String.eqb_neq in Hid. rewrite Hid, String.eqb_refl.
  repeat split.
  destruct t as [t|]; [destruct (String.eqb t "") eqn:E|]; try discriminate.
  now apply String.eqb_neq.
Qed.

Lemma createConversation_is_current_witness :
  getCurrentConversation twoConversations
  = Some (fst (createConversation (Some "Second") "c2" "11/3/2026" (clock 2) (clock 2)
                 (snd (addMessage (textMessage user "good morning") "m1" (clock 1) (clock 1)
                         oneConversation)))).
Proof.
  refine (proj1 (createConversation_is_current (Some "Second") "c2" "11/3/2026"
                   (clock 2) (clock 2)
                   (snd (addMessage (textMessage user "good morning") "m1" (clock 1) (clock 1)
                           oneConversation)) _)).
  discriminate.
Defined.

(** [deleteConversation(id)] removes the conversations of that id and no
    other one, leaves a current conversation of another id current, and
    deleting twice is deleting once. *)
Theorem deleteConversation_keeps_others id m :
  (forall c, In c (conversations (deleteConversation id m))
             <-> In c (conversations m) /\ conv_id c <> id)
  /\ (currentConversationId m <> Some id ->
      getCurrentConversation (deleteConversation id m) = getCurrentConversation m)
  /\ deleteConversation id (deleteConversation id m) = deleteConversation id m.
Proof.
  split; [|split].
  - intros c. unfold deleteConversation.
    rewrite saveConversations_conversations.
    assert (H : forall m0 : ConversationManager,
               conversations
                 (match currentConversationId m0 with
                  | Some cur =>
                      if String.eqb cur id then set_currentConversationId None m0 else m0
                  | None => m0
                  end) = conversations m0).
    { intros m0. destruct (currentConversationId m0) as [cur|]; [|reflexivity].
      now destruct (String.eqb cur id). }
    rewrite H. cbn [conversations set_conversations].
    rewrite filter_In, negb_true_iff, String.eqb_neq. reflexivity.
  - intros Hcur. unfold deleteConversation.
    rewrite getCurrentConversation_save. cbv zeta.
    cbn [currentConversationId set_conversations].
    destruct (currentConversationId m) as [cur|] eqn:E;
      unfold getCurrentConversation;
      cbn [currentConversationId set_conversations conversations]; rewrite E;
      [|reflexivity].
    destruct (String.eqb cur id) eqn:Eid.
    { apply String.eqb_eq in Eid. congruence. }
    cbn [currentConversationId set_conversations conversations]. rewrite E.
    destruct (String.eqb cur ""); [reflexivity|].
    apply find_filter_implied. intros x Hx.
    apply String.eqb_eq in Hx. rewrite Hx, Eid. reflexivity.
  - destruct m as [cs cur [it q]].
    unfold deleteConversation, saveConversations, setItem.
    cbn [conversations currentConversationId localStorage set_conversations
         set_currentConversationId set_localStorage quotaExceeded getItem].
    destruct cur as [cur|]; [destruct (String.eqb cur id) eqn:Eid|]; destruct q;
      cbn [conversations currentConversationId localStorage set_conversations
           set_currentConversationId set_localStorage quotaExceeded getItem];
      rewrite ?Eid, ?filter_idempotent;
      cbn [conversations currentConversationId localStorage set_conversations
           set_currentConversationId set_localStorage quotaExceeded getItem];
      reflexivity.
Qed.

Lemma deleteConversation_keeps_others_witness :
  getCurrentConversation (deleteConversation "c1" twoConversations)
  = getCurrentConversation twoConversations.
Proof.
  refine (proj1 (proj2 (deleteConversation_keeps_others "c1" twoConversations)) _).
  discriminate.
Defined.

Lemma findIndex_first messageId ms i :
  findIndex messageId ms = Some i ->
  (exists old, ms !! i = Some old /\ msg_id old = messageId)
  /\ forall j old, (j < i)%nat -> ms !! j = Some old -> msg_id old <> messageId.
Proof.
  revert i. induction ms as [|x ms IH]; intros i; cbn [findIndex]; [discriminate|].
  destruct (String.eqb (msg_id x) messageId) eqn:E.
  - intros [= <-]. split.
    + exists x. split; [reflexivity | now apply String.eqb_eq].
    + intros j old Hj. lia.
  - destruct (findIndex messageId ms) as [i'|]; [|discriminate].
    cbn [fmap option_fmap option_map]. intros [= <-].
    destruct (IH i' eq_refl) as [Hex Hbefore]. split; [exact Hex|].
    intros [|j] old Hj Hold.
    + cbn in Hold. injection Hold as <-. now apply String.eqb_neq.
    + apply (Hbefore j old); [lia | exact Hold].
Qed.

(** [updateMessage(id, updates)] with an id the current conversation
    holds changes the first message of that id and no other: it is
    merged with the updates in its place, the conversation keeps its
    other messages, its id, title, creation date and emotional summary,
    and its [updatedAt] is the new reading of the clock. *)
Theorem updateMessage_changes_first_match messageId updates updated m c i :
  getCurrentConversation m = Some c ->
  findIndex messageId (messages c) = Some i ->
  exists c',
    getCurrentConversation (updateMessage messageId updates updated m) = Some c'
    /\ conv_id c' = conv_id c /\ title c' = title c /\ createdAt c' = createdAt c
    /\ emotionalSummary c' = emotionalSummary c
    /\ updatedAt c' = updated
    /\ length (messages c') = length (messages c)
    /\ messages c' !! i = (fun old => merge old updates) <$> messages c !! i
    /\ (forall j, j <> i -> messages c' !! j = messages c !! j)
    /\ (forall j old, (j < i)%nat -> messages c !! j = Some old -> msg_id old <> messageId).
Proof.
  intros Hc Hi. unfold updateMessage. rewrite Hc, Hi.
  eexists. split.
  - rewrite getCurrentConversation_save.
    apply getCurrentConversation_mutate with (c := c); [exact Hc | reflexivity].
  - cbn [conv_id title createdAt emotionalSummary updatedAt messages
         set_updatedAt set_messages].
    repeat split.
    + apply length_alter.
    + rewrite list_lookup_alter. now destruct (decide (i = i)).
    + intros j Hj. apply list_lookup_alter_ne. congruence.
    + apply (findIndex_first _ _ _ Hi).
Qed.

Lemma updateMessage_changes_first_match_witness :
  exists c',
    getCurrentConversation
      (updateMessage "m2" typingDone (clock 9) happySadHappy) = Some c'
    /\ updatedAt c' = clock 9
    /\ (isTyping <$> messages c' !! 1%nat) = Some (Some false)
    /\ messages c' !! 0%nat = messages (currentOf happySadHappy) !! 0%nat.
Proof.
  destruct (updateMessage_changes_first_match "m2" typingDone (clock 9) happySadHappy
              (currentOf happySadHappy) 1%nat)
    as (c' & Hc & _ & _ & _ & _ & Hu & _ & Hm & Ho & _).
  - vm_compute. reflexivity.
  - vm_compute. reflexivity.
  - exists c'. split; [exact Hc | split; [exact Hu | split]].
    + rewrite Hm. vm_compute. reflexivity.
    + apply Ho. discriminate.
Defined.

(** *** Memory and store *)

Lemma saveConversations_in_sync m :
  quotaExceeded (localStorage m) = false ->
  in_sync (saveConversations m)
  /\ quotaExceeded (localStorage (saveConversations m)) = false.
Proof.
  intros Hq. unfold in_sync, saveConversations, setItem. rewrite Hq.
  cbn [localStorage set_localStorage getItem conversations quotaExceeded].
  split; reflexivity.
Qed.

Lemma mutate_current_localStorage c m :
  localStorage (mutate_current c m) = localStorage m.
Proof. unfold mutate_current. now destruct (currentConversationId m). Qed.

Lemma delete_pointer_localStorage id (m : ConversationManager) :
  localStorage
    (match currentConversationId m with
     | Some cur => if String.eqb cur id then set_currentConversationId None m else m
     | None => m
     end) = localStorage m.
Proof.
  destruct (currentConversationId m) as [cur|]; [|reflexivity].
  now destruct (String.eqb cur id).
Qed.

(** What a call leaves: either it saved, or it touched neither the
    list nor the store. *)
Lemma perform_saves_or_skips k m :
  (exists m0, perform k m = saveConversations m0 /\ localStorage m0 = localStorage m)
  \/ (conversations (perform k m) = conversations m
      /\ localStorage (perform k m) = localStorage m).
Proof.
  destruct k as [t id l cr up | id | msg id s u | id upd u | id]; cbn [perform].
  - left. unfold createConversation. cbn [snd]. eexists. split; [reflexivity|].
    reflexivity.
  - right. split; reflexivity.
  - unfold addMessage. destruct (getCurrentConversation m) as [c|].
    + left. cbn [snd]. eexists. split; [reflexivity|]. apply mutate_current_localStorage.
    + right. split; reflexivity.
  - unfold updateMessage. destruct (getCurrentConversation m) as [c|].
    + destruct (findIndex id (messages c)) as [i|].
      * left. eexists. split; [reflexivity|]. apply mutate_current_localStorage.
      * right. split; reflexivity.
    + right. split; reflexivity.
  - left. unfold deleteConversation. eexists. split; [reflexivity|].
    cbv zeta. rewrite delete_pointer_localStorage. reflexivity.
Qed.

(** While the store accepts writes, memory never runs ahead of it: after
    any calls, either the list and the store are as they were, or the
    store holds the text of the list the manager holds now. *)
Theorem store_follows_memory calls : forall m,
  quotaExceeded (localStorage m) = false ->
  (conversations (run calls m) = conversations m
   /\ localStorage (run calls m) = localStorage m)
  \/ in_sync (run calls m).
Proof.
  assert (Hsync : forall calls m,
             quotaExceeded (localStorage m) = false -> in_sync m ->
             in_sync (run calls m)).
  { clear calls. induction calls as [|k calls IH]; intros m Hq Hs; [exact Hs|].
    unfold run. cbn [fold_left]. apply IH.
    - destruct (perform_saves_or_skips k m) as [(m0 & -> & H0) | [_ Hl]].
      + apply saveConversations_in_sync. congruence.
      + congruence.
    - destruct (perform_saves_or_skips k m) as [(m0 & -> & H0) | [Hc Hl]].
      + apply saveConversations_in_sync. congruence.
      + unfold in_sync in *. congruence. }
  induction calls as [|k calls IH]; intros m Hq; [left; split; reflexivity|].
  unfold run. cbn [fold_left].
  destruct (perform_saves_or_skips k m) as [(m0 & E & H0) | [Hc Hl]].
  - right. rewrite E. apply Hsync.
    + apply saveConversations_in_sync. congruence.
    + apply saveConversations_in_sync. congruence.
  - destruct (IH (perform k m)) as [[Hc' Hl'] | Hs]; [congruence | |].
    + left. unfold run in *. split; congruence.
    + right. exact Hs.
Qed.

Lemma store_follows_memory_witness : in_sync oneConversation.
Proof.
  destruct (store_follows_memory
              [CreateConversation None "c1" "11/3/2026" (clock 0) (clock 0)]
              freshManager eq_refl) as [[Hc _] | Hs].
  - discriminate Hc.
  - exact Hs.
Defined.

(** A store that refuses writes is never changed, while the calls go
    on as if nothing had happened: [addMessage] still returns the
    message and the list in memory still grows. *)
Theorem full_store_is_silent calls : forall m,
  quotaExceeded (localStorage m) = true ->
  localStorage (run calls m) = localStorage m
  /\ forall message id sent updated c,
       getCurrentConversation (run calls m) = Some c ->
       exists newMessage c',
         fst (addMessage message id sent updated (run calls m)) = Returns newMessage
         /\ getCurrentConversation (snd (addMessage message id sent updated (run calls m)))
            = Some c'
         /\ messages c' = messages c ++ [newMessage].
Proof.
  assert (Hstore : forall calls m,
             quotaExceeded (localStorage m) = true ->
             localStorage (run calls m) = localStorage m).
  { clear calls. induction calls as [|k calls IH]; intros m Hq; [reflexivity|].
    unfold run. cbn [fold_left].
    assert (Hk : localStorage (perform k m) = localStorage m).
    { destruct (perform_saves_or_skips k m) as [(m0 & -> & H0) | [_ Hl]]; [|exact Hl].
      unfold saveConversations, setItem. rewrite H0, Hq. exact H0. }
    transitivity (localStorage (perform k m)); [|exact Hk].
    apply IH. congruence. }
  intros m Hq. split; [now apply Hstore|].
  intros message id sent updated c Hc.
  destruct (addMessage_current _ c message id sent updated Hc) as (c' & Hc' & _ & Hm & _).
  eexists. exists c'. split; [|split; [exact Hc' | exact Hm]].
  unfold addMessage. rewrite Hc. reflexivity.
Qed.

Lemma full_store_is_silent_witness :
  localStorage
    (run [CreateConversation None "c1" "11/3/2026" (clock 0) (clock 0);
          AddMessage (textMessage user "good morning") "m1" (clock 1) (clock 1)]
       {| conversations := []; currentConversationId := None;
          localStorage := {| getItem := Absent; quotaExceeded := true |} |})
  = {| getItem := Absent; quotaExceeded := true |}.
Proof.
  refine (proj1 (full_store_is_silent
                   [CreateConversation None "c1" "11/3/2026" (clock 0) (clock 0);
                    AddMessage (textMessage user "good morning") "m1" (clock 1) (clock 1)]
                   {| conversations := []; currentConversationId := None;
                      localStorage := {| getItem := Absent; quotaExceeded := true |} |}
                   eq_refl)).
Defined.

(** A manager constructed over a store that is in step with another
    manager holds the same conversations but no current one: the
    selection does not survive a reload, and [addMessage] throws until a
    conversation is created or selected. *)
Theorem reload_forgets_selection m :
  in_sync m ->
  forallb valid_dates (conversations m) = true ->
  exists m',
    newConversationManager (localStorage m) = Some m'
    /\ getConversations m' = getConversations m
    /\ getCurrentConversation m' = None
    /\ forall message id sent updated,
         addMessage message id sent updated m' = (Throws "No active conversation", m').
Proof.
  intros Hs Hv. unfold newConversationManager. rewrite Hs.
  rewrite (load_serialized _ _ Hv), Conversations_of_to_js.
  cbn [mbind option_bind]. eexists. split; [reflexivity|].
  split; [reflexivity|]. split; [reflexivity|].
  intros message id sent updated. reflexivity.
Qed.

Lemma reload_forgets_selection_witness :
  exists m',
    newConversationManager (localStorage happySadHappy) = Some m'
    /\ getConversations m' = getConversations happySadHappy
    /\ getCurrentConversation m' = None.
Proof.
  destruct (reload_forgets_selection happySadHappy) as (m' & H1 & H2 & H3 & _).
  - vm_compute. reflexivity.
  - vm_compute. reflexivity.
  - exists m'. split; [exact H1 | split; [exact H2 | exact H3]].
Defined.

(** *** Only the current conversation is touched *)

Lemma mutate_first_lookup (p : Conversation -> bool) c' cs :
  length (mutate_first p c' cs) = length cs
  /\ forall i c0, cs !! i = Some c0 -> p c0 = false ->
       mutate_first p c' cs !! i = Some c0.
Proof.
  induction cs as [|x cs [IHl IHg]]; [split; [reflexivity | intros i c0 H; discriminate]|].
  cbn [mutate_first]. destruct (p x) eqn:E.
  - split; [reflexivity|]. intros [|i] c0 H Hp; cbn in H |- *.
    + injection H as <-. congruence.
    + exact H.
  - split; [cbn [length]; now f_equal|]. intros [|i] c0 H Hp; cbn in H |- *.
    + exact H.
    + now apply IHg.
Qed.

Lemma mutate_current_lookup c c' m :
  getCurrentConversation m = Some c ->
  length (conversations (mutate_current c' m)) = length (conversations m)
  /\ forall i c0, conversations m !! i = Some c0 -> conv_id c0 <> conv_id c ->
       conversations (mutate_current c' m) !! i = Some c0.
Proof.
  intros Hc. destruct (getCurrentConversation_some _ _ Hc) as (id & Hcur & Hid & _).
  unfold mutate_current. rewrite Hcur. cbn [conversations set_conversations].
  destruct (mutate_first_lookup (fun c => String.eqb (conv_id c) id) c' (conversations m))
    as [Hl Hg].
  split; [exact Hl|]. intros i c0 Hi Hne. apply Hg; [exact Hi|].
  apply String.eqb_neq. congruence.
Qed.

(** [addMessage] and [updateMessage] touch the current conversation
    only: the list keeps its length and its order, and every
    conversation of another id is after the call what it was before, at
    the place it had. *)
Theorem messages_touch_current_only m c :
  getCurrentConversation m = Some c ->
  forall m',
    (exists message id sent updated, m' = snd (addMessage message id sent updated m))
    \/ (exists messageId updates updated, m' = updateMessage messageId updates updated m) ->
    length (getConversations m') = length (getConversations m)
    /\ forall i c0, getConversations m !! i = Some c0 -> conv_id c0 <> conv_id c ->
         getConversations m' !! i = Some c0.
Proof.
  intros Hc m' [(message & id & sent & updated & ->) | (messageId & updates & updated & ->)];
    unfold getConversations.
  - unfold addMessage. rewrite Hc. cbn [snd].
    rewrite saveConversations_conversations. now apply mutate_current_lookup.
  - unfold updateMessage. rewrite Hc.
    destruct (findIndex messageId (messages c)); [|now split].
    rewrite saveConversations_conversations. now apply mutate_current_lookup.
Qed.

Lemma messages_touch_current_only_witness :
  getConversations
    (snd (addMessage (textMessage user "and now?") "m2" (clock 3) (clock 3)
            twoConversations)) !! 1%nat
  = getConversations twoConversations !! 1%nat.
Proof.
  destruct (messages_touch_current_only twoConversations (currentOf twoConversations))
    with (m' := snd (addMessage (textMessage user "and now?") "m2" (clock 3) (clock 3)
                       twoConversations))
    as [_ Hother].
  - vm_compute. reflexivity.
  - left. now eexists _, _, _, _.
  - destruct (getConversations twoConversations !! 1%nat) as [c0|] eqn:E.
    + apply (Hother 1%nat c0 E). vm_compute in E. injection E as <-. discriminate.
    + vm_compute in E. discriminate.
Defined.

(** ** Titles, histories and exports *)

Lemma split_space_cons s : exists w ws, split_space s = w :: ws.
Proof.
  induction s as [|c s (w & ws & IH)]; cbn [split_space]; [now eexists _, _|].
  destruct (Ascii.eqb c " "); [now eexists _, _|]. rewrite IH. now eexists _, _.
Qed.

Lemma concat_cons sep w ws :
  ws <> [] -> String.concat sep (w :: ws) = w +:+ sep +:+ String.concat sep ws.
Proof. destruct ws; [congruence | reflexivity]. Qed.

(** Joining what [split(' ')] gave restores the string. *)
Lemma concat_split_space s : String.concat " " (split_space s) = s.
Proof.
  induction s as [|c s IH]; [reflexivity|].
  cbn [split_space]. destruct (split_space_cons s) as (w & ws & E).
  destruct (Ascii.eqb_spec c " ") as [->|Hc].
  - rewrite concat_cons by (rewrite E; discriminate). now rewrite IH.
  - rewrite E in *. destruct ws as [|w' ws].
    + cbn [String.concat] in *. now subst w.
    + rewrite concat_cons by discriminate. rewrite concat_cons in IH by discriminate.
      rewrite <- IH. reflexivity.
Qed.

Lemma split_space_no_space s : forallb no_space (split_space s) = true.
Proof.
  induction s as [|c s IH]; [reflexivity|].
  cbn [split_space]. destruct (Ascii.eqb c " ") eqn:Ec.
  - cbn [forallb no_space]. exact IH.
  - destruct (split_space s) as [|w ws]; cbn [forallb no_space] in *.
    + now rewrite Ec.
    + now rewrite Ec.
Qed.

Lemma split_space_app_word w s :
  no_space w = true -> split_space (w +:+ " " +:+ s) = w :: split_space s.
Proof.
  induction w as [|c w IH]; intros Hw.
  - reflexivity.
  - cbn [no_space] in Hw. apply andb_prop in Hw. destruct Hw as [Hc Hw].
    apply negb_true_iff in Hc.
    change (String c w +:+ " " +:+ s) with (String c (w +:+ " " +:+ s)).
    cbn [split_space]. rewrite Hc, (IH Hw). reflexivity.
Qed.

Lemma split_space_word w : no_space w = true -> split_space w = [w].
Proof.
  induction w as [|c w IH]; intros Hw; [reflexivity|].
  cbn [no_space] in Hw. apply andb_prop in Hw. destruct Hw as [Hc Hw].
  apply negb_true_iff in Hc. cbn [split_space]. rewrite Hc, (IH Hw). reflexivity.
Qed.

(** Splitting what was joined from words without a space restores the
    words. *)
Lemma split_space_concat ws :
  ws <> [] -> forallb no_space ws = true -> split_space (String.concat " " ws) = ws.
Proof.
  induction ws as [|w ws IH]; [congruence|]. intros _ Hws.
  cbn [forallb] in Hws. apply andb_prop in Hws. destruct Hws as [Hw Hws].
  destruct ws as [|w' ws].
  - cbn [String.concat]. now apply split_space_word.
  - rewrite concat_cons by discriminate.
    rewrite split_space_app_word by exact Hw.
    f_equal. apply IH; [discriminate | exact Hws].
Qed.

Lemma append_assoc (a b c : string) : (a +:+ b) +:+ c = a +:+ (b +:+ c).
Proof.
  induction a as [|x a IH]; [reflexivity|].
  change (String x ((a +:+ b) +:+ c) = String x (a +:+ b +:+ c)). now rewrite IH.
Qed.

Lemma concat_take_drop (n : nat) ws :
  (0 < n)%nat -> (n < length ws)%nat ->
  String.concat " " ws
  = String.concat " " (take n ws) +:+ " " +:+ String.concat " " (drop n ws).
Proof.
  revert n. induction ws as [|w ws IH]; intros n Hn Hlen; cbn [length] in Hlen; [lia|].
  destruct n as [|n]; [lia|]. cbn [take drop].
  destruct ws as [|w' ws]; [cbn [length] in Hlen; lia|].
  destruct n as [|n].
  - cbn [take drop]. reflexivity.
  - rewrite concat_cons by discriminate.
    rewrite (IH (S n)) by (cbn [length] in *; lia).
    rewrite concat_cons by (cbn [take]; discriminate).
    now rewrite !append_assoc.
Qed.

Lemma forallb_take {A : Type} (p : A -> bool) (n : nat) l :
  forallb p l = true -> forallb p (take n l) = true.
Proof.
  revert n. induction l as [|x l IH]; intros [|n] H; try reflexivity.
  cbn [take forallb] in *. apply andb_prop in H. destruct H as [-> H]. now apply IH.
Qed.

(** The title [generateTitle] gives a text is the text itself when it has
    at most six words (the pieces between single spaces); otherwise it
    is the text cut before the space that follows its sixth word, with
    three dots added. *)
Theorem generateTitle_keeps_or_cuts content :
  ((length (split_space content) <= 6)%nat -> generateTitle content = content)
  /\ ((6 < length (split_space content))%nat ->
      exists head rest,
        content = head +:+ " " +:+ rest
        /\ split_space head = take 6 (split_space content)
        /\ generateTitle content = head +:+ "...").
Proof.
  unfold generateTitle. split; intros Hlen.
  - replace (6 <? length (split_space content))%nat with false
      by (symmetry; apply Nat.ltb_ge; lia).
    rewrite take_ge by lia. rewrite concat_split_space.
    apply append_empty_r.
  - replace (6 <? length (split_space content))%nat with true
      by (symmetry; apply Nat.ltb_lt; lia).
    exists (String.concat " " (take 6 (split_space content))),
           (String.concat " " (drop 6 (split_space content))).
    split; [|split; [|reflexivity]].
    + rewrite <- concat_take_drop by lia. symmetry. apply concat_split_space.
    + apply split_space_concat.
      * destruct (split_space content); [cbn [length] in Hlen; lia | discriminate].
      * apply forallb_take, split_space_no_space.
Qed.

Lemma generateTitle_keeps_or_cuts_witness :
  generateTitle "I feel much better" = "I feel much better"
  /\ exists head rest,
       "I slept badly and woke up far too early" = head +:+ " " +:+ rest
       /\ split_space head = ["I"; "slept"; "badly"; "and"; "woke"; "up"]
       /\ generateTitle "I slept badly and woke up far too early" = head +:+ "...".
Proof.
  split.
  - apply (proj1 (generateTitle_keeps_or_cuts "I feel much better")).
    vm_compute. lia.
  - apply (proj2 (generateTitle_keeps_or_cuts "I slept badly and woke up far too early")).
    vm_compute. lia.
Defined.

(** *** [getConversationHistory] *)

(** Over calls of [addMessage] the history of the current conversation
    grows by one entry a call, in call order: the content of the
    message, under the role [user] for a user message and [assistant]
    for a message of the assistant. *)
Theorem history_follows_addMessage calls : forall m c,
  forallb is_AddMessage calls = true ->
  getCurrentConversation m = Some c ->
  getConversationHistory None (run calls m)
  = getConversationHistory None m ++ List.map history_entry (appended calls).
Proof.
  induction calls as [|k calls IH]; intros m c Hk Hc.
  - cbn [appended List.map]. now rewrite app_nil_r.
  - cbn [forallb] in Hk. apply andb_prop in Hk. destruct Hk as [Hk1 Hk].
    destruct k; try discriminate.
    unfold run. cbn [fold_left perform].
    destruct (addMessage_current m c message id sent updated Hc)
      as (c1 & Hc1 & _ & Hm1 & _).
    fold (run calls (snd (addMessage message id sent updated m))).
    rewrite (IH _ c1 Hk Hc1). unfold getConversationHistory.
    rewrite Hc1, Hc, Hm1. rewrite List.map_app, <- app_assoc. reflexivity.
Qed.

Lemma history_follows_addMessage_witness :
  getConversationHistory None happySadHappy
  = [{| role := roleUser; history_content := "hello" |};
     {| role := roleAssistant; history_content := "I see." |};
     {| role := roleUser; history_content := "hello" |};
     {| role := roleUser; history_content := "hello" |}].
Proof.
  refine (history_follows_addMessage
            [AddMessage (spoken "neutral" (1 # 2) (Some "happy")) "m1" (clock 1) (clock 1);
             AddMessage (textMessage ai "I see.") "m2" (clock 2) (clock 2);
             AddMessage (spoken "neutral" (1 # 2) (Some "sad")) "m3" (clock 3) (clock 3);
             AddMessage (spoken "neutral" (1 # 2) (Some "happy")) "m4" (clock 4) (clock 4)]
            oneConversation
            {| conv_id := "c1"; title := "Conversation 11/3/2026"; messages := [];
               createdAt := clock 0; updatedAt := clock 0; emotionalSummary := None |}
            eq_refl eq_refl).
Defined.

(** Which conversation [getConversationHistory] reads: without an id, or
    with the empty one, the current conversation; with the id of the
    current conversation, the current conversation as well; with an id
    that no conversation has, none, and the history is empty. *)
Theorem getConversationHistory_selects m :
  getConversationHistory (Some "") m = getConversationHistory None m
  /\ (forall id, currentConversationId m = Some id ->
        getConversationHistory (Some id) m = getConversationHistory None m)
  /\ (forall id, id <> "" -> (forall c, In c (conversations m) -> conv_id c <> id) ->
        getConversationHistory (Some id) m = [])
  /\ (getCurrentConversation m = None -> getConversationHistory None m = []).
Proof.
  split; [reflexivity|]. split; [|split].
  - intros id Hid. unfold getConversationHistory, getCurrentConversation.
    rewrite Hid. now destruct (String.eqb id "").
  - intros id Hne Hall. unfold getConversationHistory.
    apply String.eqb_neq in Hne. rewrite Hne.
    replace (List.find _ _) with (@None Conversation); [reflexivity|].
    symmetry. apply find_none_iff. intros c Hc. apply String.eqb_neq. now apply Hall.
  - intros H. unfold getConversationHistory. now rewrite H.
Qed.

Lemma getConversationHistory_selects_witness :
  getConversationHistory (Some "c2") twoConversations
  = getConversationHistory None twoConversations
  /\ getConversationHistory (Some "c9") twoConversations = [].
Proof.
  destruct (getConversationHistory_selects twoConversations) as (_ & Hcur & Hnone & _).
  split.
  - apply Hcur. vm_compute. reflexivity.
  - apply Hnone; [discriminate|].
    intros c Hc. vm_compute in Hc. destruct Hc as [<- | [<- | []]]; discriminate.
Defined.

(** *** [exportConversation] *)

(** The export of an id that no conversation has is the empty string.
    Otherwise it is a document of the title, the creation date and one
    entry a message, in order; an entry holds the type, the content and
    the timestamp of its message, the primary emotion when the message
    carries an emotion analysis, the sentiment label when it carries a
    processing result, and nothing else: no id, no audio URL, no
    score. *)
Theorem exportConversation_contents id m :
  (List.find (fun c => String.eqb (conv_id c) id) (conversations m) = None ->
   exportConversation id m = None)
  /\ forall c,
       List.find (fun c => String.eqb (conv_id c) id) (conversations m) = Some c ->
       exists created entries,
         exportConversation id m
         = Some (JsonObj [("title", JsonStr (title c)); ("createdAt", created);
                          ("messages", JsonArr entries)])
         /\ length entries = length (messages c)
         /\ forall i msg, messages c !! i = Some msg ->
              exists members,
                entries !! i = Some (JsonObj members)
                /\ obj_get "type" members = JSON_stringify (MessageType_to_js (type msg))
                /\ obj_get "content" members = Some (JsonStr (content msg))
                /\ obj_get "timestamp" members = JSON_stringify (JDate (timestamp msg))
                /\ obj_get "emotions" members = JsonStr <$> emotion_of msg
                /\ obj_get "sentiment" members
                   = (fun r => JsonStr (sentiment r)) <$> processingResult msg
                /\ forall k, In k (Object_keys members) ->
                     In k ["type"; "content"; "timestamp"; "emotions"; "sentiment"].
Proof.
  unfold exportConversation. split; [now intros ->|]. intros c ->.
  unfold exportData. cbn [JSON_stringify List.flat_map List.map fst snd app].
  eexists _, _. split; [reflexivity|]. split.
  - now rewrite !length_map.
  - intros i msg Hi. rewrite List.map_map.
    change (List.map ?f ?l) with (f <$> l). rewrite list_lookup_fmap, Hi.
    cbn [fmap option_fmap option_map]. unfold export_message, emotion_of.
    destruct (processingResult msg) as [r|]; [destruct (emotions r) as [e|]|];
      cbn [JSON_stringify List.flat_map List.map fst snd app from_option
           fmap option_fmap option_map];
      (eexists; split; [reflexivity|]);
      (repeat split; try reflexivity);
      intros k Hk; cbn in Hk |- *; tauto.
Qed.

Lemma exportConversation_contents_witness :
  exportConversation "c9" twoConversations = None
  /\ exists created entries,
       exportConversation "c1" twoConversations
       = Some (JsonObj [("title", JsonStr "good morning"); ("createdAt", created);
                        ("messages", JsonArr entries)])
       /\ length entries = 1%nat.
Proof.
  split.
  - apply (proj1 (exportConversation_contents "c9" twoConversations)).
    vm_compute. reflexivity.
  - destruct (proj2 (exportConversation_contents "c1" twoConversations)
                {| conv_id := "c1"; title := "good morning";
                   messages := [{| msg_id := "m1"; type := user; content := "good morning";
                                   timestamp := clock 1; audioUrl := None;
                                   processingResult := None; isTyping := None |}];
                   createdAt := clock 0; updatedAt := clock 1;
                   emotionalSummary := None |})
      as (created & entries & He & Hl & _).
    + vm_compute. reflexivity.
    + exists created, entries. split; [exact He | exact Hl].
Defined.

(** *** The name of the downloaded export *)

Lemma lowered_name_safe c :
  name_safe (toLowerCase_ascii (if is_alnum c then c else "_"%char)) = true.
Proof. destruct c as [[] [] [] [] [] [] [] []]; reflexivity. Qed.

(** The file name [handleExport] gives the export of a conversation is
    [conversation-], then one character for every character of the
    title, each a lower-case ASCII letter, a digit or an underscore,
    then [.json]. *)
Theorem downloadName_safe t :
  exists body,
    downloadName t = "conversation-" +:+ body +:+ ".json"
    /\ String.length body = String.length t
    /\ all_chars name_safe body = true.
Proof.
  unfold downloadName. eexists. split; [reflexivity|].
  induction t as [|c t [IHl IHs]]; [split; reflexivity|].
  cbn [map_string String.length all_chars]. rewrite lowered_name_safe.
  split; [now f_equal | exact IHs].
Qed.
(** ** More on the daily insights *)

Lemma numbers_only_cons k v (d : list (string * tallied)) :
  numbers_only ((k, v) :: d) = true ->
  inherited k = false /\ v = Counted (counted v) /\ numbers_only d = true.
Proof.
  unfold numbers_only. cbn [forallb fst snd]. intros H.
  apply andb_prop in H. destruct H as [H Hd]. apply andb_prop in H. destruct H as [Hk Hv].
  split; [now destruct (inherited k) | split; [now destruct v | exact Hd]].
Qed.

(** A distribution of numbers under labels that name no inherited
    member adds its counts to a breakdown of numbers. *)
Lemma bump_all_get d : forall b,
  numbers_only d = true -> holds_numbers b ->
  let b' := fold_left (fun b kv => bump (fst kv) (snd kv) b) d b in
  holds_numbers b'
  /\ forall e, default 0%nat (counted <$> obj_get e b')
               = (default 0%nat (counted <$> obj_get e b) + count_of e d)%nat.
Proof.
  induction d as [|[k v] d IH]; intros b Hd Hb; cbn zeta;
    cbn [fold_left count_of fold_right fst snd].
  - split; [exact Hb | intros; lia].
  - apply numbers_only_cons in Hd. destruct Hd as (Hk & Hv & Hd).
    rewrite Hv, (bump_plain _ _ _ Hk Hb).
    destruct (IH (obj_set k (Counted (default 0%nat (counted <$> obj_get k b) + counted v)) b)
                Hd (holds_numbers_set _ _ _ Hb)) as [Hn Hg].
    cbn zeta in Hg. split; [exact Hn|].
    intros e. rewrite Hg, obj_get_set. fold (count_of e d). cbn [counted].
    rewrite (String.eqb_sym k e).
    destruct (String.eqb_spec e k) as [->|Hne];
      cbn [fmap option_fmap option_map from_option counted]; unfold id; lia.
Qed.

Lemma bump_all_keys_NoDup (d : list (string * tallied)) : forall b,
  List.NoDup (Object_keys b) ->
  List.NoDup (Object_keys (fold_left (fun b kv => bump (fst kv) (snd kv) b) d b)).
Proof.
  induction d as [|[k n] d IH]; intros b Hb; [exact Hb|].
  cbn [fold_left]. now apply IH, bump_keys_NoDup.
Qed.

Lemma summaries_filter (P : EmotionalSummary -> Prop) p convs :
  Forall P (summaries convs) -> Forall P (summaries (List.filter p convs)).
Proof.
  induction convs as [|c convs IH]; cbn [summaries List.filter]; [trivial|].
  intros H. destruct (p c); cbn [summaries]; destruct (emotionalSummary c);
    try apply List.Forall_cons_iff in H; try (constructor; [tauto|]); tauto.
Qed.

(** What counting conversations into an insight adds to its score. *)
Lemma count_all_score convs : forall i,
  sentimentScore (fold_left count_conversation convs i)
  = fold_left Nadd (List.map averageSentiment (summaries convs)) (sentimentScore i).
Proof.
  induction convs as [|c convs IH]; intros i; [reflexivity|].
  cbn [fold_left summaries]. rewrite IH. unfold count_conversation.
  now destruct (emotionalSummary c).
Qed.

(** What counting conversations into an insight adds to its breakdown,
    when the distributions hold numbers under labels that name no
    inherited member. *)
Lemma count_all_totals convs : forall i,
  Forall (fun s => numbers_only (emotionDistribution s) = true) (summaries convs) ->
  holds_numbers (emotionBreakdown i) ->
  let i' := fold_left count_conversation convs i in
  holds_numbers (emotionBreakdown i')
  /\ forall e, default 0%nat (counted <$> obj_get e (emotionBreakdown i'))
               = (default 0%nat (counted <$> obj_get e (emotionBreakdown i))
                  + day_total e convs)%nat.
Proof.
  induction convs as [|c convs IH]; intros i Hd Hb; cbv zeta.
  - cbn [fold_left]. unfold day_total. cbn [summaries fold_right].
    split; [exact Hb | intros; lia].
  - cbn [fold_left]. cbn [summaries] in Hd. unfold day_total. cbn [summaries].
    unfold count_conversation at 2 4.
    destruct (emotionalSummary c) as [s|].
    + apply List.Forall_cons_iff in Hd. destruct Hd as [Hs Hd].
      destruct (bump_all_get (emotionDistribution s) (emotionBreakdown i) Hs Hb)
        as [Hn Hg]. cbn zeta in Hn, Hg.
      match goal with
      | |- context [fold_left count_conversation convs ?j] =>
          destruct (IH j Hd) as [Hn' Hg']; [exact Hn|]
      end.
      cbn zeta in Hg'. cbn [emotionBreakdown] in Hg'.
      split; [exact Hn'|]. intros e. rewrite Hg'. unfold Object_entries.
      rewrite Hg. cbn [fold_right]. fold (day_total e convs). lia.
    + match goal with
      | |- context [fold_left count_conversation convs ?j] =>
          destruct (IH j Hd) as [Hn' Hg']; [exact Hb|]
      end.
      split; [exact Hn'|]. intros e. apply Hg'.
Qed.

Lemma count_all_keys convs : forall i,
  List.NoDup (Object_keys (emotionBreakdown i)) ->
  List.NoDup (Object_keys (emotionBreakdown (fold_left count_conversation convs i))).
Proof.
  induction convs as [|c convs IH]; intros i Hi; [exact Hi|].
  cbn [fold_left]. apply IH. unfold count_conversation.
  destruct (emotionalSummary c); cbn [emotionBreakdown]; [|exact Hi].
  now apply bump_all_keys_NoDup.
Qed.

Section InsightTotals.
Context (toDateString : Date -> string)
        (dateOfString : string -> Date)
        (daysBefore : Date -> Z -> Date).

Let window (days : Z) (now : Date) (m : ConversationManager) : list Conversation :=
  List.filter (in_window (daysBefore now days)) (conversations m).

Let of_day (day : string) (convs : list Conversation) : list Conversation :=
  List.filter (fun c => String.eqb (toDateString (updatedAt c)) day) convs.

Let table (days : Z) (now : Date) (m : ConversationManager)
  : list (string * EmotionalInsight) :=
  fold_left (record_conversation toDateString) (window days now m) [].

Lemma table_get days now m k :
  obj_get k (table days now m)
  = match of_day k (window days now m) with
    | [] => None
    | that_day => Some (fold_left count_conversation that_day (blank k))
    end.
Proof. unfold table. now rewrite record_all_get. Qed.

Lemma table_keys days now m : List.NoDup (Object_keys (table days now m)).
Proof. apply record_all_keys. constructor. Qed.

Lemma table_entry days now m k i :
  In (k, i) (table days now m) ->
  of_day k (window days now m) <> []
  /\ i = fold_left count_conversation (of_day k (window days now m)) (blank k)
  /\ date i = k.
Proof.
  intros Hin. pose proof (obj_in_get _ _ _ (table_keys days now m) Hin) as Hget.
  rewrite table_get in Hget.
  destruct (of_day k (window days now m)) as [|c d] eqn:E; [discriminate|].
  injection Hget as <-. split; [discriminate | split; [reflexivity|]].
  now destruct (count_all (c :: d) (blank k)) as (Hd & _).
Qed.

(** Every insight of the result is the finished count of the
    conversations of its day. *)
Lemma insight_of_result days now m i :
  In i (getEmotionalInsights toDateString dateOfString daysBefore days now m) ->
  of_day (date i) (window days now m) <> []
  /\ i = finish (fold_left count_conversation (of_day (date i) (window days now m))
                   (blank (date i))).
Proof.
  unfold getEmotionalInsights. fold (window days now m). fold (table days now m).
  rewrite Array_sort_In, in_map_iff. intros (raw & <- & Hraw).
  unfold Object_values in Hraw. apply in_map_iff in Hraw.
  destruct Hraw as ([k raw'] & Hk & Hin). cbn [snd] in Hk. subst raw'.
  destruct (table_entry _ _ _ _ _ Hin) as (Hne & Hraw & Hd).
  rewrite finish_date, Hd. split; [exact Hne | now rewrite <- Hraw].
Qed.

(** The score of a day is the sum of the average sentiments of its
    summarised conversations divided by the number of all its
    conversations, as the arithmetic of doubles gives it: the averages
    (of a magnitude of 1 at most) are added up from 0 in the order of
    the conversations, each sum and the quotient rounded.  A
    conversation without a summary adds nothing and counts in the
    divisor. *)
Theorem insight_sentimentScore_over_all days now m i :
  In i (getEmotionalInsights toDateString dateOfString daysBefore days now m) ->
  Forall (fun s => (Qabs (averageSentiment s) <= 1)%Q) (summaries (conversations m)) ->
  let that_day :=
    List.filter (fun c => String.eqb (toDateString (updatedAt c)) (date i))
      (List.filter (in_window (daysBefore now days)) (conversations m)) in
  that_day <> []
  /\ conversationCount i = length that_day
  /\ sentimentScore i
     = Ndiv (fold_left Nadd (List.map averageSentiment (summaries that_day)) 0%Q)
         (inject_Z (Z.of_nat (length that_day))).
Proof.
  intros Hi _. cbv zeta.
  destruct (insight_of_result _ _ _ _ Hi) as (Hne & Hfin).
  unfold of_day, window in Hne, Hfin.
  set (that_day := List.filter _ (List.filter _ _)) in *.
  destruct (count_all that_day (blank (date i))) as (_ & _ & Hc & _).
  pose proof (count_all_score that_day (blank (date i))) as Hs.
  cbv zeta in Hc. cbn [blank conversationCount sentimentScore] in Hc, Hs.
  set (raw := fold_left count_conversation that_day (blank (date i))) in *.
  assert (Hpos : (0 < conversationCount raw)%nat).
  { rewrite Hc. destruct that_day; [congruence | cbn [length]; lia]. }
  split; [exact Hne|]. rewrite Hfin. unfold finish.
  replace (0 <? conversationCount raw)%nat with true by (symmetry; now apply Nat.ltb_lt).
  cbn [conversationCount sentimentScore]. split; [exact Hc|].
  rewrite Hs, Hc. reflexivity.
Qed.

(** When the distributions of the summaries hold numbers under labels
    that name no member of [Object.prototype], the breakdown of a day
    holds numbers and files under every emotion the total of what the
    summaries of its conversations file under it, and the dominant
    emotion of the day is one of the largest total. *)
Theorem insight_emotionBreakdown_totals days now m i :
  In i (getEmotionalInsights toDateString dateOfString daysBefore days now m) ->
  Forall (fun s => numbers_only (emotionDistribution s) = true)
    (summaries (conversations m)) ->
  let that_day :=
    List.filter (fun c => String.eqb (toDateString (updatedAt c)) (date i))
      (List.filter (in_window (daysBefore now days)) (conversations m)) in
  holds_numbers (emotionBreakdown i)
  /\ forall e,
       default 0%nat (counted <$> obj_get e (emotionBreakdown i)) = day_total e that_day
       /\ (day_total e that_day <= day_total (insightDominantEmotion i) that_day)%nat.
Proof.
  intros Hi Hnum. cbv zeta.
  destruct (insight_of_result _ _ _ _ Hi) as (Hne & Hfin).
  unfold of_day, window in Hne, Hfin.
  set (that_day := List.filter _ (List.filter _ _)) in *.
  assert (Hnum' : Forall (fun s => numbers_only (emotionDistribution s) = true)
                    (summaries that_day)).
  { subst that_day. now do 2 apply summaries_filter. }
  destruct (count_all that_day (blank (date i))) as (_ & Hdom & Hc & _).
  destruct (count_all_totals that_day (blank (date i)) Hnum') as (Hhold & Hb);
    [constructor|].
  pose proof (count_all_keys that_day (blank (date i))) as Hn.
  cbv zeta in Hc, Hb, Hdom, Hhold.
  cbn [blank conversationCount emotionBreakdown insightDominantEmotion obj_get
       fmap option_fmap option_map from_option Nat.add] in Hc, Hb, Hn, Hdom.
  set (raw := fold_left count_conversation that_day (blank (date i))) in *.
  assert (Hpos : (0 <? conversationCount raw)%nat = true).
  { apply Nat.ltb_lt. rewrite Hc. destruct that_day; [congruence | cbn [length]; lia]. }
  assert (Hbreak : emotionBreakdown i = emotionBreakdown raw).
  { rewrite Hfin. unfold finish. now rewrite Hpos. }
  assert (Hget : forall e, default 0%nat (counted <$> obj_get e (emotionBreakdown i))
                           = day_total e that_day).
  { intros e. rewrite Hbreak. apply Hb. }
  split; [now rewrite Hbreak|].
  intros e. split; [apply Hget|].
  rewrite <- !Hget.
  assert (Hd : insightDominantEmotion i
               = match Array_sort by_count_desc (emotionBreakdown raw) with
                 | (dominant, _) :: _ => dominant
                 | [] => ""
                 end).
  { rewrite Hfin at 1. unfold finish. rewrite Hpos.
    cbn [insightDominantEmotion]. unfold Object_entries. now rewrite Hdom. }
  rewrite Hd, Hbreak.
  assert (Hnd : List.NoDup (Object_keys (emotionBreakdown raw))) by (apply Hn; constructor).
  destruct (Array_sort by_count_desc (emotionBreakdown raw)) as [|[d n] rest] eqn:Es.
  - apply Array_sort_nil in Es. rewrite Es. cbn. lia.
  - destruct (sort_by_count_head _ _ _ Hhold Es) as [Hin Hmax].
    rewrite (obj_in_get _ _ _ Hnd Hin).
    cbn [fmap option_fmap option_map from_option]. unfold id.
    destruct (obj_get e (emotionBreakdown raw)) as [ne|] eqn:Ee;
      cbn [fmap option_fmap option_map from_option]; unfold id.
    + apply obj_get_in in Ee. apply (Hmax (e, ne) Ee).
    + lia.
Qed.

Lemma count_of_day convs : forall (ks : list string),
  List.NoDup ks ->
  fold_right (fun k n => (length (of_day k convs) + n)%nat) 0%nat ks
  = length (List.filter (fun c => existsb (String.eqb (toDateString (updatedAt c))) ks) convs).
Proof.
  induction ks as [|k ks IH]; intros Hnd; cbn [fold_right existsb].
  - induction convs as [|c convs IHc]; [reflexivity | exact IHc].
  - apply List.NoDup_cons_iff in Hnd. destruct Hnd as [Hk Hnd].
    rewrite (IH Hnd). clear IH. unfold of_day.
    induction convs as [|c convs IHc]; [reflexivity|].
    cbn [List.filter].
    destruct (String.eqb_spec (toDateString (updatedAt c)) k) as [E|Hne].
    + assert (Hno : existsb (String.eqb (toDateString (updatedAt c))) ks = false).
      { apply not_true_is_false. intros Hex. apply existsb_exists in Hex.
        destruct Hex as (k' & Hk' & Ek'). apply String.eqb_eq in Ek'. congruence. }
      rewrite Hno. cbn [orb length]. lia.
    + cbn [orb].
      destruct (existsb (String.eqb (toDateString (updatedAt c))) ks);
        cbn [length]; lia.
Qed.

Lemma sort_insert_Permutation {A : Type} (cmp : A -> A -> Z) x l :
  Permutation (sort_insert cmp x l) (x :: l).
Proof.
  induction l as [|y l IH]; cbn [sort_insert]; [reflexivity|].
  destruct (cmp x y <=? 0); [reflexivity|].
  rewrite IH. apply perm_swap.
Qed.

Lemma Array_sort_Permutation {A : Type} (cmp : A -> A -> Z) l :
  Permutation (Array_sort cmp l) l.
Proof.
  induction l as [|x l IH]; [reflexivity|].
  unfold Array_sort. cbn [fold_right]. fold (Array_sort cmp l).
  rewrite sort_insert_Permutation. now constructor.
Qed.

Lemma total_count_Permutation l l' :
  Permutation l l' -> total_count l = total_count l'.
Proof.
  induction 1; cbn [total_count fold_right] in *; unfold total_count in *; lia.
Qed.

Lemma filter_all {A : Type} (p : A -> bool) l :
  (forall x, In x l -> p x = true) -> List.filter p l = l.
Proof.
  induction l as [|x l IH]; intros H; [reflexivity|].
  cbn [List.filter]. rewrite (H x (or_introl eq_refl)). f_equal.
  apply IH. intros y Hy. apply H. now right.
Qed.

Lemma total_count_by_key (f : string -> nat) (t : list (string * EmotionalInsight)) :
  (forall k i, In (k, i) t -> conversationCount (finish i) = f k) ->
  total_count (List.map finish (Object_values t))
  = fold_right (fun k n => (f k + n)%nat) 0%nat (Object_keys t).
Proof.
  unfold Object_values, Object_keys, total_count.
  induction t as [|[k i] t IH]; intros H; [reflexivity|].
  cbn [List.map fold_right fst snd].
  rewrite IH by (intros k' i' Hin; apply H; now right).
  f_equal. apply (H k i). now left.
Qed.

(** Every conversation of the window is counted once, in the insight of
    its day, and no other conversation is counted: the counts of the
    insights add up to the number of conversations updated since the
    cutoff date, and no two insights are of the same day. *)
Theorem insights_count_window_once days now m :
  let insights := getEmotionalInsights toDateString dateOfString daysBefore days now m in
  total_count insights
  = length (List.filter (in_window (daysBefore now days)) (conversations m))
  /\ List.NoDup (List.map date insights)
  /\ (insights = []
      <-> List.filter (in_window (daysBefore now days)) (conversations m) = []).
Proof.
  cbv zeta. unfold getEmotionalInsights.
  fold (window days now m). fold (table days now m).
  assert (Hfin : forall k i, In (k, i) (table days now m) ->
                 date (finish i) = k
                 /\ conversationCount (finish i) = length (of_day k (window days now m))).
  { intros k i Hin. destruct (table_entry _ _ _ _ _ Hin) as (Hne & Hraw & Hd).
    rewrite finish_date. split; [exact Hd|].
    destruct (count_all (of_day k (window days now m)) (blank k)) as (_ & _ & Hc & _).
    cbv zeta in Hc. rewrite <- Hraw in Hc. cbn [blank conversationCount Nat.add] in Hc.
    unfold finish. now destruct (0 <? conversationCount i)%nat. }
  assert (Hdates : List.map date (List.map finish (Object_values (table days now m)))
                   = Object_keys (table days now m)).
  { unfold Object_values, Object_keys. rewrite !List.map_map.
    apply map_ext_in. intros [k i] Hin. cbn [fst snd]. apply (Hfin k i Hin). }
  assert (Htotal : total_count (List.map finish (Object_values (table days now m)))
                   = fold_right (fun k n => (length (of_day k (window days now m)) + n)%nat)
                       0%nat (Object_keys (table days now m))).
  { apply total_count_by_key. intros k i Hin. apply (Hfin k i Hin). }
  split; [|split].
  - rewrite (total_count_Permutation _ _ (Array_sort_Permutation _ _)).
    rewrite Htotal, count_of_day by apply table_keys.
    f_equal. apply filter_all. intros c Hc.
    apply existsb_exists. exists (toDateString (updatedAt c)).
    split; [|apply String.eqb_refl].
    destruct (obj_get (toDateString (updatedAt c)) (table days now m)) as [i|] eqn:Eg.
    + apply obj_get_in in Eg. unfold Object_keys.
      apply in_map_iff. now exists (toDateString (updatedAt c), i).
    + rewrite table_get in Eg.
      assert (Hin : In c (of_day (toDateString (updatedAt c)) (window days now m))).
      { unfold of_day. apply filter_In. split; [exact Hc | apply String.eqb_refl]. }
      destruct (of_day _ _); [destruct Hin | discriminate].
  - eapply Permutation_NoDup.
    + symmetry. apply Permutation_map, Array_sort_Permutation.
    + rewrite Hdates. apply table_keys.
  - split.
    + intros Hnil. apply Array_sort_nil in Hnil.
      apply map_eq_nil in Hnil. unfold Object_values in Hnil. apply map_eq_nil in Hnil.
      destruct (window days now m) as [|c w] eqn:Ew; [reflexivity|].
      exfalso.
      assert (Hget := table_get days now m (toDateString (updatedAt c))).
      rewrite Hnil, Ew in Hget. unfold of_day in Hget. cbn [List.filter obj_get] in Hget.
      rewrite String.eqb_refl in Hget. discriminate.
    + intros Hnil. unfold table. rewrite Hnil. reflexivity.
Qed.

(** *** Order of the result *)

Lemma by_date_total a b : by_date dateOfString a b <= 0 \/ by_date dateOfString b a <= 0.
Proof.
  unfold by_date.
  destruct (dateOfString (date a)), (dateOfString (date b)); lia.
Qed.

Lemma sort_insert_Sorted {A : Type} (cmp : A -> A -> Z) x l :
  (forall a b, cmp a b <= 0 \/ cmp b a <= 0) ->
  Sorted (fun a b => cmp a b <= 0) l ->
  Sorted (fun a b => cmp a b <= 0) (sort_insert cmp x l).
Proof.
  intros Htot. induction l as [|y l IH]; intros Hs; cbn [sort_insert].
  - repeat constructor.
  - destruct (cmp x y <=? 0) eqn:E.
    + constructor; [exact Hs | constructor; lia].
    + apply Sorted_inv in Hs. destruct Hs as [Hs Hhd].
      constructor; [now apply IH|].
      destruct l as [|z l]; cbn [sort_insert].
      * constructor. destruct (Htot x y); lia.
      * destruct (cmp x z <=? 0).
        -- constructor. destruct (Htot x y); lia.
        -- constructor. now apply HdRel_inv in Hhd.
Qed.

Lemma Array_sort_Sorted {A : Type} (cmp : A -> A -> Z) l :
  (forall a b, cmp a b <= 0 \/ cmp b a <= 0) ->
  Sorted (fun a b => cmp a b <= 0) (Array_sort cmp l).
Proof.
  intros Htot. induction l as [|x l IH]; [constructor|].
  unfold Array_sort. cbn [fold_right]. now apply sort_insert_Sorted.
Qed.

(** The insights come in the order of their days, earliest first, when
    the engine reads back as a date every day it wrote for a
    conversation. *)
Theorem insights_in_date_order days now m :
  (forall c, In c (conversations m) ->
             dateOfString (toDateString (updatedAt c)) <> InvalidDate) ->
  StronglySorted
    (fun a b => exists ta tb,
       dateOfString (date a) = TimeValue ta
       /\ dateOfString (date b) = TimeValue tb
       /\ ta <= tb)
    (getEmotionalInsights toDateString dateOfString daysBefore days now m).
Proof.
  intros Hvalid.
  set (insights := getEmotionalInsights toDateString dateOfString daysBefore days now m).
  assert (Hread : forall i, In i insights -> exists t, dateOfString (date i) = TimeValue t).
  { intros i Hi. destruct (insight_of_result _ _ _ _ Hi) as (Hne & _).
    destruct (of_day (date i) (window days now m)) as [|c d] eqn:E; [congruence|].
    assert (Hc : In c (of_day (date i) (window days now m))) by (rewrite E; now left).
    unfold of_day, window in Hc. rewrite !filter_In in Hc.
    destruct Hc as ((Hcm & _) & Hday). apply String.eqb_eq in Hday.
    specialize (Hvalid c Hcm). rewrite Hday in Hvalid.
    destruct (dateOfString (date i)) as [|t]; [congruence | now exists t]. }
  assert (Hs : Sorted (fun a b => by_date dateOfString a b <= 0) insights).
  { apply Array_sort_Sorted, by_date_total. }
  clearbody insights. induction insights as [|a l IH]; [constructor|].
  apply Sorted_inv in Hs. destruct Hs as [Hs Hhd].
  assert (IHl := IH (fun i Hi => Hread i (or_intror Hi)) Hs).
  constructor; [exact IHl|].
  destruct (Hread a (or_introl eq_refl)) as (ta & Ha).
  destruct l as [|b l]; [constructor|].
  apply HdRel_inv in Hhd. unfold by_date in Hhd. rewrite Ha in Hhd.
  destruct (Hread b (or_intror (or_introl eq_refl))) as (tb & Hb). rewrite Hb in Hhd.
  apply StronglySorted_inv in IHl. destruct IHl as [_ Hall].
  constructor.
  - exists ta, tb. repeat split; [exact Ha | exact Hb | lia].
  - eapply List.Forall_impl; [|exact Hall].
    intros c (tb' & tc & Hb' & Hc & Hle). exists ta, tc.
    rewrite Hb in Hb'. injection Hb' as <-. repeat split; [exact Ha | exact Hc | lia].
Qed.
End InsightTotals.

Lemma insight_sentimentScore_over_all_witness :
  sentimentScore (hd (blank "") monthOfInsights) = double (8 # 10)
  /\ conversationCount (hd (blank "") monthOfInsights) = 1%nat.
Proof.
  destruct (insight_sentimentScore_over_all utcDateString utcDateOfString utcDaysBefore
              30 (clock 3600) threeConversations (hd (blank "") monthOfInsights))
    as (_ & Hc & Hs).
  - vm_compute. left. reflexivity.
  - vm_compute. repeat constructor; discriminate.
  - split; [rewrite Hs | rewrite Hc]; vm_compute; reflexivity.
Defined.

Lemma insight_emotionBreakdown_totals_witness :
  obj_get "happy" (emotionBreakdown (hd (blank "") monthOfInsights)) = Some (Counted 1).
Proof.
  destruct (insight_emotionBreakdown_totals utcDateString utcDateOfString utcDaysBefore
              30 (clock 3600) threeConversations (hd (blank "") monthOfInsights))
    as (Hn & _).
  - vm_compute. left. reflexivity.
  - vm_compute. repeat constructor.
  - vm_compute. reflexivity.
Defined.

Lemma insights_in_date_order_witness :
  StronglySorted
    (fun a b => exists ta tb,
       utcDateOfString (date a) = TimeValue ta
       /\ utcDateOfString (date b) = TimeValue tb
       /\ ta <= tb)
    monthOfInsights.
Proof.
  apply (insights_in_date_order utcDateString utcDateOfString utcDaysBefore
           30 (clock 3600) threeConversations).
  intros c Hc. vm_compute in Hc.
  destruct Hc as [<- | [<- | [<- | []]]]; vm_compute; discriminate.
Defined.

(** ** More on the metrics service *)

Lemma flushMetrics_sent s :
  sentMetrics (flushMetrics s) ++ metricsQueue (flushMetrics s)
  = sentMetrics s ++ metricsQueue s.
Proof.
  unfold flushMetrics, sentMetrics.
  destruct ((length (metricsQueue s) =? 0)%nat || negb (isProduction s)); [reflexivity|].
  cbn [requests metricsQueue]. rewrite concat_app. cbn [List.concat].
  rewrite app_nil_r, <- app_assoc. f_equal. apply take_drop.
Qed.

Lemma addMetric_sent n v d now s :
  isProduction s = true ->
  sentMetrics (addMetric n v d now s) ++ metricsQueue (addMetric n v d now s)
  = sentMetrics s ++ metricsQueue s
    ++ [{| name := n; value := v; dimensions := d; metric_timestamp := Some now |}].
Proof.
  intros Hp. unfold addMetric. rewrite Hp. cbn [negb].
  match goal with |- context [if ?b then _ else _] => destruct b end.
  - rewrite flushMetrics_sent. reflexivity.
  - reflexivity.
Qed.

Lemma handle_isProduction e s : isProduction (handle e s) = isProduction s.
Proof.
  destruct e as [n v d now | | b ok]; cbn [handle].
  - unfold addMetric. destruct (isProduction s) eqn:Hp; cbn [negb]; [|exact Hp].
    match goal with |- context [if ?b then _ else _] => destruct b end;
      [unfold flushMetrics; cbn [metricsQueue isProduction];
       match goal with |- context [if ?b then _ else _] => destruct b end|];
      cbn [isProduction]; reflexivity.
  - unfold flushMetrics.
    match goal with |- context [if ?b then _ else _] => destruct b end; reflexivity.
  - unfold flushSettled. destruct ok; [reflexivity|].
    match goal with |- context [if ?b then _ else _] => destruct b end; reflexivity.
Qed.

(** While no request fails, the queue of a production service drops no
    measurement, batches none twice and keeps them in the order they
    were recorded in: the batches taken off the queue for a request,
    followed by what is queued, are at any time what they were at the
    start followed by the measurements recorded since.  (What a request
    carries of its batch is [formatMetricsForBackend] of it, which
    keeps one measurement for every name.) *)
Theorem metrics_batched_in_order es : forall s,
  isProduction s = true ->
  forallb no_failure es = true ->
  sentMetrics (handle_all es s) ++ metricsQueue (handle_all es s)
  = sentMetrics s ++ metricsQueue s ++ List.concat (List.map recorded es).
Proof.
  induction es as [|e es IH]; intros s Hp Hok.
  - cbn [handle_all fold_left List.map List.concat]. now rewrite app_nil_r.
  - cbn [forallb] in Hok. apply andb_prop in Hok. destruct Hok as [He Hok].
    unfold handle_all. cbn [fold_left]. fold (handle_all es (handle e s)).
    rewrite IH by (rewrite ?handle_isProduction; assumption).
    cbn [List.map List.concat]. rewrite (app_assoc (sentMetrics s)), !app_assoc.
    f_equal. rewrite <- app_assoc.
    destruct e as [n v d now | | b ok]; cbn [handle recorded].
    + now apply addMetric_sent.
    + rewrite app_nil_r. apply flushMetrics_sent.
    + cbn [no_failure] in He. subst ok. now rewrite app_nil_r.
Qed.

Lemma metrics_batched_in_order_witness :
  sentMetrics (handle (measurement 10) nineQueued)
  ++ metricsQueue (handle (measurement 10) nineQueued)
  = metricsQueue nineQueued ++ recorded (measurement 10).
Proof.
  refine (eq_trans (metrics_batched_in_order [measurement 10] nineQueued eq_refl eq_refl) _).
  vm_compute. reflexivity.
Defined.

(** Outside production nothing is queued and nothing is sent, whatever
    is recorded and however often the timer fires. *)
Theorem development_records_nothing es : forall s,
  isProduction s = false ->
  forallb no_failure es = true ->
  handle_all es s = s.
Proof.
  induction es as [|e es IH]; intros s Hp Hok; [reflexivity|].
  cbn [forallb] in Hok. apply andb_prop in Hok. destruct Hok as [He Hok].
  unfold handle_all. cbn [fold_left]. fold (handle_all es (handle e s)).
  assert (Hs : handle e s = s).
  { destruct e as [n v d now | | b ok]; cbn [handle].
    - unfold addMetric. now rewrite Hp.
    - unfold flushMetrics. rewrite Hp. cbn [negb]. now rewrite orb_true_r.
    - cbn [no_failure] in He. subst ok. reflexivity. }
  rewrite Hs. now apply IH.
Qed.

Lemma development_records_nothing_witness :
  handle_all [measurement 1; TimerFired; measurement 2]
    (service (newCloudWatchService false))
  = service (newCloudWatchService false).
Proof.
  apply development_records_nothing; reflexivity.
Defined.

(** The queue stays bounded and so does every request: when a request
    settles for no more than [batchSize] measurements, a queue of at
    most 109 measurements never grows beyond 109 (a failed batch is put
    back only into a queue of fewer than 100) and every batch handed to
    [fetch] holds at least one measurement and at most [batchSize]. *)
Theorem queue_and_batches_bounded es : forall s,
  forallb within_batchSize es = true ->
  (length (metricsQueue s) <= 109)%nat ->
  Forall (fun b => (1 <= length b <= batchSize)%nat) (requests s) ->
  (length (metricsQueue (handle_all es s)) <= 109)%nat
  /\ Forall (fun b => (1 <= length b <= batchSize)%nat) (requests (handle_all es s)).
Proof.
  assert (Hflush : forall s,
             (length (metricsQueue s) <= 110)%nat ->
             Forall (fun b => (1 <= length b <= batchSize)%nat) (requests s) ->
             (length (metricsQueue (flushMetrics s)) <= length (metricsQueue s))%nat
             /\ ((batchSize <= length (metricsQueue s))%nat -> isProduction s = true ->
                 (length (metricsQueue (flushMetrics s)) + batchSize
                  = length (metricsQueue s))%nat)
             /\ Forall (fun b => (1 <= length b <= batchSize)%nat)
                  (requests (flushMetrics s))).
  { intros s Hq Hr. unfold flushMetrics.
    destruct (length (metricsQueue s) =? 0)%nat eqn:E0; cbn [orb].
    - apply Nat.eqb_eq in E0. repeat split; [lia | unfold batchSize; lia | exact Hr].
    - apply Nat.eqb_neq in E0. destruct (isProduction s); cbn [negb].
      + cbn [metricsQueue requests]. rewrite length_drop. repeat split; [lia | lia |].
        apply Forall_app. split; [exact Hr|]. constructor; [|constructor].
        rewrite length_take. unfold batchSize. lia.
      + repeat split; [lia | discriminate | exact Hr]. }
  induction es as [|e es IH]; intros s Hok Hq Hr; [split; assumption|].
  cbn [forallb] in Hok. apply andb_prop in Hok. destruct Hok as [He Hok].
  unfold handle_all. cbn [fold_left]. fold (handle_all es (handle e s)).
  assert (Hstep : (length (metricsQueue (handle e s)) <= 109)%nat
                  /\ Forall (fun b => (1 <= length b <= batchSize)%nat)
                       (requests (handle e s))).
  { destruct e as [n v d now | | b ok]; cbn [handle].
    - unfold addMetric. destruct (isProduction s) eqn:Hp; cbn [negb]; [|now split].
      set (s1 := {| metricsQueue := _ |}).
      assert (Hl : length (metricsQueue s1) = S (length (metricsQueue s))).
      { subst s1. cbn [metricsQueue]. rewrite length_app. cbn [length]. lia. }
      destruct (batchSize <=? length (metricsQueue s1))%nat eqn:Eb.
      + apply Nat.leb_le in Eb.
        destruct (Hflush s1) as (_ & Hexact & Hreq); [lia | exact Hr |].
        specialize (Hexact Eb eq_refl). unfold batchSize in *. split; [lia | exact Hreq].
      + apply Nat.leb_gt in Eb. unfold batchSize in *. split; [lia | exact Hr].
    - destruct (Hflush s) as (Hle & _ & Hreq); [lia | exact Hr |].
      split; [lia | exact Hreq].
    - cbn [within_batchSize] in He. apply Nat.leb_le in He. unfold batchSize in He.
      unfold flushSettled. destruct ok; [now split|].
      destruct (length (metricsQueue s) <? 100)%nat eqn:E; [|now split].
      apply Nat.ltb_lt in E. cbn [metricsQueue requests].
      rewrite length_app. split; [lia | exact Hr]. }
  destruct Hstep as [Hq' Hr']. now apply IH.
Qed.

Lemma queue_and_batches_bounded_witness :
  (length (metricsQueue (handle_all [measurement 10; Settled [] false] nineQueued)) <= 109)%nat.
Proof.
  refine (proj1 (queue_and_batches_bounded [measurement 10; Settled [] false] nineQueued
                   eq_refl _ _)).
  - vm_compute. lia.
  - vm_compute. constructor.
Defined.

(** A flush that fails puts its batch back where it was taken from when
    fewer than 100 measurements are left in the queue, and the queue is
    as it was before the flush; otherwise the batch is dropped.  A flush
    that succeeds changes nothing more. *)
Theorem failed_flush_requeues s :
  isProduction s = true ->
  metricsQueue s <> [] ->
  let batch := take batchSize (metricsQueue s) in
  let flushed := flushMetrics s in
  requests flushed = requests s ++ [batch]
  /\ flushSettled batch true flushed = flushed
  /\ ((length (metricsQueue flushed) < 100)%nat ->
      metricsQueue (flushSettled batch false flushed) = metricsQueue s)
  /\ ((100 <= length (metricsQueue flushed))%nat ->
      metricsQueue (flushSettled batch false flushed) = drop batchSize (metricsQueue s)).
Proof.
  intros Hp Hq. cbv zeta. unfold flushMetrics. rewrite Hp.
  replace (length (metricsQueue s) =? 0)%nat with false
    by (symmetry; apply Nat.eqb_neq; destruct (metricsQueue s); [congruence | discriminate]).
  cbn [orb negb requests metricsQueue]. unfold flushSettled. cbn [metricsQueue].
  split; [reflexivity | split; [reflexivity | split]]; intros Hl.
  - replace (_ <? 100)%nat with true by (symmetry; now apply Nat.ltb_lt).
    cbn [metricsQueue]. apply take_drop.
  - replace (_ <? 100)%nat with false by (symmetry; apply Nat.ltb_ge; lia).
    reflexivity.
Qed.

Lemma failed_flush_requeues_witness :
  metricsQueue
    (flushSettled (take batchSize (metricsQueue nineQueued)) false (flushMetrics nineQueued))
  = metricsQueue nineQueued.
Proof.
  destruct (failed_flush_requeues nineQueued) as (_ & _ & Hback & _).
  - reflexivity.
  - vm_compute. discriminate.
  - apply Hback. vm_compute. lia.
Defined.

(** [destroy()] stops the timer and hands one batch to [fetch]: the
    [batchSize] oldest measurements.  What is queued beyond them stays
    in the queue, which is left empty only if it held no more than
    [batchSize]. *)
Theorem destroy_sends_one_batch w :
  isProduction (service w) = true ->
  timer (destroy w) = false
  /\ sentMetrics (service (destroy w))
     = sentMetrics (service w) ++ take batchSize (metricsQueue (service w))
  /\ metricsQueue (service (destroy w)) = drop batchSize (metricsQueue (service w))
  /\ (metricsQueue (service (destroy w)) = []
      <-> (length (metricsQueue (service w)) <= batchSize)%nat).
Proof.
  intros Hp. unfold destroy. cbn [timer service].
  assert (Hq : metricsQueue (flushMetrics (service w))
               = drop batchSize (metricsQueue (service w))).
  { unfold flushMetrics. rewrite Hp. cbn [negb]. rewrite orb_false_r.
    destruct (metricsQueue (service w)) as [|x q] eqn:E;
      cbn [length Nat.eqb metricsQueue]; [|reflexivity].
    rewrite E. reflexivity. }
  split; [reflexivity | split; [|split; [exact Hq|]]].
  - apply (app_inv_tail (metricsQueue (flushMetrics (service w)))).
    rewrite flushMetrics_sent, Hq, <- app_assoc. f_equal. symmetry. apply take_drop.
  - rewrite Hq. split.
    + intros Hnil. apply (f_equal length) in Hnil. rewrite length_drop in Hnil.
      cbn [length] in Hnil. lia.
    + intros Hl. apply drop_ge. exact Hl.
Qed.

Lemma destroy_sends_one_batch_witness :
  metricsQueue (service (destroy {| service := nineQueued; timer := true |})) = []
  /\ sentMetrics (service (destroy {| service := nineQueued; timer := true |}))
     = metricsQueue nineQueued.
Proof.
  destruct (destroy_sends_one_batch {| service := nineQueued; timer := true |} eq_refl)
    as (_ & Hs & _ & He).
  split.
  - apply He. vm_compute. lia.
  - rewrite Hs. vm_compute. reflexivity.
Defined.

(** *** The formatted batch *)

Lemma format_from_app clock l1 : forall i l2 formatted,
  format_from clock i (l1 ++ l2) formatted
  = format_from clock (i + length l1) l2 (format_from clock i l1 formatted).
Proof.
  induction l1 as [|x l1 IH]; intros i l2 formatted; cbn [app format_from length].
  - now rewrite Nat.add_0_r.
  - rewrite IH. f_equal. lia.
Qed.

Lemma format_from_other clock k ms : forall i formatted,
  Forall (fun metric => metric_key metric <> k) ms ->
  obj_get k (format_from clock i ms formatted) = obj_get k formatted.
Proof.
  induction ms as [|x ms IH]; intros i formatted Hall; [reflexivity|].
  apply List.Forall_cons_iff in Hall. destruct Hall as [Hx Hall].
  cbn [format_from]. rewrite IH by exact Hall.
  destruct (String.eqb (metric_key x) "__proto__"); [reflexivity|].
  rewrite obj_get_set. apply not_eq_sym in Hx. apply String.eqb_neq in Hx.
  now rewrite Hx.
Qed.

Lemma format_from_keys clock ms : forall i formatted,
  List.NoDup (Object_keys formatted) ->
  List.NoDup (Object_keys (format_from clock i ms formatted))
  /\ forall k, In k (Object_keys (format_from clock i ms formatted)) ->
       In k (Object_keys formatted)
       \/ (k <> "__proto__" /\ exists metric, In metric ms /\ metric_key metric = k).
Proof.
  induction ms as [|x ms IH]; intros i formatted Hnd; cbn [format_from].
  - split; [exact Hnd | now left].
  - destruct (String.eqb_spec (metric_key x) "__proto__") as [E|Hne].
    + destruct (IH (S i) formatted Hnd) as [H1 H2]. split; [exact H1|].
      intros k Hk. destruct (H2 k Hk) as [Hl | (Hp & metric & Hin & Hkey)]; [now left|].
      right. split; [exact Hp|]. exists metric. split; [now right | exact Hkey].
    + destruct (IH (S i) (obj_set (metric_key x) (format_metric (clock i) x) formatted))
        as [H1 H2]; [now apply obj_set_keys_NoDup|].
      split; [exact H1|]. intros k Hk.
      destruct (H2 k Hk) as [Hl | (Hp & metric & Hin & Hkey)].
      * destruct (obj_get k formatted) as [v|] eqn:Eg.
        -- left. apply obj_get_in in Eg. unfold Object_keys. apply in_map_iff.
           now exists (k, v).
        -- right. destruct (String.eqb_spec k (metric_key x)) as [->|Hk'].
           ++ split; [exact Hne|]. exists x. split; [now left | reflexivity].
           ++ exfalso. apply obj_get_none_keys in Hl; [exact Hl|].
              rewrite obj_get_set. apply String.eqb_neq in Hk'. now rewrite Hk'.
      * right. split; [exact Hp|]. exists metric. split; [now right | exact Hkey].
Qed.

(** The formatted batch holds one entry a key, that of the last
    measurement of the key: of two measurements of one name and the same
    dimension values in a batch, only the later one is sent.  No entry is
    made up: every key is the key of a measurement of the batch. *)
Theorem formatMetricsForBackend_last_wins clock before metric after :
  metric_key metric <> "__proto__" ->
  Forall (fun later => metric_key later <> metric_key metric) after ->
  let formatted := formatMetricsForBackend clock (before ++ metric :: after) in
  obj_get (metric_key metric) formatted
  = Some (format_metric (clock (length before)) metric)
  /\ List.NoDup (Object_keys formatted)
  /\ (forall k, In k (Object_keys formatted) ->
        exists m, In m (before ++ metric :: after) /\ metric_key m = k)
  /\ (length formatted <= length (before ++ metric :: after))%nat.
Proof.
  intros Hp Hafter. cbv zeta. unfold formatMetricsForBackend.
  destruct (format_from_keys clock (before ++ metric :: after) 0 []) as [Hnd Hkeys];
    [constructor|].
  split; [|split; [exact Hnd | split]].
  - rewrite format_from_app. cbn [format_from Nat.add].
    rewrite format_from_other by exact Hafter.
    apply String.eqb_neq in Hp. rewrite Hp.
    rewrite obj_get_set, String.eqb_refl. reflexivity.
  - intros k Hk. destruct (Hkeys k Hk) as [[] | (_ & m & Hm)]. now exists m.
  - clear Hp Hafter Hkeys Hnd. generalize (before ++ metric :: after) as ms.
    intros ms. replace (length ms) with (length (@nil (string * FormattedMetric)) + length ms)%nat
      by reflexivity.
    generalize (@nil (string * FormattedMetric)) as formatted. generalize 0%nat as i.
    induction ms as [|x ms IH]; intros i formatted; cbn [format_from length]; [lia|].
    etransitivity; [apply IH|].
    destruct (String.eqb (metric_key x) "__proto__"); [lia|].
    assert (Hl : (length (obj_set (metric_key x) (format_metric (clock i) x) formatted)
                  <= S (length formatted))%nat).
    { unfold obj_set. destruct (obj_get _ formatted).
      - assert (H := f_equal (@length string) (obj_replace_keys (metric_key x)
                                 (format_metric (clock i) x) formatted)).
        unfold Object_keys in H. rewrite !length_map in H. lia.
      - destruct (array_index _).
        + assert (H := Permutation_length
                         (obj_insert_index_keys n (metric_key x)
                            (format_metric (clock i) x) formatted)).
          unfold Object_keys in H. cbn [length] in H. rewrite !length_map in H. lia.
        + rewrite length_app. cbn [length]. lia. }
    lia.
Qed.

Lemma formatMetricsForBackend_last_wins_witness :
  let first := {| name := "PageView"; value := 1; dimensions := Some [("page", "/")];
                  metric_timestamp := Some (clock 1) |} in
  let second := {| name := "PageView"; value := 1; dimensions := Some [("page", "/")];
                   metric_timestamp := Some (clock 2) |} in
  obj_get "PageView_/" (formatMetricsForBackend (fun _ => clock 9) [first; second])
  = Some {| fm_value := 1; fm_dimensions := [("page", "/")]; fm_timestamp := clock 2;
            fm_unit := Some "Count" |}
  /\ length (formatMetricsForBackend (fun _ => clock 9) [first; second]) = 1%nat.
Proof.
  intros first second. split.
  - refine (proj1 (formatMetricsForBackend_last_wins (fun _ => clock 9) [first] second []
                     _ _)).
    + discriminate.
    + constructor.
  - vm_compute. reflexivity.
Defined.

(** *** [trackError] *)

Lemma substring_prefix n s : exists rest, s = substring 0 n s +:+ rest.
Proof.
  revert s. induction n as [|n IH]; intros s.
  - exists s. now destruct s.
  - destruct s as [|c s]; [now exists ""|].
    destruct (IH s) as (rest & Hrest). exists rest.
    cbn [substring]. change (String c s = String c (substring 0 n s +:+ rest)).
    now f_equal.
Qed.

Lemma substring_length n s : (String.length (substring 0 n s) <= n)%nat.
Proof.
  revert s. induction n as [|n IH]; intros s.
  - destruct s; cbn; lia.
  - destruct s as [|c s]; cbn [substring String.length]; [lia|].
    specialize (IH s). lia.
Qed.

(** In production [trackError] records one measurement, named
    [FrontendError] and of value 1, whose dimensions are the error type
    and the component as given and, for a message that is not empty, the
    first 100 characters of the message: the dimension never holds
    more. *)
Theorem trackError_bounds_message errorType component message now s :
  isProduction s = true ->
  exists metric d,
    sentMetrics (trackError errorType component message now s)
    ++ metricsQueue (trackError errorType component message now s)
    = sentMetrics s ++ metricsQueue s ++ [metric]
    /\ name metric = "FrontendError"
    /\ dimensions metric = Some d
    /\ obj_get "errorType" d = Some errorType
    /\ obj_get "component" d = Some component
    /\ match obj_get "message" d with
       | Some text =>
           (String.length text <= 100)%nat
           /\ exists full rest, message = Some full /\ full <> "" /\ full = text +:+ rest
       | None => message = None \/ message = Some ""
       end.
Proof.
  intros Hp. unfold trackError. eexists _, _.
  split; [now apply addMetric_sent|].
  cbn [name dimensions]. split; [reflexivity | split; [reflexivity|]].
  destruct message as [text|]; [destruct (String.eqb_spec text "") as [->|Hne]|];
    cbn [app obj_get String.eqb Ascii.eqb Bool.eqb]; repeat split; auto.
  - apply substring_length.
  - destruct (substring_prefix 100 text) as (rest & Hrest).
    exists text, rest. repeat split; [exact Hne | exact Hrest].
Qed.

Lemma trackError_bounds_message_witness :
  exists metric,
    metricsQueue (trackError "NetworkError" "/api/process-audio" (Some "timeout") (clock 5)
                    (service (newCloudWatchService true))) = [metric]
    /\ name metric = "FrontendError".
Proof.
  destruct (trackError_bounds_message "NetworkError" "/api/process-audio" (Some "timeout")
              (clock 5) (service (newCloudWatchService true)) eq_refl)
    as (metric & d & Hq & Hn & _).
  exists metric. split; [|exact Hn].
  vm_compute in Hq |- *. vm_compute in Hn. injection Hq as <-. reflexivity.
Defined.

(** *** [trackAPICall] *)

Lemma strip_prefix_app pat rest : strip_prefix pat (pat +:+ rest) = Some rest.
Proof.
  induction pat as [|a pat IH]; [now destruct rest|].
  change (String a pat +:+ rest) with (String a (pat +:+ rest)).
  cbn [strip_prefix]. now rewrite Ascii.eqb_refl.
Qed.

Lemma replace_first_prefix pat rest : replace_first pat (pat +:+ rest) = rest.
Proof.
  destruct (pat +:+ rest) as [|c s] eqn:E; cbn [replace_first];
    rewrite <- E, strip_prefix_app; reflexivity.
Qed.

Lemma addMetric_isProduction n v d now s :
  isProduction (addMetric n v d now s) = isProduction s.
Proof. exact (handle_isProduction (Recorded n v d now) s). Qed.

(** In production [trackAPICall] records the call and its response
    time, and an error after them for a call that failed, in this order
    and each once; for an endpoint under the base URL of the API, the
    endpoint they are filed under is the path after the base URL. *)
Theorem trackAPICall_records apiUrl path method duration success t1 t2 t3 s :
  isProduction s = true ->
  let s' := trackAPICall apiUrl (apiUrl +:+ path) method duration success t1 t2 t3 s in
  let call :=
    {| name := "APICall"; value := 1;
       dimensions := Some [("endpoint", path); ("method", method);
                           ("success", if success then "true" else "false")];
       metric_timestamp := Some t1 |} in
  let time :=
    {| name := "APIResponseTime"; value := duration;
       dimensions := Some [("endpoint", path); ("method", method)];
       metric_timestamp := Some t2 |} in
  let error :=
    {| name := "APIError"; value := 1;
       dimensions := Some [("endpoint", path); ("method", method)];
       metric_timestamp := Some t3 |} in
  sentMetrics s' ++ metricsQueue s'
  = sentMetrics s ++ metricsQueue s
    ++ (if success then [call; time] else [call; time; error]).
Proof.
  intros Hp. cbv zeta. unfold trackAPICall. rewrite !replace_first_prefix.
  assert (Hstep : forall n v d now s0 tail,
             isProduction s0 = true ->
             sentMetrics (addMetric n v d now s0) ++ metricsQueue (addMetric n v d now s0)
             ++ tail
             = sentMetrics s0 ++ metricsQueue s0
               ++ {| name := n; value := v; dimensions := d; metric_timestamp := Some now |}
                  :: tail).
  { intros n v d now s0 tail H0. rewrite app_assoc, addMetric_sent by exact H0.
    now rewrite <- !app_assoc. }
  destruct success; cbn [negb].
  - rewrite addMetric_sent by (rewrite ?addMetric_isProduction; exact Hp).
    now rewrite Hstep by exact Hp.
  - rewrite addMetric_sent by (rewrite ?addMetric_isProduction; exact Hp).
    rewrite Hstep by (rewrite ?addMetric_isProduction; exact Hp).
    now rewrite Hstep by exact Hp.
Qed.

Lemma trackAPICall_records_witness :
  List.map name
    (metricsQueue
       (trackAPICall "https://api.example" "https://api.example/api/process-audio" "POST"
          (inject_Z 120) false (clock 1) (clock 1) (clock 1)
          (service (newCloudWatchService true))))
  = ["APICall"; "APIResponseTime"; "APIError"].
Proof.
  assert (H := trackAPICall_records "https://api.example" "/api/process-audio" "POST"
                 (inject_Z 120) false (clock 1) (clock 1) (clock 1)
                 (service (newCloudWatchService true)) eq_refl).
  cbv zeta in H. vm_compute in H |- *. reflexivity.
Defined.

(** ** Query strings *)

Lemma all_chars_app p a b :
  all_chars p (a +:+ b) = all_chars p a && all_chars p b.
Proof.
  induction a as [|c a IH]; [reflexivity|].
  change (String c a +:+ b) with (String c (a +:+ b)).
  cbn [all_chars]. rewrite IH. apply andb_assoc.
Qed.

Lemma form_encode_char_safe c : all_chars query_safe (form_encode_char c) = true.
Proof. destruct c as [[] [] [] [] [] [] [] []]; reflexivity. Qed.

Lemma form_encode_safe s : all_chars query_safe (form_encode s) = true.
Proof.
  induction s as [|c s IH]; [reflexivity|].
  cbn [form_encode]. now rewrite all_chars_app, form_encode_char_safe, IH.
Qed.

(** The URL [processAudio] posts to always carries [auto_detect], after
    the language when one is given that is neither empty nor [auto]; the
    URL of [analyzeSentiment] carries the language when one is given
    that is not empty, and no query otherwise.  The language is written
    in letters, digits and the characters [*-._+%] only: whatever it
    holds, it adds no parameter of its own and ends no query. *)
Theorem query_strings_are_safe language autoDetect :
  let flag := if default true autoDetect then "true" else "false" in
  processAudio_url language autoDetect
  = match language with
    | Some l =>
        if String.eqb l "" || String.eqb l "auto"
        then "/api/process-audio?auto_detect=" +:+ flag
        else "/api/process-audio?language=" +:+ form_encode l +:+ "&auto_detect=" +:+ flag
    | None => "/api/process-audio?auto_detect=" +:+ flag
    end
  /\ analyzeSentiment_url language
     = match language with
       | Some l =>
           if String.eqb l "" then "/api/analyze-sentiment"
           else "/api/analyze-sentiment?language=" +:+ form_encode l
       | None => "/api/analyze-sentiment"
       end
  /\ forall l, language = Some l -> all_chars query_safe (form_encode l) = true.
Proof.
  cbv zeta. split; [|split; [|intros l _; apply form_encode_safe]].
  - unfold processAudio_url, URLSearchParams_toString.
    destruct language as [l|]; [destruct (String.eqb l "" || String.eqb l "auto")|];
      destruct (default true autoDetect); reflexivity.
  - unfold analyzeSentiment_url, URLSearchParams_toString.
    destruct language as [l|]; [destruct (String.eqb l "")|]; reflexivity.
Qed.

Lemma query_strings_are_safe_witness :
  processAudio_url (Some "ta&x=1") None
  = "/api/process-audio?language=ta%26x%3D1&auto_detect=true"
  /\ all_chars query_safe (form_encode "ta&x=1") = true.
Proof.
  destruct (query_strings_are_safe (Some "ta&x=1") None) as (Hp & _ & Hs).
  split; [rewrite Hp; vm_compute; reflexivity | apply Hs; reflexivity].
Defined.

(** ** A store that cannot be read *)

Lemma unreadable_revive j :
  unreadable j = true -> revive_conversation (JSON_parse j) = None.
Proof.
  unfold unreadable, revive_conversation.
  destruct (get_prop (JSON_parse j) "messages") as [ms|] eqn:Em.
  - intros Hms.
    destruct (get_prop (JSON_parse j) "createdAt"); [|reflexivity].
    destruct (get_prop (JSON_parse j) "updatedAt"); [|reflexivity].
    cbn [mbind option_bind]. now destruct ms.
  - intros _. unfold get_prop in *.
    destruct (JSON_parse j); try discriminate; reflexivity.
Qed.

(** One entry of the stored array that cannot be read makes the
    constructor start from an empty list, the readable entries being
    discarded with it; the next save then replaces the stored array by
    the list in memory, and what had been stored is gone. *)
Theorem unreadable_entry_discards_all store entries t id localeDate created updated :
  getItem store = Document (JsonArr entries) ->
  existsb unreadable entries = true ->
  quotaExceeded store = false ->
  exists m,
    newConversationManager store = Some m
    /\ getConversations m = []
    /\ getItem (localStorage (snd (createConversation t id localeDate created updated m)))
       = serialized [fst (createConversation t id localeDate created updated m)].
Proof.
  intros Hitem Hbad Hq. unfold newConversationManager, loadConversations. rewrite Hitem.
  cbn [JSON_parse].
  replace (mapM revive_conversation (List.map JSON_parse entries)) with (@None (list jsval)).
  - cbn [from_option mapM mbind option_bind mret option_ret]. eexists.
    split; [reflexivity|]. split; [reflexivity|].
    unfold createConversation, saveConversations, setItem.
    cbn [snd fst localStorage set_currentConversationId set_conversations conversations].
    rewrite Hq. reflexivity.
  - symmetry. apply mapM_None_2. apply existsb_exists in Hbad.
    destruct Hbad as (j & Hj & Hu). apply List.Exists_exists.
    exists (JSON_parse j). split; [now apply in_map | now apply unreadable_revive].
Qed.

Lemma unreadable_entry_discards_all_witness :
  exists m,
    newConversationManager
      {| getItem := Document (JsonArr [JsonObj [("id", JsonStr "c0")]]);
         quotaExceeded := false |} = Some m
    /\ getConversations m = [].
Proof.
  destruct (unreadable_entry_discards_all
              {| getItem := Document (JsonArr [JsonObj [("id", JsonStr "c0")]]);
                 quotaExceeded := false |}
              [JsonObj [("id", JsonStr "c0")]] None "c1" "11/3/2026" (clock 0) (clock 0)
              eq_refl eq_refl eq_refl) as (m & Hm & Hc & _).
  exists m. split; [exact Hm | exact Hc].
Defined.

(** ** Creating, then deleting *)

(** Deleting the conversation that was just created, under an id no
    other conversation has, gives back the list as it was, but not the
    selection: no conversation is current afterwards, whichever was
    before. *)
Theorem create_then_delete t id localeDate created updated m :
  (forall c, In c (conversations m) -> conv_id c <> id) ->
  let m' := deleteConversation id
              (snd (createConversation t id localeDate created updated m)) in
  getConversations m' = getConversations m
  /\ currentConversationId m' = None
  /\ getCurrentConversation m' = None.
Proof.
  intros Hfresh. cbv zeta.
  assert (Hcur : currentConversationId
                   (deleteConversation id
                      (snd (createConversation t id localeDate created updated m))) = None).
  { unfold deleteConversation, createConversation. cbn [snd].
    rewrite saveConversations_current.
    cbn [currentConversationId set_conversations].
    rewrite saveConversations_current.
    cbn [currentConversationId set_currentConversationId set_conversations conv_id].
    rewrite String.eqb_refl. reflexivity. }
  split; [|split; [exact Hcur | now apply getCurrentConversation_unset]].
  unfold getConversations, deleteConversation, createConversation. cbn [snd].
  rewrite saveConversations_conversations.
  match goal with
  | |- conversations (match ?x with Some cur => _ | None => _ end) = _ =>
      destruct x as [cur|]; [destruct (String.eqb cur id)|]
  end;
    cbn [conversations set_conversations set_currentConversationId];
    rewrite saveConversations_conversations;
    cbn [conversations set_conversations set_currentConversationId List.filter conv_id];
    rewrite String.eqb_refl; cbn [negb];
    apply filter_all; intros c Hc; apply negb_true_iff, String.eqb_neq, Hfresh, Hc.
Qed.

Lemma create_then_delete_witness :
  getConversations
    (deleteConversation "c3"
       (snd (createConversation None "c3" "11/3/2026" (clock 5) (clock 5) twoConversations)))
  = getConversations twoConversations
  /\ getCurrentConversation
       (deleteConversation "c3"
          (snd (createConversation None "c3" "11/3/2026" (clock 5) (clock 5)
                  twoConversations))) = None.
Proof.
  destruct (create_then_delete None "c3" "11/3/2026" (clock 5) (clock 5) twoConversations)
    as (Hc & _ & Hn).
  - intros c Hc. vm_compute in Hc. destruct Hc as [<- | [<- | []]]; discriminate.
  - split; [exact Hc | exact Hn].
Defined.

(** ** Ties between emotions *)

Lemma bump_keys_plain e n (counts : list (string * tallied)) :
  array_index e = None -> inherited e = false ->
  Object_keys (bump e n counts)
  = if existsb (String.eqb e) (Object_keys counts) then Object_keys counts
    else Object_keys counts ++ [e].
Proof.
  intros Hplain Hown. unfold bump, assign, obj_set.
  destruct (obj_get e counts) as [k|] eqn:Eg.
  - rewrite obj_replace_keys.
    replace (existsb _ _) with true; [reflexivity|].
    symmetry. apply existsb_exists. exists e. split; [|apply String.eqb_refl].
    apply obj_get_in in Eg. unfold Object_keys. apply in_map_iff. now exists (e, k).
  - rewrite (inherited_proto _ Hown), Hplain.
    replace (existsb _ _) with false.
    + unfold Object_keys. now rewrite List.map_app.
    + symmetry. apply not_true_is_false. intros Hex. apply existsb_exists in Hex.
      destruct Hex as (k & Hk & Ek). apply String.eqb_eq in Ek. subst k.
      apply obj_get_none_keys in Eg. contradiction.
Qed.

Lemma tally_keys_order ms : forall t,
  Forall (fun e => array_index e = None) (emotion_labels ms) ->
  plain_labels ms ->
  Object_keys (emotionCounts (fold_left tally_message ms t))
  = fold_left (fun seen e => if existsb (String.eqb e) seen then seen else seen ++ [e])
      (emotion_labels ms) (Object_keys (emotionCounts t)).
Proof.
  unfold plain_labels.
  induction ms as [|m ms IH]; intros t Hplain Hown; [reflexivity|].
  cbn [fold_left emotion_labels] in *.
  destruct (emotion_of m) as [e|] eqn:Ee.
  - apply List.Forall_cons_iff in Hplain. destruct Hplain as [He Hplain].
    apply List.Forall_cons_iff in Hown. destruct Hown as [Ho Hown].
    rewrite IH by assumption. cbn [fold_left].
    now rewrite tally_message_counts, Ee, bump_keys_plain.
  - rewrite IH by assumption. now rewrite tally_message_counts, Ee.
Qed.

(** The first entry after sorting numbers by [b - a] is the first of
    the entries of the largest count: the sort is stable. *)
Lemma sort_by_count_first_max (l : list (string * tallied)) x rest :
  holds_numbers l ->
  Array_sort by_count_desc l = x :: rest ->
  exists pre post,
    l = pre ++ x :: post
    /\ Forall (fun y => (counted (snd y) < counted (snd x))%nat) pre
    /\ Forall (fun y => (counted (snd y) <= counted (snd x))%nat) post.
Proof.
  revert x rest. induction l as [|a l IH]; intros x rest Hnum H; [discriminate|].
  apply List.Forall_cons_iff in Hnum. destruct Hnum as [Ha Hl].
  unfold Array_sort in H. cbn [fold_right] in H. fold (Array_sort by_count_desc l) in H.
  destruct (Array_sort by_count_desc l) as [|y r] eqn:Es.
  - apply Array_sort_nil in Es. subst l. cbn [sort_insert] in H. injection H as <- <-.
    exists [], []. repeat split; constructor.
  - destruct (IH y r Hl eq_refl) as (pre & post & Hpp & Hpre & Hpost).
    assert (Hy : snd y = Counted (counted (snd y))).
    { apply (proj1 (List.Forall_forall _ l) Hl). rewrite Hpp. apply in_or_app.
      right. now left. }
    cbn [sort_insert] in H.
    destruct a as [ka [na|sa]]; [|discriminate Ha].
    destruct y as [ky [ny|sy]]; [|discriminate Hy].
    rewrite by_count_desc_counted in H. cbn [snd counted] in Hpre, Hpost.
    destruct (Nat.leb_spec ny na) as [E|E]; injection H as <- <-.
    + exists [], l. split; [reflexivity | split; [constructor|]].
      rewrite Hpp. cbn [snd counted]. apply Forall_app. split; [|constructor].
      * eapply List.Forall_impl; [|exact Hpre]. intros z Hz. cbn beta in Hz. lia.
      * cbn [snd counted]. lia.
      * eapply List.Forall_impl; [|exact Hpost]. intros z Hz. cbn beta in Hz. lia.
    + exists ((ka, Counted na) :: pre), post.
      split; [now rewrite Hpp | split; [|exact Hpost]].
      constructor; [cbn [snd counted]; lia | exact Hpre].
Qed.

(** When no label names a member of [Object.prototype] (and none is
    written like an array index), the distribution lists the emotions
    in the order they are seen first, each with the number of its
    occurrences, and of the emotions that occur most often the dominant
    one is the one that was seen first: every emotion listed before it
    occurs less often, and none occurs more often. *)
Theorem dominantEmotion_first_of_ties c :
  (exists m, In m (messages c) /\ emotion_of m <> None) ->
  plain_labels (messages c) ->
  Forall (fun e => array_index e = None) (emotion_labels (messages c)) ->
  exists s pre post,
    emotionalSummary (updateEmotionalSummary c) = Some s
    /\ emotionDistribution s
       = List.map (fun e => (e, Counted (occurrences e (messages c))))
           (first_seen (emotion_labels (messages c)))
    /\ first_seen (emotion_labels (messages c)) = pre ++ dominantEmotion s :: post
    /\ Forall (fun e => (occurrences e (messages c)
                         < occurrences (dominantEmotion s) (messages c))%nat) pre
    /\ Forall (fun e => (occurrences e (messages c)
                         <= occurrences (dominantEmotion s) (messages c))%nat) post.
Proof.
  intros (m & Hm & He) Hown Hplain.
  set (t := tally (messages c)).
  assert (Hkeys : Object_keys (emotionCounts t) = first_seen (emotion_labels (messages c))).
  { unfold t, tally, first_seen. now rewrite tally_keys_order. }
  assert (Hcount : forall e k, In (e, k) (emotionCounts t) ->
                               k = Counted (occurrences e (messages c))).
  { intros e k Hin.
    pose proof (obj_in_get _ _ _ (tally_keys_NoDup (messages c)) Hin) as Hg.
    fold t in Hg. unfold t in Hg. rewrite (tally_counts _ _ Hown) in Hg.
    destruct (occurrences e (messages c) =? 0)%nat; congruence. }
  assert (Hdist : emotionCounts t
                  = List.map (fun e => (e, Counted (occurrences e (messages c))))
                      (first_seen (emotion_labels (messages c)))).
  { rewrite <- Hkeys. unfold Object_keys. rewrite List.map_map.
    rewrite <- (List.map_id (emotionCounts t)) at 1.
    apply List.map_ext_in. intros [e k] Hin. cbn [fst]. f_equal. now apply Hcount. }
  destruct (emotion_of m) as [e0|] eqn:Ee; [|congruence].
  destruct (updateEmotionalSummary_written c) as (s & Hs & _ & Hd & _ & n & sorted & Hsort).
  { exists e0. split; [apply emotion_labels_In; now exists m|].
    intros ->. unfold plain_labels in Hown.
    assert (Hin : In "__proto__" (emotion_labels (messages c)))
      by (apply emotion_labels_In; now exists m).
    pose proof (proj1 (List.Forall_forall _ _) Hown _ Hin) as Hf. discriminate Hf. }
  fold t in Hd, Hsort.
  destruct (sort_by_count_first_max _ _ _ (tally_holds_numbers _ Hown) Hsort)
    as (pre & post & Hl & Hpre & Hpost).
  fold t in Hl. cbn [snd] in Hpre, Hpost.
  assert (Hn : n = Counted (occurrences (dominantEmotion s) (messages c))).
  { apply Hcount. rewrite Hl. apply in_or_app. right. now left. }
  subst n. cbn [counted] in Hpre, Hpost.
  exists s, (List.map fst pre), (List.map fst post).
  split; [now rewrite Hs|]. split; [now rewrite Hd|]. split.
  - rewrite <- Hkeys, Hl. unfold Object_keys. rewrite List.map_app. reflexivity.
  - split; apply List.Forall_forall; intros e Hin; apply in_map_iff in Hin;
      destruct Hin as ([e' k] & <- & Hin); cbn [fst].
    + rewrite List.Forall_forall in Hpre. specialize (Hpre _ Hin). cbn [snd] in Hpre.
      rewrite (Hcount e' k) in Hpre; [exact Hpre|].
      rewrite Hl. apply in_or_app. now left.
    + rewrite List.Forall_forall in Hpost. specialize (Hpost _ Hin). cbn [snd] in Hpost.
      rewrite (Hcount e' k) in Hpost; [exact Hpost|].
      rewrite Hl. apply in_or_app. right. now right.
Qed.

Lemma dominantEmotion_first_of_ties_witness :
  Forall (fun c =>
            exists s,
              emotionalSummary (updateEmotionalSummary c) = Some s
              /\ dominantEmotion s = "happy"
              /\ Permutation (emotionDistribution s)
                   [("happy", Counted 2); ("sad", Counted 1)])
    [currentOf happyHappySad; currentOf happySadHappy; currentOf sadHappyHappy].
Proof.
  apply List.Forall_forall. intros c Hc.
  destruct (dominantEmotion_first_of_ties c) as (s & pre & post & Hs & Hd & _).
  - vm_compute in Hc. destruct Hc as [<- | [<- | [<- | []]]];
      (eexists; split; [left; reflexivity | discriminate]).
  - apply List.Forall_forall. intros e He.
    vm_compute in Hc. destruct Hc as [<- | [<- | [<- | []]]];
      vm_compute in He; repeat (destruct He as [<- | He]; [reflexivity|]); destruct He.
  - apply List.Forall_forall. intros e He.
    vm_compute in Hc. destruct Hc as [<- | [<- | [<- | []]]];
      vm_compute in He; repeat (destruct He as [<- | He]; [reflexivity|]); destruct He.
  - exists s. split; [exact Hs|].
    vm_compute in Hc. destruct Hc as [<- | [<- | [<- | []]]];
      vm_compute in Hs; injection Hs as <-; split; try reflexivity;
      cbn [emotionDistribution]; first [apply Permutation_refl | apply perm_swap].
Defined.
